(* ===== verification/_CoqProject ===== *)
-Q . S2P
Prelude.v
Outcome.v
Rounding.v
Digits.v
RoundRef.v
Binary64.v
Validity.v
Accuracy.v
Integers.v
FloatParse.v
FloatLanguage.v
FloatFormat.v
Circle.v
RoundTrip.v
Runtime.v
Script.v
CPython.v
Program.v
