(* ===== verification/Prelude.v ===== *)
(** * Verification of [area_w_arguments.py]

    The program ([src/02-Main_useful_python_modules/area_w_arguments.py]) is a
    command-line script: it reads a shape name and a number from [sys.argv],
    computes the area of a square ([x**2]) or of a circle ([3.14159 * r**2])
    in IEEE-754 double precision and prints it with two decimals.  Its text is
    thirty lines; its behaviour is that of the interpreter operations those
    lines call: list indexing (which raises [IndexError]), [float(str)]
    (which raises [ValueError]), [float ** int] (which raises
    [OverflowError]), [float * float] (which overflows silently to [inf]),
    ['%.2f' % float], [print] and [exit()].  The development models the script
    line by line and each of these operations bit for bit, and proves what the
    script does on every argument vector.

    ** Files, in dependency order

    - [Prelude] (this file): shared tactics, the hint databases, characters
      and decimal digits, lemmas on lists, strings and integers.
    - [Outcome]: the effects of a Python statement as a monad [py]: a state
      (the lines written to standard output so far) and a result that is a
      value or a raised exception ([exn]: [IndexError], [ValueError],
      [OverflowError], [SystemExit]).  [print], [exit()], [raise], the
      subscript [l[i]], the exit status of the process.
    - [Rounding]: round-half-even on integers ([rne]) with its error bound,
      rounding down and up ([floor_pick], [ceil_pick]), and the shift with
      round and sticky bits of [SpecFloat] against the division by a power
      of two.
    - [Digits]: the number of binary digits of an integer.
    - [RoundRef]: rounding to the format by a quotient, for any rounding
      of the quotient ([round_gen]); to nearest ([round_ref]) it is proved
      equal to the bitwise rounding of [SpecFloat]; its result is a float
      of the format, the rounded mantissa, and the value itself when the
      format holds it; product, quotient and [binary_round] as instances.
    - [Binary64]: double-precision floats as [SpecFloat.spec_float] at
      precision 53 and maximal exponent 1024; multiplication
      ([float.__mul__]), the squaring [x ** 2] as [float.__pow__] evaluates
      it (special cases first, then the C library's [pow], an overflow
      turned into [OverflowError]), the C library as a class [Libm] with
      its contract [LibmFaithful], and the conversion of a decimal
      [d * 10^e] to the nearest double (the literal [3.14159], and the
      numeric core of [float(str)]).
    - [Validity]: every float those operations return is a double; the
      square overflows exactly from [2^512] on; [x ** 2] is [x * x] when
      the square needs no rounding.
    - [Accuracy]: a finite product and a finite conversion of a decimal are
      within half a unit in the last place of the exact value.
    - [Integers]: integers below [2^53] are doubles, and their conversion,
      product and square are exact.
    - [FloatParse]: [float(str)]: the non-ASCII transformation, the
      underscore rule, whitespace stripping, the grammar of [strtod] and of
      [inf]/[nan], and the correctly rounded value.
    - [FloatLanguage]: the first two steps of [float(str)] added to the
      grammar: the conversion on every string, in one theorem.
    - [FloatFormat]: ['%.2f' % x]: sign, [inf], [nan], and the decimal
      expansion of a finite double rounded half-even at the second decimal.
    - [Circle]: the product [3.14159 * n^2] for an integer [n] and the
      hundredths printed for it.
    - [RoundTrip]: [float] reads back every string ['%.2f'] writes.
    - [Runtime]: the interface between the script and the interpreter's
      float operations, a class [PyFloat] of the operations the script
      calls and a class [PyFloatLaws] of the laws the script's properties
      need (exceptions, signs, validity).
    - [Script]: the script itself over any [PyFloat]: [square], [circle]
      and [main] (the three top-level [if] statements in their order), an
      abstract specification [spec_main] (one exhaustive case split on the
      argument vector) and the refinement theorem between the two; the
      safety properties of every run.
    - [CPython]: the instance of [PyFloat] by [Binary64], [FloatParse] and
      [FloatFormat] for a C library, and of [PyFloatLaws] when the library
      is faithful.
    - [Program]: the script at that instance, for every faithful library:
      the runs the specification lists as test cases, the behaviours it
      leaves out, a table of runs compared with the interpreter, the exact
      output on integer arguments, an argument on which [x ** 2] is not
      [x * x], and the general theorems applied to concrete inputs.

    ** Correspondence with the source

    - lines 5-9, [def square(x): return x**2]: [Script.square], which calls
      [flt_pow2] ([Binary64.float_pow2] in the instance).
    - lines 11-16, [def circle(r)]: [Script.circle]; [pi = 3.14159] is
      [flt_of_decimal 314159 (-5)], the double nearest to the literal
      ([Circle.pi]), and [pi * r**2] is [flt_mul pi (r ** 2)], [**] binding
      tighter than [*].
    - lines 18-20, the usage test: [Script.usage_stmt].
    - lines 22-24, [if sys.argv[1] == 'square']: [Script.square_stmt].
    - lines 26-31, [if sys.argv[1] == 'circle' ... elif ...]:
      [Script.circle_stmt]; the [elif] condition uses [&], which evaluates
      both operands, modelled by [andb] after both subscripts.
    - the whole script: [Script.main], the three statements in sequence;
      [Program.area_w_arguments] runs it from an empty output.
    - the calls of lines 24 and 28: [float(x)] is
      [FloatParse.float_of_string], ['Area = %.2f' % a] is
      [FloatFormat.format_area]; the functions of those two files follow the
      C functions of CPython they are named after.

    ** What the theorems show

    - [Script]: [main] refines [spec_main] on every argument vector and
      every initial output; a run prints at most one line and does not
      depend on the output before it; a run that raises an error prints
      nothing; each exception has exactly one cause; the usage, square,
      circle and unknown-shape paths, errors included; under the laws,
      every line printed is the usage line, the unknown-shape message or
      the area of a float of the format that is not negative.
    - [Outcome]: what a subscript returns and when it raises
      ([subscript_spec]), the monad laws, and that output only grows.
    - [Rounding], [Digits], [RoundRef]: the bitwise rounding of [SpecFloat]
      equals the rounding by quotient; its results are floats of the
      format, within half a unit in the last place, and exact on values the
      format holds.
    - [Binary64], [Validity], [Accuracy], [Integers]: [x ** 2] is even in
      [x], overflows exactly when [2^512 <= |x|], is otherwise the exact
      square rounded down or up, and is [x * x] when the square is a
      double; products and conversions are doubles and correctly rounded;
      arithmetic on integers below [2^53] is exact.
    - [FloatParse], [FloatLanguage]: the last three steps of [float]
      accept exactly the strings of a grammar ([accepts]: a numeral or
      [inf], [infinity], [nan], between white space), each with its value;
      on every string, [float] returns [v] exactly when its underscores
      stand between digits and the string without them, Unicode spaces
      read as blanks, is in the grammar with the value [v], and raises
      [ValueError] otherwise ([float_of_string_language]).
    - [FloatFormat], [RoundTrip]: the error of the hundredths printed; the
      round trip from ['%.2f'] to [float].
    - [Circle], [Program]: a run with a faithful library is the run with
      squares rounded down or the run with squares rounded up, so a run on
      which the two agree is decided by evaluation; the test cases of the
      specification and 70 runs compared with the interpreter; the square
      of an integer argument is printed exactly and the area of a circle of
      integer radius up to 100000 is the correctly rounded decimal, ties
      apart; the behaviours the specification leaves out
      ([OverflowError], [Area = inf], [Area = nan], ties, a square that
      is not the product); the outcome of a run on a shape and any value,
      by what [float] returns on it ([run_outcomes]); every area printed
      has exactly two decimals, or is [inf] or [nan]
      ([printed_area_two_decimals]).

    ** Bounds and assumptions

    - The interpreter is CPython 3; the behaviours were compared with
      CPython 3.11 on glibc 2.36.  Under Python 2 the script runs too, but
      ['%.2f'] switches to an exponent from [1e50] on and [float] refuses
      underscores: that interpreter is not the one modelled.
    - A [str] is modelled as a [string] of characters with code points
      below 256; code points above are outside the model.  No recursion in
      the model needs fuel: every function is structural on its input, so
      every run of the model ends.
    - [x ** 2] calls the C library's [pow(x, 2.0)].  The C standard does
      not promise a correctly rounded result and glibc does not return one
      on every square ([123456789.0 ** 2] is [15241578750190522.0], and
      [123456789.0 * 123456789.0] is [15241578750190520.0]).  The library
      is therefore a parameter, [Binary64.Libm], and the one assumption on
      it is [Binary64.LibmFaithful]: on a finite positive double it returns
      the exact square rounded down or rounded up, an error below one unit
      in the last place, which the libraries CPython is built on satisfy.
      The theorems of [Validity], [Integers], [CPython] and [Program] hold
      for every such library; [libm_down], [libm_up] and [libm_nearest]
      satisfy the assumption, and the concrete instances at the end of
      [Program] are evaluated with [libm_nearest].  A square that
      underflows raises nothing: CPython clears the range error the
      library reports with a zero, and the library reports none with a
      subnormal result.
    - Decimal-to-binary conversion is exact arithmetic on [Z] followed by
      one rounding; CPython's limit of 10^9 digits per literal is beyond any
      argument the operating system passes.
    - The theorems on integer arguments are stated for squares below
      [2^53] and for radii up to 100000; beyond, the roundings can show in
      the digits printed.

    ** Not modelled

    - The traceback text written to standard error by an uncaught
      exception; only the exception's class and the exit status are.
    - Failure of [print] itself (a closed or full standard output), and
      the start-up of the interpreter (the decoding of [sys.argv], the
      [site] module that defines [exit]).
    - NaN payloads and the sign of a NaN, which no operation of the script
      observes. *)

From Stdlib Require Import ZArith String Ascii Bool Lia List.
Import ListNotations.

(** ** Tactics *)

(** [inv H]: inversion that cleans up after itself. *)
Ltac inv H := inversion H; subst; clear H.

(** [destr_match]: case analysis on the scrutinee of a [match] or [if] of the
    goal, innermost first, keeping the equation. *)
Ltac destr_match :=
  match goal with
  | |- context [match ?x with _ => _ end] =>
    lazymatch x with
    | context [match _ with _ => _ end] => fail
    | _ => destruct x eqn:?
    end
  end.

(** [destr_match_in H]: the same in a hypothesis. *)
Ltac destr_match_in H :=
  match type of H with
  | context [match ?x with _ => _ end] =>
    lazymatch x with
    | context [match _ with _ => _ end] => fail
    | _ => destruct x eqn:?
    end
  end.

(** [bool_to_prop]: boolean tests of the hypotheses as propositions. *)
Ltac bool_to_prop :=
  repeat match goal with
  | H : andb _ _ = true |- _ => apply andb_true_iff in H; destruct H
  | H : andb _ _ = false |- _ => apply andb_false_iff in H
  | H : orb _ _ = true |- _ => apply orb_true_iff in H
  | H : orb _ _ = false |- _ => apply orb_false_iff in H; destruct H
  | H : negb _ = true |- _ => apply negb_true_iff in H
  | H : negb _ = false |- _ => apply negb_false_iff in H
  | H : (_ =? _)%string = true |- _ => apply String.eqb_eq in H
  | H : (_ =? _)%string = false |- _ => apply String.eqb_neq in H
  | H : (_ =? _)%Z = true |- _ => apply Z.eqb_eq in H
  | H : (_ =? _)%Z = false |- _ => apply Z.eqb_neq in H
  | H : (_ <=? _)%Z = true |- _ => apply Z.leb_le in H
  | H : (_ <=? _)%Z = false |- _ => apply Z.leb_gt in H
  | H : (_ <? _)%Z = true |- _ => apply Z.ltb_lt in H
  | H : (_ <? _)%Z = false |- _ => apply Z.ltb_ge in H
  | H : (_ =? _)%nat = true |- _ => apply Nat.eqb_eq in H
  | H : (_ =? _)%nat = false |- _ => apply Nat.eqb_neq in H
  end.

(** ** Hint databases

    [pyarea]: resolution hints shared by the components.
    [pysimp]: rewriting rules that evaluate the monad and the list
    operations. *)
Create HintDb pyarea.
Create Rewrite HintDb pysimp.

(** ** Lists *)

Section Lists.
Context {A : Type}.

(** The subscript of a list: [None] out of range. *)
Lemma nth_error_in_range (l : list A) (i : nat) :
  (i < length l)%nat -> exists x, nth_error l i = Some x.
Proof.
  intros H. destruct (nth_error l i) eqn:E; [eauto|].
  apply nth_error_None in E. lia.
Qed.

Lemma nth_error_out_of_range (l : list A) (i : nat) :
  (length l <= i)%nat -> nth_error l i = None.
Proof. apply nth_error_None. Qed.

Lemma length_one_inv (l : list A) :
  length l = 1%nat -> exists x, l = [x].
Proof. destruct l as [|x [|y l]]; simpl; intros; try discriminate; eauto. Qed.

Lemma app_eq_self_l (l k : list A) : l ++ k = l -> k = [].
Proof.
  intros H. apply (f_equal (@length A)) in H. rewrite length_app in H.
  destruct k; [reflexivity | simpl in H; lia].
Qed.

(** The last element of a list, the default being the element before
    it. *)
Lemma last_cons (c d : A) (l : list A) : last (c :: l) d = last l c.
Proof.
  revert c d. induction l as [|a l IH]; intros c d; [reflexivity|].
  change (last (c :: a :: l) d) with (last (a :: l) d). now rewrite !IH.
Qed.

Lemma forallb_impl (P Q : A -> bool) (l : list A) :
  (forall a, P a = true -> Q a = true) -> forallb P l = true -> forallb Q l = true.
Proof.
  intros H. induction l as [|a l IH]; cbn [forallb]; [auto|].
  intros [Ha Hl]%andb_true_iff. now rewrite (H a Ha), IH.
Qed.

Lemma forallb_rev (f : A -> bool) (l : list A) : forallb f (rev l) = forallb f l.
Proof.
  induction l as [|a l IH]; [reflexivity|]. cbn [rev forallb].
  rewrite forallb_app, IH. cbn. rewrite andb_true_r. apply andb_comm.
Qed.

Lemma forallb_map {B} (f : A -> B) (P : B -> bool) (l : list A) :
  forallb P (map f l) = forallb (fun a => P (f a)) l.
Proof. induction l as [|a l IH]; cbn [map forallb]; [reflexivity|]. now rewrite IH. Qed.

End Lists.

#[export] Hint Resolve nth_error_out_of_range : pyarea.
#[export] Hint Rewrite @app_nil_r @app_nil_l : pysimp.

(** ** Strings *)

Open Scope string_scope.

Lemma string_eqb_refl (s : string) : (s =? s) = true.
Proof. apply String.eqb_refl. Qed.

Lemma string_app_assoc (a b c : string) : (a ++ b) ++ c = a ++ (b ++ c).
Proof. induction a; simpl; congruence. Qed.

Lemma string_app_nil_r (a : string) : a ++ EmptyString = a.
Proof. induction a; simpl; congruence. Qed.

Lemma string_length_app (a b : string) :
  String.length (a ++ b) = (String.length a + String.length b)%nat.
Proof. induction a; simpl; congruence. Qed.

(** A string that starts with a given prefix. *)
Fixpoint starts_with (p s : string) : bool :=
  match p, s with
  | EmptyString, _ => true
  | String a p', String b s' => Ascii.eqb a b && starts_with p' s'
  | String _ _, EmptyString => false
  end.

Lemma starts_with_app (p s : string) : starts_with p (p ++ s) = true.
Proof. induction p; simpl; [reflexivity|]. now rewrite Ascii.eqb_refl. Qed.

Lemma starts_with_inv (p s : string) :
  starts_with p s = true -> exists r, s = p ++ r.
Proof.
  revert s. induction p as [|a p IH]; intros s H; simpl in *; [eauto|].
  destruct s as [|b s]; [discriminate|].
  apply andb_true_iff in H as [Hab Hps]. apply Ascii.eqb_eq in Hab. subst b.
  destruct (IH _ Hps) as [r ->]. eauto.
Qed.

Lemma string_app_inv_head (p a b : string) : p ++ a = p ++ b -> a = b.
Proof. induction p; simpl; intros H; [assumption|]. inversion H. auto. Qed.

#[export] Hint Rewrite string_eqb_refl string_app_nil_r : pysimp.
#[export] Hint Resolve starts_with_app : pyarea.

Close Scope string_scope.

(** ** Characters and decimal digits *)

(** The code point of a character. *)
Definition code (c : ascii) : N := N_of_ascii c.

(** ['0' <= c <= '9'], the test the C code writes on characters. *)
Definition is_digit (c : ascii) : bool :=
  (N.leb 48 (code c) && N.leb (code c) 57)%bool.

(** [c - '0'] for a digit [c]. *)
Definition digit_val (c : ascii) : Z := Z.of_N (code c) - 48.

(** ['0' + d] for [0 <= d <= 9]. *)
Definition digit_char (d : Z) : ascii := ascii_of_N (Z.to_N (d + 48)).

Lemma is_digit_val (c : ascii) : is_digit c = true -> (0 <= digit_val c <= 9)%Z.
Proof.
  unfold is_digit, digit_val. intros H.
  apply andb_true_iff in H as [H1 H2].
  apply N.leb_le in H1, H2. lia.
Qed.

Lemma digit_char_is_digit (d : Z) : (0 <= d <= 9)%Z -> is_digit (digit_char d) = true.
Proof.
  intros H.
  assert (d = 0 \/ d = 1 \/ d = 2 \/ d = 3 \/ d = 4 \/ d = 5 \/ d = 6 \/ d = 7
          \/ d = 8 \/ d = 9)%Z as Hd by lia.
  repeat (destruct Hd as [-> | Hd]; [reflexivity|]). subst. reflexivity.
Qed.

Lemma digit_val_char (d : Z) : (0 <= d <= 9)%Z -> digit_val (digit_char d) = d.
Proof.
  intros H.
  assert (d = 0 \/ d = 1 \/ d = 2 \/ d = 3 \/ d = 4 \/ d = 5 \/ d = 6 \/ d = 7
          \/ d = 8 \/ d = 9)%Z as Hd by lia.
  repeat (destruct Hd as [-> | Hd]; [reflexivity|]). subst. reflexivity.
Qed.

Lemma digit_char_val (c : ascii) : is_digit c = true -> digit_char (digit_val c) = c.
Proof.
  unfold is_digit, digit_val, digit_char, code. intros H.
  apply andb_true_iff in H as [H1 H2]. apply N.leb_le in H1, H2.
  replace (Z.of_N (N_of_ascii c) - 48 + 48)%Z with (Z.of_N (N_of_ascii c)) by lia.
  rewrite N2Z.id. apply ascii_N_embedding.
Qed.

(** The value of a string of digits read left to right, from [acc]. *)
Fixpoint digits_value (acc : Z) (l : list ascii) : Z :=
  match l with
  | [] => acc
  | c :: l' => digits_value (10 * acc + digit_val c) l'
  end.

Lemma digits_value_app (acc : Z) (l k : list ascii) :
  digits_value acc (l ++ k) = digits_value (digits_value acc l) k.
Proof. revert acc. induction l; simpl; auto. Qed.

Lemma digits_value_shift (acc : Z) (l : list ascii) :
  digits_value acc l = (acc * 10 ^ Z.of_nat (length l) + digits_value 0 l)%Z.
Proof.
  revert acc. induction l as [|c l IH]; intros acc.
  - simpl. lia.
  - cbn [digits_value length]. rewrite IH, (IH (10 * 0 + digit_val c)%Z).
    rewrite Nat2Z.inj_succ, Z.pow_succ_r by lia. ring.
Qed.

Lemma digits_value_nonneg (acc : Z) (l : list ascii) :
  (0 <= acc)%Z -> forallb is_digit l = true -> (0 <= digits_value acc l)%Z.
Proof.
  revert acc. induction l as [|c l IH]; intros acc Hacc Hl;
    cbn [digits_value forallb] in *; [assumption|].
  apply andb_true_iff in Hl as [Hc Hl]. apply IH; [|assumption].
  pose proof (is_digit_val c Hc). lia.
Qed.

(** ** Integers *)

Lemma pow2_pos (n : Z) : (0 <= n -> 0 < 2 ^ n)%Z.
Proof. intros. apply Z.pow_pos_nonneg; lia. Qed.

Lemma pow10_pos (n : Z) : (0 <= n -> 0 < 10 ^ n)%Z.
Proof. intros. apply Z.pow_pos_nonneg; lia. Qed.

#[export] Hint Resolve pow2_pos pow10_pos : pyarea.
