(* ===== verification/Outcome.v ===== *)
(** * Outcome: the effects of a Python statement

    A statement of the script either completes or raises an exception, and
    may write lines to standard output on the way.  This file models that as
    a monad [py]: a computation takes the lines written so far and returns a
    [result] (a value, or the exception raised) with the lines written then.
    It holds the operations of the interpreter the script calls that are not
    about floats: [print], [exit()], the subscript [l[i]] and [len], and the
    exit status of the process. *)

From Stdlib Require Import ZArith String Ascii Bool Lia List.
From stdpp Require Import base decidable.
From S2P Require Import Prelude.
Import ListNotations.

(** ** Exceptions and results *)

(** The exception classes a run of the script can raise.  [SystemExit] is
    what [exit()] raises; the other three are errors. *)
Inductive exn : Type :=
| IndexError
| ValueError
| OverflowError
| SystemExit.

#[export] Instance exn_eq_dec : EqDecision exn.
Proof. solve_decision. Defined.

(** The result of evaluating an expression or a statement. *)
Inductive result (A : Type) : Type :=
| Ok (a : A)
| Raise (e : exn).
Arguments Ok {A} a.
Arguments Raise {A} e.

#[export] Instance result_eq_dec {A} `{EqDecision A} : EqDecision (result A).
Proof. solve_decision. Defined.

(** [is_error r]: the result is an exception other than [SystemExit]. *)
Definition is_error {A} (r : result A) : bool :=
  match r with
  | Ok _ => false
  | Raise SystemExit => false
  | Raise _ => true
  end.

(** The exit status of the interpreter: 0 when the script completes or calls
    [exit()], 1 when an exception reaches the top level. *)
Definition exit_status {A} (r : result A) : Z :=
  if is_error r then 1%Z else 0%Z.

(** ** The monad *)

(** Standard output: the lines printed, oldest first. *)
Definition stdout : Type := list string.

Definition py (A : Type) : Type := stdout -> result A * stdout.

Definition ret {A} (a : A) : py A := fun out => (Ok a, out).

Definition bind {A B} (c : py A) (f : A -> py B) : py B :=
  fun out =>
    match c out with
    | (Ok a, out') => f a out'
    | (Raise e, out') => (Raise e, out')
    end.

Definition raise {A} (e : exn) : py A := fun out => (Raise e, out).

(** An expression whose evaluation touches no output. *)
Definition lift {A} (r : result A) : py A := fun out => (r, out).

Declare Scope py_scope.
Delimit Scope py_scope with py.
Bind Scope py_scope with py.

Notation "x <- c1 ;; c2" := (bind c1 (fun x => c2))
  (at level 100, c1 at next level, right associativity) : py_scope.
Notation "c1 ;; c2" := (bind c1 (fun _ => c2))
  (at level 100, right associativity) : py_scope.

Open Scope py_scope.

(** [run c out]: the computation from output [out]. *)
Definition run {A} (c : py A) (out : stdout) : result A * stdout := c out.

(** ** Interpreter operations *)

(** [print(s)]: one more line on standard output. *)
Definition print (s : string) : py unit := fun out => (Ok tt, out ++ [s]).

(** [exit()]: raises [SystemExit]. *)
Definition py_exit : py unit := raise SystemExit.

(** [len(l)]. *)
Definition len {A} (l : list A) : Z := Z.of_nat (length l).

(** [l[i]]: a negative index counts from the end; an index out of range
    raises [IndexError]. *)
Definition subscript {A} (l : list A) (i : Z) : result A :=
  let j := if (i <? 0)%Z then (i + len l)%Z else i in
  if ((j <? 0) || (len l <=? j))%Z then Raise IndexError
  else match nth_error l (Z.to_nat j) with
       | Some x => Ok x
       | None => Raise IndexError
       end.

(** The bytes standard output holds after the run: every line and its
    newline. *)
Definition render (out : stdout) : string :=
  fold_right (fun l acc => (l ++ String "010"%char acc)%string) EmptyString out.

(** ** Computations that only write

    [write_only c]: [c] never reads the output it is given; it appends to
    it.  Every computation built from the operations above is so. *)
Definition write_only {A} (c : py A) : Prop :=
  forall out, c out = (fst (c []), out ++ snd (c [])).

(** Evaluation of the monad operations. *)
Ltac py_unfold := unfold run, bind, ret, raise, lift, print, py_exit in *.

Section Laws.
Context {A B C : Type}.

Lemma run_ret (a : A) out : run (ret a) out = (Ok a, out).
Proof. reflexivity. Qed.

Lemma run_raise (e : exn) out : run (@raise A e) out = (Raise e, out).
Proof. reflexivity. Qed.

Lemma run_lift (r : result A) out : run (lift r) out = (r, out).
Proof. reflexivity. Qed.

Lemma run_bind_ok (c : py A) (f : A -> py B) out a out' :
  run c out = (Ok a, out') -> run (bind c f) out = run (f a) out'.
Proof. py_unfold. now intros ->. Qed.

Lemma run_bind_raise (c : py A) (f : A -> py B) out e out' :
  run c out = (Raise e, out') -> run (bind c f) out = (Raise e, out').
Proof. py_unfold. now intros ->. Qed.

(** Inversion of a bind that completes. *)
Lemma run_bind_inv_ok (c : py A) (f : A -> py B) out b out'' :
  run (bind c f) out = (Ok b, out'') ->
  exists a out', run c out = (Ok a, out') /\ run (f a) out' = (Ok b, out'').
Proof.
  py_unfold. destruct (c out) as [[a|e] out'] eqn:E; intros H; [eauto | discriminate].
Qed.

(** The monad laws, pointwise. *)
Lemma bind_ret_l (a : A) (f : A -> py B) out : run (bind (ret a) f) out = run (f a) out.
Proof. reflexivity. Qed.

Lemma bind_ret_r (c : py A) out : run (bind c ret) out = run c out.
Proof. py_unfold. now destruct (c out) as [[a|e] out']. Qed.

(** Sequencing is associative.  Running [c], then [f], then [g] does
    not depend on how the three are grouped: the result, the exception
    raised and the output are the same. *)
Lemma bind_assoc (c : py A) (f : A -> py B) (g : B -> py C) out :
  run (bind (bind c f) g) out = run (bind c (fun a => bind (f a) g)) out.
Proof. py_unfold. now destruct (c out) as [[a|e] out']. Qed.

Lemma bind_lift_ok (a : A) (f : A -> py B) out :
  run (bind (lift (Ok a)) f) out = run (f a) out.
Proof. reflexivity. Qed.

Lemma bind_lift_raise (e : exn) (f : A -> py B) out :
  run (bind (lift (Raise e)) f) out = (Raise e, out).
Proof. reflexivity. Qed.

Lemma write_only_ret (a : A) : write_only (ret a).
Proof. intros out. unfold ret. simpl. now rewrite app_nil_r. Qed.

Lemma write_only_raise (e : exn) : write_only (@raise A e).
Proof. intros out. unfold raise. simpl. now rewrite app_nil_r. Qed.

Lemma write_only_lift (r : result A) : write_only (lift r).
Proof. intros out. unfold lift. simpl. now rewrite app_nil_r. Qed.

Lemma write_only_bind (c : py A) (f : A -> py B) :
  write_only c -> (forall a, write_only (f a)) -> write_only (bind c f).
Proof.
  intros Hc Hf out. unfold bind. rewrite (Hc out).
  destruct (c []) as [[a|e] o]; simpl; [|reflexivity].
  rewrite (Hf a (out ++ o)), (Hf a o). simpl. now rewrite app_assoc.
Qed.

End Laws.

Lemma run_print (s : string) out : run (print s) out = (Ok tt, out ++ [s]).
Proof. reflexivity. Qed.

Lemma run_py_exit out : run py_exit out = (Raise SystemExit, out).
Proof. reflexivity. Qed.

Lemma write_only_print (s : string) : write_only (print s).
Proof. intros out. reflexivity. Qed.

Lemma write_only_py_exit : write_only py_exit.
Proof. apply write_only_raise. Qed.

Lemma write_only_if {A} (b : bool) (c1 c2 : py A) :
  write_only c1 -> write_only c2 -> write_only (if b then c1 else c2).
Proof. now destruct b. Qed.

#[export] Hint Resolve write_only_ret write_only_raise write_only_lift
  write_only_print write_only_py_exit write_only_if : pyarea.
#[export] Hint Rewrite @run_ret @run_raise @run_lift @bind_lift_ok
  @bind_lift_raise run_print run_py_exit : pysimp.

(** [write_only_tac]: a computation written with the operations of this file
    is write-only. *)
Ltac write_only_tac :=
  repeat first
    [ apply write_only_bind; [|intros ?]
    | apply write_only_if
    | solve [auto with pyarea] ].

(** ** The subscript *)

Section Subscript.
Context {A : Type}.
Implicit Types (l front back : list A) (x : A) (i : Z).

Lemma len_nonneg l : (0 <= len l)%Z.
Proof. unfold len. lia. Qed.

(** In range, from the front. *)
Lemma subscript_nonneg l i x :
  (0 <= i)%Z -> nth_error l (Z.to_nat i) = Some x -> subscript l i = Ok x.
Proof.
  intros Hi Hx. unfold subscript.
  assert (Z.to_nat i < length l)%nat by (apply nth_error_Some; congruence).
  destruct (Z.ltb_spec i 0); [lia|]. cbv zeta.
  destruct (Z.ltb_spec i 0); [lia|].
  destruct (Z.leb_spec (len l) i); [unfold len in *; lia|].
  simpl. now rewrite Hx.
Qed.

(** Out of range, from the front. *)
Lemma subscript_too_far l i :
  (len l <= i)%Z -> subscript l i = Raise IndexError.
Proof.
  intros Hi. pose proof (len_nonneg l). unfold subscript.
  destruct (Z.ltb_spec i 0); [lia|]. cbv zeta.
  destruct (Z.leb_spec (len l) i); [|lia].
  now rewrite orb_true_r.
Qed.

(** A negative index counts from the end. *)
Lemma subscript_negative l i :
  (- len l <= i < 0)%Z -> subscript l i = subscript l (i + len l).
Proof.
  intros Hi. unfold subscript.
  assert ((i <? 0)%Z = true) as E1 by (apply Z.ltb_lt; lia).
  assert ((i + len l <? 0)%Z = false) as E2 by (apply Z.ltb_ge; lia).
  now rewrite E1, !E2.
Qed.

(** The element at the position [length front]. *)
Lemma subscript_middle front x back :
  subscript (front ++ x :: back) (len front) = Ok x.
Proof.
  apply subscript_nonneg; [apply len_nonneg|].
  unfold len. rewrite Nat2Z.id, nth_error_app2, Nat.sub_diag by lia. reflexivity.
Qed.

Lemma len_middle front x back :
  len (front ++ x :: back) = (len front + len (x :: back))%Z.
Proof. unfold len. rewrite length_app. lia. Qed.

(** A subscript that returns, returns the element at its position, counted
    from the front or from the end. *)
Lemma subscript_ok_inv l i x :
  subscript l i = Ok x ->
  exists front back, l = front ++ x :: back /\ (i = len front \/ i = (- len (x :: back))%Z).
Proof.
  unfold subscript. cbv zeta.
  destruct ((_ <? 0)%Z || _)%bool eqn:Hr; [discriminate|].
  destruct (nth_error l _) as [y|] eqn:Hn; [|discriminate]. intros H. inv H.
  apply nth_error_split in Hn as (front & back & -> & Hlen).
  exists front, back. split; [reflexivity|].
  rewrite len_middle in *. apply orb_false_iff in Hr as [H1 H2]. bool_to_prop.
  unfold len in *. destruct (Z.ltb_spec i 0); lia.
Qed.

(** Out of range, on either side. *)
Lemma subscript_out_of_range l i :
  ~ (- len l <= i < len l)%Z -> subscript l i = Raise IndexError.
Proof.
  intros Hi. pose proof (len_nonneg l). unfold subscript. cbv zeta.
  destruct ((_ <? 0)%Z || _)%bool eqn:Hr; [reflexivity|].
  apply orb_false_iff in Hr as [H1 H2]. bool_to_prop.
  destruct (Z.ltb_spec i 0); lia.
Qed.

(** In range, a subscript returns. *)
Lemma subscript_in_range l i :
  (- len l <= i < len l)%Z -> exists x, subscript l i = Ok x.
Proof.
  intros Hi.
  assert (forall j, (0 <= j < len l)%Z -> exists x, subscript l j = Ok x) as Hfront.
  { intros j Hj. destruct (nth_error_in_range l (Z.to_nat j)) as [x Hx];
      [unfold len in *; lia|].
    exists x. apply subscript_nonneg; [lia|assumption]. }
  destruct (Z.ltb_spec i 0).
  - rewrite subscript_negative by lia. apply Hfront. lia.
  - apply Hfront. lia.
Qed.

(** C29: what a subscript returns and when it raises.  [l[i]] returns [x]
    exactly when [x] stands in [l] at the position [i] counted from the
    front ([i] elements before it), or at the position [-i] counted from
    the end ([x] and what follows it are [-i] elements); it raises
    [IndexError] exactly when [i] is not in [-len(l) <= i < len(l)], and
    raises nothing else. *)
Theorem subscript_spec l i :
  (forall x, subscript l i = Ok x <->
     exists front back,
       l = front ++ x :: back /\ (i = len front \/ i = (- len (x :: back))%Z)) /\
  (subscript l i = Raise IndexError <-> ~ (- len l <= i < len l)%Z) /\
  (forall e, subscript l i = Raise e -> e = IndexError).
Proof.
  split; [|split].
  - intros x. split; [apply subscript_ok_inv|].
    intros (front & back & -> & [-> | ->]); [apply subscript_middle|].
    pose proof (len_nonneg front). pose proof (len_nonneg back).
    assert (0 < len (x :: back))%Z by (unfold len; cbn [length]; lia).
    rewrite subscript_negative by (rewrite len_middle; lia).
    rewrite len_middle. replace (_ + _)%Z with (len front) by lia. apply subscript_middle.
  - split; [|apply subscript_out_of_range].
    intros H Hi. destruct (subscript_in_range l i Hi) as [x Hx]. congruence.
  - unfold subscript. cbv zeta. repeat destr_match; congruence.
Qed.

(** What a successful subscript returns is an element of the list. *)
Lemma subscript_In l i x : subscript l i = Ok x -> In x l.
Proof.
  unfold subscript. cbv zeta. repeat destr_match; intros H; inv H;
    eapply nth_error_In; eassumption.
Qed.

End Subscript.

(** The subscripts the script writes, on lists given by their elements. *)
Lemma subscript_0 {A} (x : A) l : subscript (x :: l) 0 = Ok x.
Proof. apply subscript_nonneg; [lia | reflexivity]. Qed.

Lemma subscript_1 {A} (x y : A) l : subscript (x :: y :: l) 1 = Ok y.
Proof. apply subscript_nonneg; [lia | reflexivity]. Qed.

Lemma subscript_2 {A} (x y z : A) l : subscript (x :: y :: z :: l) 2 = Ok z.
Proof. apply subscript_nonneg; [lia | reflexivity]. Qed.

Lemma subscript_nil {A} i : subscript (@nil A) i = Raise IndexError.
Proof.
  unfold subscript, len. simpl. destruct (i <? 0)%Z eqn:E; bool_to_prop.
  - rewrite Z.add_0_r. now replace (i <? 0)%Z with true by (symmetry; apply Z.ltb_lt; lia).
  - replace (0 <=? i)%Z with true by (symmetry; apply Z.leb_le; lia).
    now rewrite orb_true_r.
Qed.

Lemma subscript_1_single {A} (x : A) : subscript [x] 1 = Raise IndexError.
Proof. apply subscript_too_far. unfold len. simpl. lia. Qed.

Lemma subscript_2_pair {A} (x y : A) : subscript [x; y] 2 = Raise IndexError.
Proof. apply subscript_too_far. unfold len. simpl. lia. Qed.

#[export] Hint Rewrite @subscript_0 @subscript_1 @subscript_2 @subscript_nil
  @subscript_1_single @subscript_2_pair : pysimp.

(** ** The exit status *)

Lemma exit_status_ok {A} (a : A) : exit_status (Ok a) = 0%Z.
Proof. reflexivity. Qed.

Lemma exit_status_range {A} (r : result A) :
  exit_status r = 0%Z \/ exit_status r = 1%Z.
Proof. unfold exit_status. destruct (is_error r); auto. Qed.

Lemma exit_status_error {A} (r : result A) :
  exit_status r = 1%Z <-> is_error r = true.
Proof. unfold exit_status. destruct (is_error r); split; intros; congruence || lia. Qed.

(** An error is an exception other than [SystemExit]. *)
Lemma is_error_iff {A} (r : result A) :
  is_error r = true <-> exists e, e <> SystemExit /\ r = Raise e.
Proof.
  split.
  - destruct r as [a|[]]; cbn; intros H; try discriminate; eexists; split; try reflexivity; discriminate.
  - intros (e & He & ->). now destruct e.
Qed.

(** ** Rendering *)

Lemma render_app (o1 o2 : stdout) : render (o1 ++ o2) = (render o1 ++ render o2)%string.
Proof.
  induction o1 as [|l o1 IH]; simpl; [reflexivity|].
  now rewrite IH, string_app_assoc.
Qed.
