(* ===== verification/Rounding.v ===== *)
(** * Rounding: shifts, sticky bits and round-half-even

    Every float operation of the script ends in one rounding: the exact
    result, a non-negative rational [num / W], is brought to the precision of
    the format by the shift of [SpecFloat] ([shr_1], iterated), which keeps a
    round bit and a sticky bit, and [round_nearest_even] reads the two bits.
    ['%.2f'] rounds the same way at the second decimal.

    This file states the rounding once, on integers, as [rne num W]: the
    integer nearest to [num / W], ties to the even one.  It proves that the
    shift of [SpecFloat] followed by [round_nearest_even] computes [rne]
    ([represents] is the invariant of the shift), that [rne] is within half a
    unit of the quotient, exact on multiples and determined by the
    half-integers on either side of the quotient, and that the rounding of
    [SpecFloat], [binary_round_aux], returns a zero, a finite number or an
    infinity of the sign it is given, never a NaN. *)

From Stdlib Require Import ZArith Bool Lia SpecFloat.
From S2P Require Import Prelude.
Open Scope Z_scope.

(** ** Definitions *)

(** [rne num W]: [num / W] rounded to the nearest integer, ties to even
    ([0 <= num], [0 < W]). *)
Definition rne (num W : Z) : Z :=
  let q := num / W in
  let r := num mod W in
  match 2 * r ?= W with
  | Lt => q
  | Eq => if Z.even q then q else q + 1
  | Gt => q + 1
  end.

(** Two other roundings of a quotient: down, and up. *)
Definition floor_pick (num W : Z) : Z := num / W.

Definition ceil_pick (num W : Z) : Z :=
  if num mod W =? 0 then num / W else num / W + 1.

(** [is_pick r]: [r num W] is the quotient of [num] by [W] rounded down or
    up, and the quotient itself when it is an integer.  [rne], [floor_pick]
    and [ceil_pick] are such roundings. *)
Definition is_pick (r : Z -> Z -> Z) : Prop :=
  forall num W, 0 < W ->
    (r num W = num / W \/ r num W = num / W + 1) /\
    (num mod W = 0 -> r num W = num / W).

(** [represents num W mrs]: the shift record [mrs] holds the quotient of
    [num] by [W], the round bit (the remainder is at least half of [W]) and
    the sticky bit (the remainder is neither zero nor half of [W]). *)
Definition represents (num W : Z) (mrs : shr_record) : Prop :=
  shr_m mrs = num / W /\
  shr_r mrs = (W <=? 2 * (num mod W)) /\
  shr_s mrs = negb (num mod W =? 0) && negb (2 * (num mod W) =? W).

(** [bool_cases]: case analysis on the integer comparisons of the goal. *)
Ltac bool_cases :=
  repeat match goal with
  | |- context [(?a <=? ?b)] => destruct (Z.leb_spec a b)
  | |- context [(?a =? ?b)] => destruct (Z.eqb_spec a b)
  | |- context [(?a <? ?b)] => destruct (Z.ltb_spec a b)
  end; cbn [orb andb negb]; try reflexivity; try lia.

(** ** The shift computes quotient, round bit and sticky bit *)

Lemma div_mod_double num W :
  0 < W -> num / (2 * W) = (num / W) / 2 /\
           num mod (2 * W) = num mod W + W * ((num / W) mod 2).
Proof.
  intros HW. split.
  - rewrite (Z.mul_comm 2 W). rewrite Z.div_div; lia.
  - rewrite (Z.mul_comm 2 W). rewrite Z.rem_mul_r; lia.
Qed.

Lemma shr_1_represents num W mrs :
  0 <= num -> 0 < W -> represents num W mrs -> represents num (2 * W) (shr_1 mrs).
Proof.
  intros Hnum HW (Hm & Hr & Hs). destruct mrs as [m r s].
  cbn [shr_m shr_r shr_s] in Hm, Hr, Hs.
  destruct (div_mod_double num W HW) as [Hq Hrem].
  pose proof (Z.mod_pos_bound num W HW) as Hb.
  pose proof (Z.div_pos num W Hnum HW) as Hq0.
  unfold represents. rewrite Hq, Hrem, <- Hm.
  assert (r || s = negb (num mod W =? 0)) as Hrs by (subst r s; bool_cases).
  set (rem := num mod W) in *. clearbody rem. clear Hq Hrem Hr Hs.
  destruct m as [|p|p]; [| |lia]; [|destruct p as [p|p|]]; cbn [shr_1 shr_m shr_r shr_s];
    rewrite Hrs; clear Hrs Hm.
  - change (0 / 2) with 0. change (0 mod 2) with 0. repeat split; bool_cases.
  - replace (Z.pos p~1 / 2) with (Z.pos p) by (apply Z.div_unique with 1; lia).
    replace (Z.pos p~1 mod 2) with 1 by (apply Z.mod_unique with (Z.pos p); lia).
    repeat split; bool_cases.
  - replace (Z.pos p~0 / 2) with (Z.pos p) by (apply Z.div_unique with 0; lia).
    replace (Z.pos p~0 mod 2) with 0 by (apply Z.mod_unique with (Z.pos p); lia).
    repeat split; bool_cases.
  - change (1 / 2) with 0. change (1 mod 2) with 1. repeat split; bool_cases.
Qed.

Lemma iter_pos_swap {A} (f : A -> A) n x : iter_pos f n (f x) = f (iter_pos f n x).
Proof.
  revert x. induction n as [n IH|n IH|]; intros x; simpl; [|  |reflexivity].
  - now rewrite !IH.
  - now rewrite !IH.
Qed.

Lemma iter_pos_succ {A} (f : A -> A) n x : iter_pos f (Pos.succ n) x = f (iter_pos f n x).
Proof.
  revert x. induction n as [n IH|n IH|]; intros x; simpl; [| |reflexivity].
  - rewrite !IH. now rewrite !iter_pos_swap.
  - now rewrite !iter_pos_swap.
Qed.

Lemma iter_shr_1_represents num W n mrs :
  0 <= num -> 0 < W -> represents num W mrs ->
  represents num (W * 2 ^ Z.pos n) (iter_pos shr_1 n mrs).
Proof.
  intros Hnum HW H. induction n as [|n IH] using Pos.peano_ind.
  - simpl. rewrite Z.mul_comm. now apply shr_1_represents.
  - rewrite iter_pos_succ, Pos2Z.inj_succ, Z.pow_succ_r by lia.
    replace (W * (2 * 2 ^ Z.pos n)) with (2 * (W * 2 ^ Z.pos n)) by ring.
    apply shr_1_represents; auto. apply Z.mul_pos_pos; [lia|]. apply Z.pow_pos_nonneg; lia.
Qed.

Lemma round_nearest_even_represents num W mrs :
  0 < W -> represents num W mrs ->
  round_nearest_even (shr_m mrs) (loc_of_shr_record mrs) = rne num W.
Proof.
  intros HW (Hm & Hr & Hs). destruct mrs as [m r s]. cbn [shr_m shr_r shr_s] in *.
  pose proof (Z.mod_pos_bound num W HW) as Hb.
  unfold rne. rewrite <- Hm. set (rem := num mod W) in *. clearbody rem.
  destruct (Z.compare_spec (2 * rem) W) as [E|E|E]; subst r s; revert E; bool_cases;
   intros; cbn; try reflexivity; try lia.
Qed.

Lemma rne_bound num W : 0 < W -> 2 * Z.abs (rne num W * W - num) <= W.
Proof.
  intros HW. unfold rne.
  pose proof (Z.div_mod num W ltac:(lia)) as E.
  pose proof (Z.mod_pos_bound num W HW) as Hb.
  destruct (Z.compare_spec (2 * (num mod W)) W); [destruct (Z.even (num / W))| |]; nia.
Qed.

Lemma represents_nonneg num W mrs :
  0 <= num -> 0 < W -> represents num W mrs -> 0 <= shr_m mrs.
Proof. intros Hn HW (Hm & _). rewrite Hm. now apply Z.div_pos. Qed.

Lemma represents_exact m : represents m 1 (shr_record_of_loc m loc_Exact).
Proof.
  unfold represents. cbn [shr_record_of_loc shr_m shr_r shr_s].
  rewrite Z.div_1_r, Z.mod_1_r. repeat split.
Qed.

Lemma shr_represents num W mrs e n :
  0 <= num -> 0 < W -> represents num W mrs ->
  snd (shr mrs e n) = e + Z.max n 0 /\
  represents num (W * 2 ^ Z.max n 0) (fst (shr mrs e n)).
Proof.
  intros Hnum HW H. destruct n as [|p|p]; cbn [shr fst snd].
  - rewrite Z.add_0_r, Z.mul_1_r. auto.
  - rewrite Z.max_l by lia. split; [reflexivity|]. now apply iter_shr_1_represents.
  - rewrite Z.max_r by lia. rewrite Z.add_0_r, Z.mul_1_r. auto.
Qed.

Lemma rne_nonneg num W : 0 <= num -> 0 < W -> 0 <= rne num W.
Proof.
  intros Hn HW. unfold rne. pose proof (Z.div_pos num W Hn HW).
  destruct (2 * (num mod W) ?= W); [destruct (Z.even (num / W))| |]; lia.
Qed.

(** A rounding that stays below the middle of [t - 1] and [t] gives at most
    [t - 1]. *)
Lemma rne_below (num W t : Z) :
  0 < W -> 2 * num < (2 * t - 1) * W -> rne num W <= t - 1.
Proof. intros HW H. pose proof (rne_bound num W HW). nia. Qed.

(** A quotient strictly between [q - 1/2] and [q + 1/2] rounds to [q]. *)
Lemma rne_unique (x W q : Z) :
  0 < W -> (2 * q - 1) * W < 2 * x < (2 * q + 1) * W -> rne x W = q.
Proof. intros HW H. pose proof (rne_bound x W HW). nia. Qed.

(** A quotient that is not half-way between two integers rounds to the
    integer strictly nearest to it. *)
Lemma rne_strict (x W : Z) :
  0 < W -> 2 * (x mod W) <> W ->
  (2 * rne x W - 1) * W < 2 * x < (2 * rne x W + 1) * W.
Proof.
  intros HW Hne. unfold rne.
  pose proof (Z.div_mod x W ltac:(lia)) as E. pose proof (Z.mod_pos_bound x W HW) as Hb.
  destruct (Z.compare_spec (2 * (x mod W)) W); [lia| |]; nia.
Qed.

(** The rounded quotient is the quotient or the next integer. *)
Lemma rne_cases num W : rne num W = num / W \/ rne num W = num / W + 1.
Proof. unfold rne. destruct (2 * (num mod W) ?= W); [destruct (Z.even _)| |]; auto. Qed.

(** An exact quotient is not rounded. *)
Lemma rne_exact (m W : Z) : 0 < W -> rne (m * W) W = m.
Proof.
  intros HW. unfold rne. rewrite Z.div_mul, Z.mod_mul by lia.
  destruct (Z.compare_spec (2 * 0) W); lia.
Qed.

(** A rounding that carries at [V] carries at [2 * V]. *)
Lemma rne_carry (num W t : Z) :
  0 < W ->
  rne num W = 2 * t -> num / W = 2 * t - 1 -> rne num (2 * W) = t.
Proof.
  intros HW Hr Hq. destruct (div_mod_double num W HW) as [Hd Hm].
  pose proof (Z.mod_pos_bound num W HW) as Hb.
  assert (W <= 2 * (num mod W)) as Hup.
  { unfold rne in Hr. rewrite Hq in Hr.
    destruct (Z.compare_spec (2 * (num mod W)) W); [lia| |lia].
    destruct (Z.even (2 * t - 1)); lia. }
  unfold rne. rewrite Hd, Hm, Hq.
  replace ((2 * t - 1) / 2) with (t - 1) by (apply (Z.div_unique _ 2 _ 1); lia).
  replace ((2 * t - 1) mod 2) with 1 by (apply (Z.mod_unique _ 2 (t - 1) 1); lia).
  destruct (Z.compare_spec (2 * (num mod W + W * 1)) (2 * W)); lia.
Qed.


(** ** Roundings down, up and to nearest *)

Lemma floor_is_pick : is_pick floor_pick.
Proof. intros num W HW. unfold floor_pick. auto. Qed.

Lemma ceil_is_pick : is_pick ceil_pick.
Proof.
  intros num W HW. unfold ceil_pick. destruct (Z.eqb_spec (num mod W) 0); split; auto.
  intros H. contradiction.
Qed.

Lemma rne_is_pick : is_pick rne.
Proof.
  intros num W HW. split; [apply rne_cases|]. intros H. unfold rne. rewrite H.
  destruct (Z.compare_spec (2 * 0) W); lia.
Qed.

(** A rounding is the rounding down or the rounding up. *)
Lemma pick_floor_or_ceil (r : Z -> Z -> Z) (num W : Z) :
  is_pick r -> 0 < W -> r num W = floor_pick num W \/ r num W = ceil_pick num W.
Proof.
  intros Hr HW. destruct (Hr num W HW) as [[H|H] Hex]; unfold floor_pick, ceil_pick; auto.
  destruct (Z.eqb_spec (num mod W) 0) as [E|E]; auto.
Qed.

(** A rounding is exact on a multiple. *)
Lemma pick_exact (r : Z -> Z -> Z) (m W : Z) : is_pick r -> 0 < W -> r (m * W) W = m.
Proof.
  intros Hr HW. destruct (Hr (m * W) W HW) as [_ H].
  rewrite H by (apply Z.mod_mul; lia). apply Z.div_mul. lia.
Qed.

(** The location [SpecFloat] computes for a quotient is that of its
    remainder. *)
Lemma new_location_represents num W :
  0 < W -> represents num W (shr_record_of_loc (num / W) (new_location W (num mod W))).
Proof.
  intros HW. pose proof (Z.mod_pos_bound num W HW) as Hb.
  unfold new_location, new_location_even, new_location_odd, represents.
  set (k := num mod W) in *. clearbody k.
  destruct (Z.even W) eqn:Hev.
  - destruct (Z.eqb_spec k 0) as [->|Hk]; cbn [shr_record_of_loc shr_m shr_r shr_s].
    + repeat split; bool_cases.
    + destruct (Z.compare_spec (2 * k) W); cbn [shr_record_of_loc shr_m shr_r shr_s];
        repeat split; bool_cases.
  - assert (2 * k <> W) as Hodd.
    { intros E. rewrite <- E, Z.even_mul in Hev. discriminate. }
    destruct (Z.eqb_spec k 0) as [->|Hk]; cbn [shr_record_of_loc shr_m shr_r shr_s].
    + repeat split; bool_cases.
    + destruct (Z.compare_spec (2 * k + 1) W); cbn [shr_record_of_loc shr_m shr_r shr_s];
        repeat split; bool_cases.
Qed.

Section Format.
Variables prec emax : Z.

Inductive round_class (sx : bool) : spec_float -> Prop :=
| rc_zero : round_class sx (S754_zero sx)
| rc_finite m e : e <= emax - prec -> round_class sx (S754_finite sx m e)
| rc_infinity : round_class sx (S754_infinity sx).

Lemma binary_round_aux_class sx mx ex lx num W :
  0 <= num -> 0 < W -> represents num W (shr_record_of_loc mx lx) ->
  round_class sx (binary_round_aux prec emax sx mx ex lx).
Proof.
  intros Hnum HW H. unfold binary_round_aux, shr_fexp.
  set (n1 := fexp prec emax (Zdigits2 mx + ex) - ex).
  destruct (shr_represents num W _ ex n1 Hnum HW H) as [He1 H1].
  destruct (shr (shr_record_of_loc mx lx) ex n1) as [mrs' e'].
  cbn [fst snd] in He1, H1.
  assert (0 < W * 2 ^ Z.max n1 0) as HW1.
  { apply Z.mul_pos_pos; [lia|]. apply Z.pow_pos_nonneg; lia. }
  rewrite (round_nearest_even_represents _ _ _ HW1 H1).
  set (m1 := rne num (W * 2 ^ Z.max n1 0)).
  assert (0 <= m1) as Hm1 by (apply rne_nonneg; assumption).
  set (n2 := fexp prec emax (Zdigits2 m1 + e') - e').
  destruct (shr_represents m1 1 _ e' n2 Hm1 Z.lt_0_1 (represents_exact m1)) as [He2 H2].
  destruct (shr (shr_record_of_loc m1 loc_Exact) e' n2) as [mrs'' e''].
  cbn [fst snd] in He2, H2.
  assert (0 <= shr_m mrs'') as Hm2.
  { eapply represents_nonneg; [exact Hm1| |exact H2].
    apply Z.mul_pos_pos; [lia|apply Z.pow_pos_nonneg; lia]. }
  destruct (shr_m mrs'') as [|m|m]; [constructor| |lia].
  destruct (Z.leb_spec e'' (emax - prec)); now constructor.
Qed.
Lemma SFdiv_core_binary_represents m1 e1 m2 e2 :
  0 < m1 -> 0 < m2 ->
  exists s, 0 <= s /\
    snd (fst (SFdiv_core_binary prec emax m1 e1 m2 e2)) = e1 - e2 - s /\
    represents (m1 * 2 ^ s) m2
      (shr_record_of_loc (fst (fst (SFdiv_core_binary prec emax m1 e1 m2 e2)))
                         (snd (SFdiv_core_binary prec emax m1 e1 m2 e2))).
Proof.
  intros H1 H2. unfold SFdiv_core_binary.
  set (e' := Z.min _ (e1 - e2)).
  assert (e' <= e1 - e2) as He by apply Z.le_min_r.
  exists (e1 - e2 - e'). split; [lia|].
  set (m' := match e1 - e2 - e' with Z.pos _ => Z.shiftl m1 (e1 - e2 - e') | Z0 => m1 | Z.neg _ => 0 end).
  assert (m' = m1 * 2 ^ (e1 - e2 - e')) as Hm'.
  { unfold m'. destruct (e1 - e2 - e') eqn:E; [rewrite Z.pow_0_r; lia | | lia].
    rewrite Z.shiftl_mul_pow2; lia. }
  pose proof (new_location_represents m' m2 H2) as Hrep.
  unfold Z.div, Z.modulo in Hrep.
  destruct (Z.div_eucl m' m2) as [q r]. cbn [fst snd].
  split; [lia|]. now rewrite <- Hm'.
Qed.

Lemma SFdiv_finite_class sx mx ex sy my ey :
  round_class (xorb sx sy)
    (SFdiv prec emax (S754_finite sx mx ex) (S754_finite sy my ey)).
Proof.
  cbn [SFdiv].
  destruct (SFdiv_core_binary_represents (Z.pos mx) ex (Z.pos my) ey) as (s & Hs & _ & Hrep);
    [lia | lia |].
  destruct (SFdiv_core_binary prec emax (Z.pos mx) ex (Z.pos my) ey) as [[mz ez] lz].
  cbn [fst snd] in Hrep.
  apply binary_round_aux_class with (num := Z.pos mx * 2 ^ s) (W := Z.pos my); [|lia|exact Hrep].
  apply Z.mul_nonneg_nonneg; [lia|]. apply Z.pow_nonneg. lia.
Qed.

Lemma binary_round_class sx mx ex :
  round_class sx (binary_round prec emax sx mx ex).
Proof.
  unfold binary_round.
  destruct (shl_align mx ex (fexp prec emax (Z.pos (digits2_pos mx) + ex))) as [mz ez].
  apply binary_round_aux_class with (num := Z.pos mz) (W := 1); [lia | lia |].
  apply represents_exact.
Qed.
End Format.
