(* ===== verification/Digits.v ===== *)
(** * Digits: the number of binary digits of an integer

    [SpecFloat.Zdigits2 n] is the number of binary digits of [n]: the [d]
    with [2^(d-1) <= n < 2^d] for a positive [n], and 0 for 0.  The
    exponent a float gets is computed from it, so every fact about the
    mantissa of a rounded result goes through the lemmas of this file:
    bounds, uniqueness, monotonicity, and the effect of a shift to the left
    or to the right and of adding one. *)

From Stdlib Require Import ZArith Bool Lia SpecFloat.
From S2P Require Import Prelude.
Open Scope Z_scope.

(** [digits2_pos] is the size of a positive number. *)
Lemma digits2_pos_size (p : positive) : digits2_pos p = Pos.size p.
Proof. induction p; cbn; congruence. Qed.

Lemma digits2_pos_bounds (p : positive) :
  2 ^ (Z.pos (digits2_pos p) - 1) <= Z.pos p < 2 ^ Z.pos (digits2_pos p).
Proof.
  rewrite digits2_pos_size. split.
  - pose proof (Pos.size_le p) as H.
    apply Pos2Z.pos_le_pos in H. rewrite Pos2Z.inj_pow in H.
    replace (Z.pos (Pos.size p)) with (Z.succ (Z.pos (Pos.size p) - 1)) in H by lia.
    rewrite Z.pow_succ_r in H by lia. lia.
  - pose proof (Pos.size_gt p) as H.
    apply Pos2Z.pos_lt_pos in H. now rewrite Pos2Z.inj_pow in H.
Qed.

Lemma Zdigits2_nonneg (n : Z) : 0 <= Zdigits2 n.
Proof. destruct n; cbn; lia. Qed.

Lemma Zdigits2_bounds (n : Z) :
  0 < n -> 2 ^ (Zdigits2 n - 1) <= n < 2 ^ Zdigits2 n.
Proof. destruct n as [|p|p]; try lia. intros _. apply digits2_pos_bounds. Qed.

Lemma Zdigits2_pos (n : Z) : 0 < n -> 0 < Zdigits2 n.
Proof. destruct n; cbn; lia. Qed.

(** The number of digits is the only [d] with [2^(d-1) <= n < 2^d]. *)
Lemma Zdigits2_unique (n d : Z) :
  2 ^ (d - 1) <= n < 2 ^ d -> 0 < n -> Zdigits2 n = d.
Proof.
  intros [Hl Hu] Hn. pose proof (Zdigits2_bounds n Hn) as [Hl' Hu'].
  pose proof (Zdigits2_pos n Hn) as Hp.
  assert (0 < d) as Hd.
  { destruct (Z.ltb_spec 0 d); [assumption|].
    assert (2 ^ d <= 2 ^ 0) by (apply Z.pow_le_mono_r; lia). change (2 ^ 0) with 1 in *. lia. }
  destruct (Z.lt_trichotomy (Zdigits2 n) d) as [H|[H|H]]; [|assumption|].
  - assert (2 ^ Zdigits2 n <= 2 ^ (d - 1)) by (apply Z.pow_le_mono_r; lia). lia.
  - assert (2 ^ d <= 2 ^ (Zdigits2 n - 1)) by (apply Z.pow_le_mono_r; lia). lia.
Qed.

Lemma Zdigits2_le (n d : Z) : 0 <= d -> 0 <= n < 2 ^ d -> Zdigits2 n <= d.
Proof.
  intros Hd [Hn Hu]. destruct (Z.eq_dec n 0) as [->|Hz]; [cbn; lia|].
  pose proof (Zdigits2_bounds n ltac:(lia)) as [Hl _].
  destruct (Z.leb_spec (Zdigits2 n) d); [assumption|].
  assert (2 ^ d <= 2 ^ (Zdigits2 n - 1)) by (apply Z.pow_le_mono_r; lia). lia.
Qed.

Lemma Zdigits2_ge (n d : Z) : 2 ^ (d - 1) <= n -> 0 < n -> d <= Zdigits2 n.
Proof.
  intros Hl Hn. pose proof (Zdigits2_bounds n Hn) as [_ Hu].
  destruct (Z.leb_spec d (Zdigits2 n)); [assumption|].
  assert (2 ^ Zdigits2 n <= 2 ^ (d - 1)) by (apply Z.pow_le_mono_r; pose proof (Zdigits2_nonneg n); lia). lia.
Qed.

Lemma Zdigits2_mono (a b : Z) : 0 <= a <= b -> Zdigits2 a <= Zdigits2 b.
Proof.
  intros [Ha Hab]. destruct (Z.eq_dec a 0) as [->|Hz]; [apply Zdigits2_nonneg|].
  apply Zdigits2_ge; [|lia]. pose proof (Zdigits2_bounds a ltac:(lia)). lia.
Qed.

(** Multiplying by [2^k] adds [k] digits. *)
Lemma Zdigits2_shiftl (n k : Z) :
  0 < n -> 0 <= k -> Zdigits2 (n * 2 ^ k) = Zdigits2 n + k.
Proof.
  intros Hn Hk. pose proof (Zdigits2_bounds n Hn) as [Hl Hu].
  pose proof (Zdigits2_pos n Hn) as Hp. pose proof (pow2_pos k Hk) as H2.
  apply Zdigits2_unique; [|nia].
  replace (Zdigits2 n + k - 1) with ((Zdigits2 n - 1) + k) by lia.
  rewrite !Z.pow_add_r by lia. nia.
Qed.

(** Dividing by [2^k] removes [k] digits, down to none. *)
Lemma Zdigits2_shiftr (n k : Z) :
  0 <= n -> 0 <= k -> Zdigits2 (n / 2 ^ k) = Z.max (Zdigits2 n - k) 0.
Proof.
  intros Hn Hk. pose proof (pow2_pos k Hk) as H2.
  destruct (Z.eq_dec n 0) as [->|Hz]; [rewrite Z.div_0_l by lia; cbn; lia|].
  pose proof (Zdigits2_bounds n ltac:(lia)) as [Hl Hu].
  pose proof (Zdigits2_pos n ltac:(lia)) as Hp.
  destruct (Z.ltb_spec k (Zdigits2 n)) as [Hlt|Hge].
  - rewrite Z.max_l by lia.
    replace (Zdigits2 n) with ((Zdigits2 n - k) + k) in Hu by lia.
    replace (Zdigits2 n - 1) with ((Zdigits2 n - k - 1) + k) in Hl by lia.
    rewrite Z.pow_add_r in Hl, Hu by lia.
    assert (2 ^ (Zdigits2 n - k - 1) <= n / 2 ^ k) by (apply Z.div_le_lower_bound; lia).
    assert (n / 2 ^ k < 2 ^ (Zdigits2 n - k)) by (apply Z.div_lt_upper_bound; lia).
    apply Zdigits2_unique; [lia|].
    pose proof (pow2_pos (Zdigits2 n - k - 1) ltac:(lia)). lia.
  - rewrite Z.max_r by lia.
    assert (2 ^ Zdigits2 n <= 2 ^ k) by (apply Z.pow_le_mono_r; lia).
    rewrite Z.div_small by lia. reflexivity.
Qed.

(** Adding one keeps the number of digits, or reaches the next power of
    two. *)
Lemma Zdigits2_succ (n : Z) :
  0 <= n ->
  Zdigits2 (n + 1) = Zdigits2 n \/
  (n + 1 = 2 ^ Zdigits2 n /\ Zdigits2 (n + 1) = Zdigits2 n + 1).
Proof.
  intros Hn. destruct (Z.eq_dec n 0) as [->|Hz]; [right; split; reflexivity|].
  pose proof (Zdigits2_bounds n ltac:(lia)) as [Hl Hu].
  pose proof (Zdigits2_pos n ltac:(lia)) as Hp.
  destruct (Z.eq_dec (n + 1) (2 ^ Zdigits2 n)) as [E|E].
  - right. split; [assumption|]. apply Zdigits2_unique; [|lia].
    replace (Zdigits2 n + 1 - 1) with (Zdigits2 n) by lia.
    rewrite Z.pow_add_r by lia. change (2 ^ 1) with 2. lia.
  - left. apply Zdigits2_unique; lia.
Qed.

Lemma Zdigits2_pow2 (k : Z) : 0 <= k -> Zdigits2 (2 ^ k) = k + 1.
Proof.
  intros Hk. pose proof (pow2_pos k Hk). apply Zdigits2_unique; [|lia].
  replace (k + 1 - 1) with k by lia. rewrite Z.pow_add_r by lia. change (2 ^ 1) with 2. lia.
Qed.

(** Doubling a positive [d] times multiplies it by [2^d]. *)
Lemma iter_xO_pow2 (m d : positive) : Z.pos (Pos.iter xO m d) = Z.pos m * 2 ^ Z.pos d.
Proof.
  rewrite <- Z.shiftl_mul_pow2 by lia. cbn [Z.shiftl].
  now rewrite (Pos.iter_swap_gen _ _ Z.pos xO (Z.mul 2)).
Qed.
