(* ===== verification/RoundRef.v ===== *)
(** * RoundRef: the rounding of [SpecFloat], by divisions

    [SpecFloat.binary_round_aux] rounds a mantissa with shifts of one bit
    that carry a round bit and a sticky bit.  [round_ref] is the same
    rounding written with a quotient: the value is divided by the power of
    two of its exponent in the format, the quotient rounded to nearest even
    ([Rounding.rne]), and a mantissa that the rounding carried to [2^prec]
    divided by two.

    The file proves that the two agree ([binary_round_aux_ref]), and, for
    a format with [0 < prec < emax], that the result of the rounding
    - is a float of the format ([round_ref_valid]),
    - has the mantissa [rne] gives at the exponent of the result
      ([round_ref_spec]), hence lies within half a unit in the last place
      of the value,
    - is the value itself when the format holds it ([round_ref_exact]);
    the first and the last also for a rounding down or up ([round_gen]),
    which is what the contract of the C library's [pow] is stated with;
    and that the product, the quotient and [binary_round] of [SpecFloat]
    are such roundings ([SFmul_ref], [SFdiv_ref], [binary_round_ref]), and
    so return floats of the format. *)

From Stdlib Require Import ZArith Bool Lia SpecFloat.
From S2P Require Import Prelude Rounding Digits.
Open Scope Z_scope.

(** ** The reference rounding *)

Section Format.
Variables prec emax : Z.

(** The exponent of the format for [m * 2^e]. *)
Definition cexp (m e : Z) : Z := fexp prec emax (Zdigits2 m + e).

(** The float of a rounded mantissa and its exponent. *)
Definition finish (sx : bool) (m e : Z) : spec_float :=
  match m with
  | Z0 => S754_zero sx
  | Zpos p => if e <=? emax - prec then S754_finite sx p e else S754_infinity sx
  | Zneg _ => S754_nan
  end.

(** Rounding [num / W * 2^ex] to the format, with divisions for shifts:
    the quotient is rounded by [r] at the exponent of the format, and a
    mantissa the rounding has carried to [2^prec] is divided by two. *)
Definition round_gen (r : Z -> Z -> Z) (sx : bool) (num W ex : Z) : spec_float :=
  let k1 := Z.max (cexp (num / W) ex - ex) 0 in
  let m1 := r num (W * 2 ^ k1) in
  let e1 := ex + k1 in
  let k2 := Z.max (cexp m1 e1 - e1) 0 in
  finish sx (m1 / 2 ^ k2) (e1 + k2).

(** The rounding of the format: to nearest, ties to even. *)
Definition round_ref : bool -> Z -> Z -> Z -> spec_float := round_gen rne.

(** The exponent at which [SFdiv] takes the quotient of [m1 * 2^e1] by
    [m2 * 2^e2]. *)
Definition div_exp (m1 e1 m2 e2 : Z) : Z :=
  Z.min (fexp prec emax (Zdigits2 m1 + e1 - (Zdigits2 m2 + e2))) (e1 - e2).

Lemma binary_round_aux_ref sx mx ex lx num W :
  0 <= num -> 0 < W -> represents num W (shr_record_of_loc mx lx) ->
  binary_round_aux prec emax sx mx ex lx = round_ref sx num W ex.
Proof.
  intros Hnum HW H. unfold binary_round_aux, shr_fexp, round_ref, round_gen, cexp.
  assert (mx = num / W) as <-.
  { destruct H as [Hm _]. rewrite <- Hm. now destruct lx as [|[]]. }
  set (n1 := fexp prec emax (Zdigits2 mx + ex) - ex).
  destruct (shr_represents num W _ ex n1 Hnum HW H) as [He1 H1].
  destruct (shr (shr_record_of_loc mx lx) ex n1) as [mrs' e'].
  cbn [fst snd] in He1, H1. subst e'.
  assert (0 < W * 2 ^ Z.max n1 0) as HW1.
  { apply Z.mul_pos_pos; [lia|]. apply Z.pow_pos_nonneg; lia. }
  rewrite (round_nearest_even_represents _ _ _ HW1 H1).
  set (m1 := rne num (W * 2 ^ Z.max n1 0)).
  assert (0 <= m1) as Hm1 by (apply rne_nonneg; assumption).
  set (n2 := fexp prec emax (Zdigits2 m1 + (ex + Z.max n1 0)) - (ex + Z.max n1 0)).
  destruct (shr_represents m1 1 _ (ex + Z.max n1 0) n2 Hm1 Z.lt_0_1 (represents_exact m1)) as [He2 H2].
  destruct (shr (shr_record_of_loc m1 loc_Exact) (ex + Z.max n1 0) n2) as [mrs'' e''].
  cbn [fst snd] in He2, H2. subst e''.
  destruct H2 as [-> _]. rewrite Z.mul_1_l. reflexivity.
Qed.

End Format.

Ltac fexp_lia := unfold cexp, SpecFloat.fexp, SpecFloat.emin in *; lia.

(** ** Formats with [0 < prec < emax] *)

Section Laws.
Variables prec emax : Z.
Hypothesis Hprec : 0 < prec.
Hypothesis Hemax : prec < emax.

#[local] Abbreviation fexp := (SpecFloat.fexp prec emax).
#[local] Abbreviation emin := (SpecFloat.emin prec emax).
#[local] Abbreviation cexp := (RoundRef.cexp prec emax).
#[local] Abbreviation finish := (RoundRef.finish prec emax).
#[local] Abbreviation round_gen := (RoundRef.round_gen prec emax).
#[local] Abbreviation round_ref := (RoundRef.round_ref prec emax).
#[local] Abbreviation div_exp := (RoundRef.div_exp prec emax).

Lemma fexp_mono (a b : Z) : a <= b -> fexp a <= fexp b.
Proof. fexp_lia. Qed.

Lemma fexp_ge_emin (a : Z) : emin <= fexp a.
Proof. fexp_lia. Qed.

Lemma emin_nonpos : emin <= 0.
Proof. fexp_lia. Qed.

(** A float [finish] builds from a mantissa at its exponent of the format
    is valid. *)
Lemma finish_valid sx m e : cexp m e = e -> valid_binary prec emax (finish sx m e) = true.
Proof.
  intros H. destruct m as [|p|p]; try reflexivity. cbn [finish].
  destruct (Z.leb_spec e (emax - prec)) as [Hle|]; [|reflexivity].
  cbn [valid_binary]. unfold bounded, canonical_mantissa.
  apply andb_true_iff. split; [now apply Z.eqb_eq|now apply Z.leb_le].
Qed.

(** The mantissa after the first rounding, and its exponent. *)
Section Cases.
Variables (num W ex : Z).
Hypothesis Hnum : 0 <= num.
Hypothesis HW : 0 < W.
Hypothesis Hpre : ex <= cexp (num / W) ex.
Variable r : Z -> Z -> Z.
Hypothesis Hr : is_pick r.

Let e1 := cexp (num / W) ex.
Let m1 := r num (W * 2 ^ (e1 - ex)).

Lemma first_divisor_pos : 0 < W * 2 ^ (e1 - ex).
Proof. apply Z.mul_pos_pos; [lia|]. apply pow2_pos. unfold e1. lia. Qed.

Lemma first_quotient : num / (W * 2 ^ (e1 - ex)) = num / W / 2 ^ (e1 - ex).
Proof. rewrite Z.div_div; [reflexivity|lia|]. apply pow2_pos. unfold e1. lia. Qed.

Lemma first_quotient_digits :
  Zdigits2 (num / (W * 2 ^ (e1 - ex))) = Z.max (Zdigits2 (num / W) + ex - e1) 0.
Proof.
  rewrite first_quotient, Zdigits2_shiftr; [f_equal; lia| |unfold e1; lia].
  now apply Z.div_pos.
Qed.

Lemma m1_cases :
  (0 <= m1 < 2 ^ prec /\ cexp m1 e1 = e1) \/
  (m1 = 2 ^ prec /\ cexp m1 e1 = e1 + 1 /\ num / (W * 2 ^ (e1 - ex)) = 2 ^ prec - 1).
Proof.
  pose proof first_quotient_digits as Hd.
  assert (0 <= num / (W * 2 ^ (e1 - ex))) as Hq.
  { apply Z.div_pos; [assumption|]. apply Z.mul_pos_pos; [lia|]. apply pow2_pos. unfold e1. lia. }
  set (q := num / (W * 2 ^ (e1 - ex))) in *.
  assert (m1 = q \/ m1 = q + 1) as Hm by apply (Hr num _ first_divisor_pos).
  pose proof (Zdigits2_succ q Hq) as Hs.
  pose proof (Zdigits2_nonneg (num / W)) as Hd0.
  assert (Zdigits2 q <= prec /\ (e1 = emin \/ Zdigits2 q = prec)) as [Hqp Hcase].
  { rewrite Hd. unfold e1 in *. fexp_lia. }
  assert (q < 2 ^ prec) as Hqu.
  { destruct (Z.eq_dec q 0) as [->|]; [apply pow2_pos; lia|].
    pose proof (Zdigits2_bounds q ltac:(lia)) as [_ Hu].
    assert (2 ^ Zdigits2 q <= 2 ^ prec) by (apply Z.pow_le_mono_r; lia). lia. }
  destruct Hm as [Hm|Hm]; rewrite Hm.
  - left. split; [lia|]. fexp_lia.
  - destruct Hs as [Hs|[Hp Hs]].
    + left. split.
      * split; [lia|]. destruct (Z.eq_dec (q + 1) (2 ^ prec)) as [E|]; [|lia].
        rewrite E, Zdigits2_pow2 in Hs by lia. lia.
      * fexp_lia.
    + destruct (Z.eq_dec (Zdigits2 q) prec) as [E|E].
      * right. rewrite E in Hp. split; [assumption|]. split; [|lia].
        unfold RoundRef.cexp. rewrite Hs, E. unfold e1 in *. fexp_lia.
      * left. assert (Zdigits2 q + 1 <= prec) as Hlt by lia.
        assert (2 ^ (Zdigits2 q) < 2 ^ prec) by (apply Z.pow_lt_mono_r; lia).
        split; [lia|]. unfold e1 in *. fexp_lia.
Qed.

(** The result of a rounding: a mantissa below [2^prec] at its exponent
    of the format; the mantissa and the exponent are those of the first
    rounding, or, when that carried to [2^prec], half the mantissa at the
    next exponent. *)
Lemma round_gen_spec sx :
  exists m e,
    round_gen r sx num W ex = finish sx m e /\
    cexp m e = e /\ 0 <= m < 2 ^ prec /\
    ((e = e1 /\ m = m1) \/
     (e = e1 + 1 /\ m1 = 2 ^ prec /\ m = 2 ^ (prec - 1) /\
      num / (W * 2 ^ (e1 - ex)) = 2 ^ prec - 1)).
Proof.
  unfold RoundRef.round_gen. fold e1. rewrite Z.max_l by (unfold e1; lia).
  replace (ex + (e1 - ex)) with e1 by lia. fold m1.
  pose proof (pow2_pos prec ltac:(lia)) as Hp.
  destruct m1_cases as [[Hm Hc]|(Hm & Hc & Hq)]; rewrite Hc.
  - exists m1, e1. rewrite Z.sub_diag, Z.max_r, Z.pow_0_r, Z.div_1_r, Z.add_0_r by lia.
    repeat split; lia.
  - exists (2 ^ (prec - 1)), (e1 + 1).
    replace (e1 + 1 - e1) with 1 by lia. rewrite Z.max_l by lia. change (2 ^ 1) with 2.
    assert (2 ^ prec = 2 * 2 ^ (prec - 1)) as Hm'.
    { replace prec with (Z.succ (prec - 1)) at 1 by lia. apply Z.pow_succ_r. lia. }
    pose proof (pow2_pos (prec - 1) ltac:(lia)) as Hp1.
    split; [f_equal; rewrite Hm, Hm'; now rewrite Z.mul_comm, Z.div_mul by lia|].
    split.
    { unfold RoundRef.cexp in *. rewrite Zdigits2_pow2 by lia.
      rewrite Hm, Zdigits2_pow2 in Hc by lia. rewrite <- Hc at 2. f_equal. lia. }
    split; [lia|]. right. repeat split; assumption.
Qed.

(** The result of a rounding is a float of the format. *)
Lemma round_gen_valid sx : valid_binary prec emax (round_gen r sx num W ex) = true.
Proof.
  destruct (round_gen_spec sx) as (m & e & -> & Hc & _). now apply finish_valid.
Qed.

End Cases.

(** To nearest: the mantissa of the result is the rounding to nearest even
    of the quotient at the exponent of the result. *)
Lemma round_ref_spec num W ex sx :
  0 <= num -> 0 < W -> ex <= cexp (num / W) ex ->
  exists m e,
    round_ref sx num W ex = finish sx m e /\
    cexp m e = e /\ 0 <= m < 2 ^ prec /\
    cexp (num / W) ex <= e <= cexp (num / W) ex + 1 /\
    m = rne num (W * 2 ^ (e - ex)).
Proof.
  intros Hnum HW Hpre.
  destruct (round_gen_spec num W ex Hnum HW Hpre rne rne_is_pick sx)
    as (m & e & E & Hc & Hm & Hcase).
  exists m, e. split; [exact E|]. split; [exact Hc|]. split; [exact Hm|].
  destruct Hcase as [[-> ->]|(-> & H1 & -> & Hq)].
  - split; [lia|reflexivity].
  - split; [lia|]. symmetry.
    set (e1 := RoundRef.cexp prec emax (num / W) ex) in *.
    assert (2 ^ prec = 2 * 2 ^ (prec - 1)) as Hm'.
    { replace prec with (Z.succ (prec - 1)) at 1 by lia. apply Z.pow_succ_r. lia. }
    replace (e1 + 1 - ex) with (Z.succ (e1 - ex)) by lia.
    rewrite Z.pow_succ_r by lia.
    replace (W * (2 * 2 ^ (e1 - ex))) with (2 * (W * 2 ^ (e1 - ex))) by lia.
    apply rne_carry; [|lia|lia].
    apply Z.mul_pos_pos; [lia|]. apply pow2_pos. lia.
Qed.

Lemma round_ref_valid num W ex sx :
  0 <= num -> 0 < W -> ex <= cexp (num / W) ex ->
  valid_binary prec emax (round_ref sx num W ex) = true.
Proof. intros Hnum HW Hpre. now apply round_gen_valid, rne_is_pick. Qed.

(** A rounding returns what the rounding down or the rounding up
    returns. *)
Lemma round_gen_down_or_up r sx num W ex :
  is_pick r -> 0 < W ->
  round_gen r sx num W ex = round_gen floor_pick sx num W ex \/
  round_gen r sx num W ex = round_gen ceil_pick sx num W ex.
Proof.
  intros Hr HW. unfold RoundRef.round_gen.
  set (k1 := Z.max (cexp (num / W) ex - ex) 0).
  assert (0 < W * 2 ^ k1) as HV by (apply Z.mul_pos_pos; [lia|]; apply pow2_pos; lia).
  destruct (pick_floor_or_ceil r num _ Hr HV) as [-> | ->]; auto.
Qed.

(** A rounding of a non-negative value returns a zero, a finite float or
    an infinity of the sign asked for. *)
Lemma round_gen_class r sx num W ex :
  is_pick r -> 0 <= num -> 0 < W ->
  round_class prec emax sx (round_gen r sx num W ex).
Proof.
  intros Hr Hnum HW. unfold RoundRef.round_gen.
  set (k1 := Z.max (cexp (num / W) ex - ex) 0).
  assert (0 < W * 2 ^ k1) as HV by (apply Z.mul_pos_pos; [lia|]; apply pow2_pos; lia).
  set (m1 := r num (W * 2 ^ k1)).
  assert (0 <= m1) as Hm1.
  { pose proof (Z.div_pos num _ Hnum HV). unfold m1. destruct (Hr num _ HV) as [[->| ->] _]; lia. }
  set (k2 := Z.max (cexp m1 (ex + k1) - (ex + k1)) 0).
  assert (0 <= m1 / 2 ^ k2) as Hm2 by (apply Z.div_pos; [lia|apply pow2_pos; lia]).
  destruct (m1 / 2 ^ k2) as [|p|p]; [constructor| |lia]. cbn [RoundRef.finish].
  destruct (Z.leb_spec (ex + k1 + k2) (emax - prec)); now constructor.
Qed.

(** A value the format holds is not rounded. *)
Lemma round_gen_exact r sx m0 e0 num W ex :
  is_pick r ->
  0 < W -> 0 < m0 -> cexp m0 e0 = e0 -> ex <= e0 ->
  num = m0 * 2 ^ (e0 - ex) * W ->
  round_gen r sx num W ex = finish sx m0 e0.
Proof.
  intros Hr HW Hm Hc He ->. pose proof (pow2_pos (e0 - ex) ltac:(lia)) as Hp.
  unfold RoundRef.round_gen. rewrite Z.div_mul by lia.
  assert (cexp (m0 * 2 ^ (e0 - ex)) ex = e0) as ->.
  { unfold RoundRef.cexp in *. rewrite Zdigits2_shiftl by lia. rewrite <- Hc at 2. f_equal. lia. }
  rewrite Z.max_l by lia.
  replace (m0 * 2 ^ (e0 - ex) * W) with (m0 * (W * 2 ^ (e0 - ex))) by lia.
  rewrite (pick_exact r) by (assumption || lia).
  replace (ex + (e0 - ex)) with e0 by lia.
  now rewrite Hc, Z.sub_diag, Z.max_r, Z.pow_0_r, Z.div_1_r, Z.add_0_r by lia.
Qed.

Lemma round_ref_exact sx m0 e0 num W ex :
  0 < W -> 0 < m0 -> cexp m0 e0 = e0 -> ex <= e0 ->
  num = m0 * 2 ^ (e0 - ex) * W ->
  round_ref sx num W ex = finish sx m0 e0.
Proof. apply round_gen_exact, rne_is_pick. Qed.

(** ** The operations of [SpecFloat] as roundings *)

Lemma SFmul_ref sx mx ex sy my ey :
  SFmul prec emax (S754_finite sx mx ex) (S754_finite sy my ey) =
  round_ref (xorb sx sy) (Z.pos mx * Z.pos my) 1 (ex + ey).
Proof.
  cbn [SFmul]. apply binary_round_aux_ref; [lia|lia|].
  rewrite Pos2Z.inj_mul. apply represents_exact.
Qed.

(** The product of two mantissas of the format is not below its exponent
    of the format. *)
Lemma canonical_mul_pre mx ex my ey :
  canonical_mantissa prec emax mx ex = true ->
  canonical_mantissa prec emax my ey = true ->
  ex + ey <= cexp (Z.pos mx * Z.pos my / 1) (ex + ey).
Proof.
  unfold canonical_mantissa. intros Hx%Z.eqb_eq Hy%Z.eqb_eq. rewrite Z.div_1_r.
  pose proof (digits2_pos_bounds mx) as [Hlx _]. pose proof (digits2_pos_bounds my) as [Hly _].
  assert (Z.pos (digits2_pos mx) + Z.pos (digits2_pos my) - 1 <= Zdigits2 (Z.pos mx * Z.pos my)) as Hd.
  { apply Zdigits2_ge; [|lia].
    replace (Z.pos (digits2_pos mx) + Z.pos (digits2_pos my) - 1 - 1)
      with ((Z.pos (digits2_pos mx) - 1) + (Z.pos (digits2_pos my) - 1)) by lia.
    rewrite Z.pow_add_r by lia.
    apply Z.mul_le_mono_nonneg; try assumption; apply Z.pow_nonneg; lia. }
  fexp_lia.
Qed.

(** The product of two floats of the format is a float of the format. *)
Lemma SFmul_valid x y :
  valid_binary prec emax x = true -> valid_binary prec emax y = true ->
  valid_binary prec emax (SFmul prec emax x y) = true.
Proof.
  destruct x as [sx|sx| |sx mx ex], y as [sy|sy| |sy my ey]; try reflexivity.
  cbn [valid_binary]. unfold bounded. intros [Hx _]%andb_true_iff [Hy _]%andb_true_iff.
  rewrite SFmul_ref. apply round_ref_valid; try assumption; try lia.
  now apply canonical_mul_pre.
Qed.

(** [binary_round] aligns the mantissa, then rounds. *)
Lemma binary_round_ref sx mx ex :
  let ez := Z.min ex (cexp (Z.pos mx) ex) in
  binary_round prec emax sx mx ex = round_ref sx (Z.pos mx * 2 ^ (ex - ez)) 1 ez /\
  ez <= cexp (Z.pos mx * 2 ^ (ex - ez) / 1) ez.
Proof.
  cbv zeta. unfold binary_round, shl_align.
  change (SpecFloat.fexp prec emax (Z.pos (digits2_pos mx) + ex)) with (cexp (Z.pos mx) ex).
  set (e' := cexp (Z.pos mx) ex).
  assert (cexp (Z.pos mx * 2 ^ (ex - Z.min ex e') / 1) (Z.min ex e') = e') as Hc.
  { rewrite Z.div_1_r. unfold RoundRef.cexp in *. rewrite Zdigits2_shiftl by lia.
    unfold e'. f_equal. lia. }
  split; [|lia].
  destruct (e' - ex) as [|d|d] eqn:E.
  - rewrite Z.min_l, Z.sub_diag, Z.pow_0_r, Z.mul_1_r by lia.
    apply binary_round_aux_ref; [lia|lia|apply represents_exact].
  - rewrite Z.min_l, Z.sub_diag, Z.pow_0_r, Z.mul_1_r by lia.
    apply binary_round_aux_ref; [lia|lia|apply represents_exact].
  - rewrite Z.min_r by lia.
    assert (Z.pos (Pos.iter xO mx d) = Z.pos mx * 2 ^ (ex - e')) as Hm.
    { replace (ex - e') with (Z.pos d) by lia. apply iter_xO_pow2. }
    apply binary_round_aux_ref; [lia|lia|]. rewrite <- Hm. apply represents_exact.
Qed.

Lemma binary_round_valid sx mx ex :
  valid_binary prec emax (binary_round prec emax sx mx ex) = true.
Proof.
  destruct (binary_round_ref sx mx ex) as [-> Hpre].
  apply round_ref_valid; try assumption; lia.
Qed.

Lemma SFdiv_core_binary_eq m1 e1 m2 e2 :
  0 < m1 ->
  let e' := div_exp m1 e1 m2 e2 in
  let m' := m1 * 2 ^ (e1 - e2 - e') in
  SFdiv_core_binary prec emax m1 e1 m2 e2 = (m' / m2, e', new_location m2 (m' mod m2)).
Proof.
  intros H1. cbv zeta. unfold SFdiv_core_binary. fold (div_exp m1 e1 m2 e2).
  set (e' := div_exp m1 e1 m2 e2).
  assert (e' <= e1 - e2) as He by apply Z.le_min_r.
  assert (match e1 - e2 - e' with Z.pos _ => Z.shiftl m1 (e1 - e2 - e') | Z0 => m1 | Z.neg _ => 0 end
          = m1 * 2 ^ (e1 - e2 - e')) as ->.
  { destruct (e1 - e2 - e') eqn:E; [rewrite Z.pow_0_r; lia | | lia].
    rewrite Z.shiftl_mul_pow2; lia. }
  unfold Z.div, Z.modulo. now destruct (Z.div_eucl _ m2).
Qed.

(** The quotient has the digits the exponent was chosen for. *)
Lemma div_exp_pre m1 e1 m2 e2 :
  0 < m1 -> 0 < m2 ->
  let e' := div_exp m1 e1 m2 e2 in
  e' <= cexp (m1 * 2 ^ (e1 - e2 - e') / m2) e'.
Proof.
  intros H1 H2. cbv zeta. set (e' := div_exp m1 e1 m2 e2).
  assert (e' <= e1 - e2) as He by apply Z.le_min_r.
  assert (e' <= fexp (Zdigits2 m1 + e1 - (Zdigits2 m2 + e2))) as Hf by apply Z.le_min_l.
  set (s := e1 - e2 - e'). set (q := m1 * 2 ^ s / m2).
  pose proof (Zdigits2_bounds m1 H1) as [Hl1 _]. pose proof (Zdigits2_bounds m2 H2) as [_ Hu2].
  pose proof (Zdigits2_pos m1 H1) as Hd1. pose proof (Zdigits2_pos m2 H2) as Hd2.
  pose proof (Zdigits2_nonneg q) as Hq0.
  destruct (Z.leb_spec (Zdigits2 m2) (Zdigits2 m1 - 1 + s)) as [Hge|Hlt].
  - (* the quotient is at least 2^(d1 - 1 + s - d2) *)
    assert (2 ^ (Zdigits2 m1 - 1 + s - Zdigits2 m2) <= q) as Hq.
    { apply Z.div_le_lower_bound; [lia|].
      assert (2 ^ (Zdigits2 m1 - 1 + s - Zdigits2 m2) * 2 ^ Zdigits2 m2 = 2 ^ (Zdigits2 m1 - 1) * 2 ^ s) as E.
      { rewrite <- !Z.pow_add_r by lia. f_equal. lia. }
      pose proof (pow2_pos (Zdigits2 m1 - 1 + s - Zdigits2 m2) ltac:(lia)).
      pose proof (pow2_pos s ltac:(lia)). nia. }
    assert (Zdigits2 m1 + s - Zdigits2 m2 <= Zdigits2 q) as Hd.
    { apply Zdigits2_ge.
      - now replace (Zdigits2 m1 + s - Zdigits2 m2 - 1) with (Zdigits2 m1 - 1 + s - Zdigits2 m2) by lia.
      - pose proof (pow2_pos (Zdigits2 m1 - 1 + s - Zdigits2 m2) ltac:(lia)). lia. }
    unfold s in *. fexp_lia.
  - unfold s in *. fexp_lia.
Qed.

Lemma SFdiv_ref sx mx ex sy my ey :
  let e' := div_exp (Z.pos mx) ex (Z.pos my) ey in
  SFdiv prec emax (S754_finite sx mx ex) (S754_finite sy my ey) =
  round_ref (xorb sx sy) (Z.pos mx * 2 ^ (ex - ey - e')) (Z.pos my) e'.
Proof.
  cbv zeta. cbn [SFdiv]. rewrite SFdiv_core_binary_eq by lia.
  assert (div_exp (Z.pos mx) ex (Z.pos my) ey <= ex - ey) as He by apply Z.le_min_r.
  apply binary_round_aux_ref; [|lia|apply new_location_represents; lia].
  apply Z.mul_nonneg_nonneg; [lia|]. apply Z.pow_nonneg. lia.
Qed.

(** The quotient of two finite floats is a float of the format, whatever
    their mantissas. *)
Lemma SFdiv_valid sx mx ex sy my ey :
  valid_binary prec emax (SFdiv prec emax (S754_finite sx mx ex) (S754_finite sy my ey)) = true.
Proof.
  rewrite SFdiv_ref.
  assert (div_exp (Z.pos mx) ex (Z.pos my) ey <= ex - ey) as He by apply Z.le_min_r.
  apply round_ref_valid; try assumption; try lia.
  apply div_exp_pre; lia.
Qed.

End Laws.
