(* ===== verification/Binary64.v ===== *)
(** * Binary64: Python floats and the arithmetic the script does on them

    A Python [float] is an IEEE-754 double.  It is modelled as a
    [SpecFloat.spec_float] at precision 53 and maximal exponent 1024: a
    signed zero, a signed infinity, a NaN, or [(-1)^s * m * 2^e].

    The script does three things with floats (source lines 9, 15 and 16):
    - [x ** 2], here [float_pow2], which follows CPython's [float_pow] at
      exponent 2 case by case, calls the C library's [pow] ([libm_pow2]) on
      the remaining finite arguments, and turns an overflow into
      [OverflowError];
    - [pi * a], here [float_mul], the multiplication of the format, which
      overflows to an infinity without an error;
    - the literal [3.14159], here [float_of_decimal], the double nearest to
      a decimal [d * 10^e] (the conversion [float(str)] ends with too).

    The C library is a parameter ([Libm]).  Its [pow] is not the product:
    it returns a double next to the exact square, not always the nearest
    (on glibc, [123456789.0 ** 2] is [15241578750190522.0] and
    [123456789.0 * 123456789.0] is [15241578750190520.0]).  What the model
    assumes of it is [LibmFaithful]: the result is the exact square rounded
    down or rounded up, hence the square itself when that is a double.
    [libm_nearest], [libm_down] and [libm_up] are three libraries that
    satisfy it; a run that is the same with [libm_down] and with [libm_up]
    is the same with every library that does.

    [square_ref] is the square as the specification states it, [x * x],
    with the error of [x ** 2]; the file proves when [float_pow2] computes
    it, the signs and the classes of the results, and when the operations
    raise. *)

From Stdlib Require Import ZArith Bool Lia SpecFloat.
From S2P Require Import Prelude Outcome Rounding Digits RoundRef.
Open Scope Z_scope.

(** ** The format *)

Definition prec : Z := 53.
Definition emax : Z := 1024.

Definition float : Type := spec_float.

(** [valid x]: the mantissa and exponent of [x] are those of a double. *)
Definition valid (x : float) : bool := valid_binary prec emax x.

Definition is_nan (x : float) : bool :=
  match x with S754_nan => true | _ => false end.

Definition is_inf (x : float) : bool :=
  match x with S754_infinity _ => true | _ => false end.

(** Zero or finite: neither an infinity nor a NaN. *)
Definition is_finite (x : float) : bool :=
  match x with S754_zero _ | S754_finite _ _ _ => true | _ => false end.

(** [negative x]: the sign bit of [x] is set; false on a NaN, whose sign no
    operation of the script observes. *)
Definition negative (x : float) : bool :=
  match x with
  | S754_zero s | S754_infinity s | S754_finite s _ _ => s
  | S754_nan => false
  end.

(** [1.0]. *)
Definition one : float := S754_finite false 4503599627370496 (-52).

(** ** Multiplication: [a * b] *)

(** [float.__mul__]: the product rounded to nearest, ties to even; an
    overflow gives an infinity, no exception. *)
Definition float_mul (a b : float) : float := SFmul prec emax a b.

(** ** Squaring: [x ** 2] *)

(** The exact square of a float, rounded by [r]: [m * m * 2^(e + e)] for a
    finite float, and the square of the other floats. *)
Definition square_round (r : Z -> Z -> Z) (x : float) : float :=
  match x with
  | S754_finite _ m e => round_gen prec emax r false (Z.pos m * Z.pos m) 1 (e + e)
  | S754_zero _ => S754_zero false
  | S754_infinity _ => S754_infinity false
  | S754_nan => S754_nan
  end.

(** The C library: [pow(x, 2.0)], called on finite positive floats. *)
Class Libm : Type := {
  libm_pow2 : float -> float
}.

(** What is assumed of it: an error below one unit in the last place.  The
    result is the exact square rounded down or rounded up. *)
Class LibmFaithful (M : Libm) : Prop := {
  libm_pow2_faithful : forall (m : positive) (e : Z),
    libm_pow2 (S754_finite false m e) = square_round floor_pick (S754_finite false m e) \/
    libm_pow2 (S754_finite false m e) = square_round ceil_pick (S754_finite false m e)
}.

(** The library that rounds the square by [r]. *)
Definition libm_of (r : Z -> Z -> Z) : Libm := {| libm_pow2 := square_round r |}.

(** The libraries that round every square down, up, and to nearest. *)
Definition libm_down : Libm := libm_of floor_pick.
Definition libm_up : Libm := libm_of ceil_pick.
Definition libm_nearest : Libm := libm_of rne.

(** [float.__pow__(v, 2)], CPython's [float_pow] with [iw = 2.0]:
    - a NaN is returned as it is;
    - an infinity gives [fabs(iv)], 2 not being odd;
    - a zero gives [0.0], 2 not being odd;
    - a negative [iv] is replaced by [-iv], and the result is not negated;
    - [iv == 1.0] gives [1.0];
    - otherwise [pow(iv, 2.0)] is called, and a result that is an infinity
      sets [errno] to [ERANGE], which raises [OverflowError].
    A result that underflows raises nothing: the range error the library
    reports with a zero is cleared, and the library is taken to report
    none with a subnormal result, as glibc does. *)
Definition float_pow2 {M : Libm} (v : float) : result float :=
  match v with
  | S754_nan => Ok v
  | S754_infinity _ => Ok (SFabs v)
  | S754_zero _ => Ok (S754_zero false)
  | S754_finite s _ _ =>
    let iv := if s then SFopp v else v in
    if SFeqb iv one then Ok one
    else
      let ix := libm_pow2 iv in
      if is_inf ix then Raise OverflowError else Ok ix
  end.

(** The square rounded by [r], with the error of [x ** 2]: an infinite
    square of a finite [x] raises. *)
Definition pow2_with (r : Z -> Z -> Z) (x : float) : result float :=
  let y := square_round r x in
  if is_inf y && negb (is_inf x) then Raise OverflowError else Ok y.

(** Structural equality of floats. *)
Definition same_float (a b : float) : bool :=
  match a, b with
  | S754_zero s, S754_zero t | S754_infinity s, S754_infinity t => Bool.eqb s t
  | S754_nan, S754_nan => true
  | S754_finite s m e, S754_finite t n f => Bool.eqb s t && Pos.eqb m n && Z.eqb e f
  | _, _ => false
  end.

(** [square_exact x]: the exact square of [x] needs no rounding. *)
Definition square_exact (x : float) : bool :=
  same_float (square_round floor_pick x) (square_round ceil_pick x).

(** The square as the specification has it, [x * x], with the error of
    [x ** 2]: an infinite product of a finite [x] raises. *)
Definition square_ref (x : float) : result float :=
  let y := float_mul x x in
  if is_inf y && negb (is_inf x) then Raise OverflowError else Ok y.

(** [square_overflows x]: [x] is finite and [2^512 <= |x|], which for a
    double is an exponent of at least 460. *)
Definition square_overflows (x : float) : bool :=
  match x with
  | S754_finite _ _ e => 460 <=? e
  | _ => false
  end.

(** ** Decimal to binary: the literal [3.14159] *)

(** [float_of_decimal neg d e]: the double nearest to [(-1)^neg * d * 10^e]
    for [0 <= d], ties to even.  A non-negative exponent gives the integer
    [d * 10^e], rounded; a negative one the quotient of [d] by [10^(-e)],
    divided and rounded in one step.  Too large a value gives an infinity,
    too small a one a zero, both of the sign of the decimal. *)
Definition float_of_decimal (neg : bool) (d : Z) (e : Z) : float :=
  match d with
  | Zpos p =>
    if 0 <=? e then binary_round prec emax neg (p * Z.to_pos (10 ^ e))%positive 0
    else SFdiv prec emax (S754_finite neg p 0)
                         (S754_finite false (Z.to_pos (10 ^ (- e))) 0)
  | _ => S754_zero neg
  end.

(** ** Classes of results *)

(** A result of [float_mul] is a NaN only from a NaN operand or from zero
    times infinity. *)
Lemma float_mul_nan (a b : float) :
  is_nan (float_mul a b) = true ->
  is_nan a = true \/ is_nan b = true \/
  (is_inf a = true /\ b = S754_zero (negative b)) \/
  (a = S754_zero (negative a) /\ is_inf b = true).
Proof.
  destruct a as [sa|sa| |sa ma ea], b as [sb|sb| |sb mb eb]; cbn; auto; try discriminate.
  intros H. exfalso.
  pose proof (binary_round_aux_class prec emax (xorb sa sb) (Z.pos (ma * mb)) (ea + eb)
                loc_Exact (Z.pos (ma * mb)) 1 ltac:(lia) Z.lt_0_1
                (represents_exact _)) as Hc.
  unfold float_mul, SFmul in H. destruct Hc; discriminate.
Qed.

(** The sign of a product is the exclusive or of the signs of the factors,
    whenever the product is not a NaN. *)
Lemma float_mul_sign (a b : float) :
  is_nan (float_mul a b) = false ->
  negative (float_mul a b) = xorb (negative a) (negative b).
Proof.
  destruct a as [sa|sa| |sa ma ea], b as [sb|sb| |sb mb eb]; cbn; auto; try discriminate.
  intros _.
  pose proof (binary_round_aux_class prec emax (xorb sa sb) (Z.pos (ma * mb)) (ea + eb)
                loc_Exact (Z.pos (ma * mb)) 1 ltac:(lia) Z.lt_0_1
                (represents_exact _)) as Hc.
  destruct Hc; reflexivity.
Qed.

(** A product of two non-negative floats is not negative. *)
Lemma float_mul_nonneg (a b : float) :
  negative a = false -> negative b = false -> negative (float_mul a b) = false.
Proof.
  intros Ha Hb. destruct (is_nan (float_mul a b)) eqn:E.
  - destruct (float_mul a b); try discriminate. reflexivity.
  - rewrite float_mul_sign, Ha, Hb by assumption. reflexivity.
Qed.

(** [SFeqb x one] holds of [one] only, among the finite positive floats with
    the exponent of [one]. *)
Lemma SFeqb_one_refl : SFeqb one one = true.
Proof. reflexivity. Qed.

(** A decimal converts to a zero, a finite number or an infinity of its
    sign. *)
Lemma float_of_decimal_class (neg : bool) (d e : Z) :
  round_class prec emax neg (float_of_decimal neg d e).
Proof.
  unfold float_of_decimal. destruct d as [|p|p]; try constructor.
  destruct (0 <=? e).
  - apply binary_round_class.
  - pose proof (SFdiv_finite_class prec emax neg p 0 false (Z.to_pos (10 ^ (- e))) 0) as H.
    now rewrite xorb_false_r in H.
Qed.

Lemma round_class_negative (s : bool) (x : float) :
  round_class prec emax s x -> negative x = s.
Proof. now intros []. Qed.

Lemma round_class_not_nan (s : bool) (x : float) :
  round_class prec emax s x -> is_nan x = false.
Proof. now intros []. Qed.

Lemma float_of_decimal_negative (neg : bool) (d e : Z) :
  negative (float_of_decimal neg d e) = neg.
Proof. apply round_class_negative, float_of_decimal_class. Qed.

(** ** Algebra of the product *)

(** The product is commutative, bit for bit. *)
Lemma float_mul_comm (a b : float) : float_mul a b = float_mul b a.
Proof.
  destruct a as [sa|sa| |sa ma ea], b as [sb|sb| |sb mb eb]; cbn;
    rewrite ?(xorb_comm sa sb), ?(Pos.mul_comm ma mb), ?(Z.add_comm ea eb); reflexivity.
Qed.

(** Changing the sign of both factors does not change the product. *)
Lemma float_mul_opp (a b : float) :
  float_mul (SFopp a) (SFopp b) = float_mul a b.
Proof.
  destruct a as [sa|sa| |sa ma ea], b as [sb|sb| |sb mb eb]; cbn;
    rewrite ?negb_xorb_l, ?negb_xorb_r, ?negb_involutive; try reflexivity.
  all: now destruct sa, sb.
Qed.

(** The comparison [iv == 1.0] of [float_pow] holds of [1.0] alone. *)
Lemma SFeqb_one (s : bool) (m : positive) (e : Z) :
  SFeqb (S754_finite s m e) one = true -> S754_finite s m e = one.
Proof.
  unfold SFeqb, one. cbn [SFcompare]. destruct s; [discriminate|].
  destruct (e ?= -52) eqn:He; try discriminate.
  destruct (Pos.compare_cont Eq m 4503599627370496) eqn:Hm; try discriminate.
  intros _. apply Z.compare_eq in He. apply Pos.compare_eq in Hm. now subst.
Qed.

Lemma abs_finite (s : bool) (m : positive) (e : Z) :
  (if s then SFopp (S754_finite s m e) else S754_finite s m e) = S754_finite false m e.
Proof. now destruct s. Qed.

(** ** The square *)

Lemma same_float_eq (a b : float) : same_float a b = true -> a = b.
Proof.
  destruct a as [s|s| |s m e], b as [t|t| |t n f]; cbn; try discriminate; try reflexivity.
  - now intros ->%eqb_prop.
  - now intros ->%eqb_prop.
  - intros [[->%eqb_prop ->%Pos.eqb_eq]%andb_true_iff ->%Z.eqb_eq]%andb_true_iff. reflexivity.
Qed.

(** The product of a float by itself is its square rounded to nearest. *)
Lemma float_mul_square (x : float) : float_mul x x = square_round rne x.
Proof.
  destruct x as [s|s| |s m e]; cbn [float_mul square_round]; unfold float_mul;
    cbn [SFmul]; rewrite ?xorb_nilpotent; try reflexivity.
  apply (binary_round_aux_ref prec emax false _ _ loc_Exact (Z.pos m * Z.pos m) 1); [lia|lia|].
  rewrite Pos2Z.inj_mul. apply represents_exact.
Qed.

(** A square rounded by [r] is the square rounded down or rounded up. *)
Lemma square_round_down_or_up (r : Z -> Z -> Z) (x : float) :
  is_pick r ->
  square_round r x = square_round floor_pick x \/ square_round r x = square_round ceil_pick x.
Proof.
  intros Hr. destruct x as [s|s| |s m e]; cbn [square_round]; auto.
  apply round_gen_down_or_up; [assumption|lia].
Qed.

(** A square that needs no rounding is the same whatever the rounding. *)
Lemma square_exact_round (r : Z -> Z -> Z) (x : float) :
  is_pick r -> square_exact x = true -> square_round r x = square_round floor_pick x.
Proof.
  intros Hr Hx. apply same_float_eq in Hx.
  destruct (square_round_down_or_up r x Hr) as [H|H]; congruence.
Qed.

(** A square rounded by [r] is a zero, a finite float or an infinity, and
    positive, unless it is a NaN. *)
Lemma square_round_class (r : Z -> Z -> Z) (s : bool) (m : positive) (e : Z) :
  is_pick r -> round_class prec emax false (square_round r (S754_finite s m e)).
Proof. intros Hr. cbn [square_round]. apply round_gen_class; [assumption|lia|lia]. Qed.

(** Libraries that round the square satisfy the contract. *)
Lemma libm_of_faithful (r : Z -> Z -> Z) : is_pick r -> LibmFaithful (libm_of r).
Proof. intros Hr. constructor. intros m e. now apply square_round_down_or_up. Qed.

Lemma libm_down_faithful : LibmFaithful libm_down.
Proof. apply libm_of_faithful, floor_is_pick. Qed.

Lemma libm_up_faithful : LibmFaithful libm_up.
Proof. apply libm_of_faithful, ceil_is_pick. Qed.

Lemma libm_nearest_faithful : LibmFaithful libm_nearest.
Proof. apply libm_of_faithful, rne_is_pick. Qed.

Section Square.
Context {M : Libm}.

(** [x ** 2] raises nothing but [OverflowError], and only on a finite
    argument that is not zero. *)
Lemma float_pow2_raises (x : float) (e : exn) :
  float_pow2 x = Raise e ->
  e = OverflowError /\ exists s m ex, x = S754_finite s m ex.
Proof.
  destruct x as [s|s| |s m ex]; cbn [float_pow2]; try discriminate.
  cbv zeta. repeat destr_match; intros H; inv H; eauto.
Qed.

(** C37: a square does not depend on the sign of its argument:
    [(-x) ** 2] and [x ** 2] are the same float, or raise the same error. *)
Theorem float_pow2_opp (x : float) : float_pow2 (SFopp x) = float_pow2 x.
Proof.
  destruct x as [s|s| |s m e]; try reflexivity.
  now destruct s.
Qed.

Context {MF : LibmFaithful M}.

(** What [pow] returns is a zero, a finite float or an infinity, and
    positive. *)
Lemma libm_pow2_class (m : positive) (e : Z) :
  round_class prec emax false (libm_pow2 (S754_finite false m e)).
Proof.
  destruct (libm_pow2_faithful m e) as [-> | ->]; apply square_round_class;
    [apply floor_is_pick | apply ceil_is_pick].
Qed.

(** A square that is returned is not negative. *)
Lemma float_pow2_negative (x y : float) :
  float_pow2 x = Ok y -> negative y = false.
Proof.
  destruct x as [s|s| |s m ex]; cbn [float_pow2 SFabs]; try (intros H; now inv H).
  cbv zeta. rewrite abs_finite. destruct (SFeqb _ one); [intros H; now inv H|].
  pose proof (libm_pow2_class m ex) as Hc.
  destruct (is_inf _); intros H; inv H.
  now apply round_class_negative in Hc.
Qed.

(** [x ** 2] is the square rounded down or the square rounded up, with the
    overflow check. *)
Lemma float_pow2_down_or_up (x : float) :
  float_pow2 x = pow2_with floor_pick x \/ float_pow2 x = pow2_with ceil_pick x.
Proof.
  destruct x as [s|s| |s m e]; try (left; reflexivity).
  cbn [float_pow2]. cbv zeta. rewrite abs_finite. unfold pow2_with.
  cbn [is_inf negb]. rewrite !andb_true_r.
  destruct (SFeqb _ one) eqn:E.
  - apply SFeqb_one in E. inv E. left. reflexivity.
  - change (square_round ?r (S754_finite s m e)) with (square_round r (S754_finite false m e)).
    destruct (libm_pow2_faithful m e) as [-> | ->]; auto.
Qed.

(** When the square needs no rounding, [x ** 2] is [x * x] with the
    overflow check. *)
Lemma float_pow2_exact (x : float) :
  square_exact x = true -> float_pow2 x = square_ref x.
Proof.
  intros Hx. unfold square_ref. rewrite float_mul_square.
  rewrite (square_exact_round rne x rne_is_pick Hx).
  fold (pow2_with floor_pick x).
  destruct (float_pow2_down_or_up x) as [->| ->]; [reflexivity|].
  unfold pow2_with. now rewrite (square_exact_round ceil_pick x ceil_is_pick Hx).
Qed.

End Square.

(** [1.0] squared needs no rounding. *)
Lemma square_round_one (r : Z -> Z -> Z) : is_pick r -> square_round r one = one.
Proof.
  intros Hr. unfold one. cbn [square_round].
  apply (round_gen_exact prec emax r false 4503599627370496 (-52)); try assumption;
    try lia; reflexivity.
Qed.

(** With the library that rounds the square by [r], [x ** 2] is that
    rounded square with the overflow check, on every float. *)
Lemma float_pow2_libm_of (r : Z -> Z -> Z) (x : float) :
  is_pick r -> float_pow2 (M := libm_of r) x = pow2_with r x.
Proof.
  intros Hr. unfold pow2_with. destruct x as [s|s| |s m e]; try reflexivity.
  cbn [float_pow2 is_inf negb libm_pow2 libm_of]. cbv zeta. rewrite abs_finite, andb_true_r.
  destruct (SFeqb _ one) eqn:E; [|reflexivity].
  apply SFeqb_one in E. inv E.
  change (square_round r (S754_finite s 4503599627370496 (-52))) with (square_round r one).
  now rewrite square_round_one.
Qed.

(** With a library that rounds to nearest, [x ** 2] is [x * x] with the
    overflow check, on every float. *)
Lemma float_pow2_nearest (x : float) : float_pow2 (M := libm_of rne) x = square_ref x.
Proof.
  rewrite float_pow2_libm_of by apply rne_is_pick.
  unfold square_ref, pow2_with. now rewrite float_mul_square.
Qed.
