(* ===== verification/Validity.v ===== *)
(** * Validity: the floats of the script are doubles

    A [spec_float] is a double when its mantissa has the 53 digits of the
    format, or fewer at the least exponent -1074, and its exponent is at
    most 971 ([Binary64.valid]).  This file proves that every float the
    script makes is one: the literal and the converted argument
    ([float_of_decimal_valid]), the product ([float_mul_valid]) and the
    square, whatever faithful [pow] the C library has
    ([float_pow2_valid]).

    It then locates the overflow of the square: on a double, [x ** 2]
    raises [OverflowError] exactly when the exponent of [x] is at least
    460, that is when [2^512 <= |x|], and is otherwise the exact square
    rounded down or up ([float_pow2_threshold]); and it states when
    [x ** 2] is [x * x] ([float_pow2_exact_square]). *)

From Stdlib Require Import ZArith Bool Lia SpecFloat.
From S2P Require Import Prelude Outcome Rounding Digits RoundRef Binary64.
Open Scope Z_scope.

Lemma prec_pos : 0 < prec.
Proof. reflexivity. Qed.

Lemma prec_lt_emax : prec < emax.
Proof. reflexivity. Qed.

(** ** Validity: every operation returns a double *)

Lemma float_mul_valid (a b : float) :
  valid a = true -> valid b = true -> valid (float_mul a b) = true.
Proof. apply SFmul_valid; first [exact prec_pos | exact prec_lt_emax]. Qed.

Lemma float_of_decimal_valid (neg : bool) (d e : Z) :
  valid (float_of_decimal neg d e) = true.
Proof.
  unfold float_of_decimal, valid. destruct d as [|p|p]; try reflexivity.
  destruct (0 <=? e).
  - apply binary_round_valid; first [exact prec_pos | exact prec_lt_emax].
  - apply SFdiv_valid; first [exact prec_pos | exact prec_lt_emax].
Qed.

Lemma one_valid : valid one = true.
Proof. reflexivity. Qed.

(** The square of a double, rounded down, up or to nearest, is a double. *)
Lemma square_round_valid (r : Z -> Z -> Z) (x : float) :
  is_pick r -> valid x = true -> valid (square_round r x) = true.
Proof.
  intros Hr Hx. destruct x as [s|s| |s m e]; try reflexivity. cbn [square_round].
  unfold valid in Hx. cbn [valid_binary] in Hx. apply andb_true_iff in Hx as [Hc _].
  apply round_gen_valid; try assumption; try lia; try exact prec_pos.
  exact (canonical_mul_pre prec emax prec_pos m e m e Hc Hc).
Qed.

Lemma pow2_with_valid (r : Z -> Z -> Z) (x y : float) :
  is_pick r -> valid x = true -> pow2_with r x = Ok y -> valid y = true.
Proof.
  intros Hr Hx. unfold pow2_with. cbv zeta.
  destruct (is_inf _ && _); intros H; inv H. now apply square_round_valid.
Qed.

(** A square that is returned is a double. *)
Lemma float_pow2_valid {M : Libm} {MF : LibmFaithful M} (x y : float) :
  valid x = true -> float_pow2 x = Ok y -> valid y = true.
Proof.
  intros Hx H. destruct (float_pow2_down_or_up x) as [E|E]; rewrite E in H;
    eapply pow2_with_valid; try eassumption; [apply floor_is_pick | apply ceil_is_pick].
Qed.

(** ** The mantissa and the exponent of a double *)

Lemma valid_finite (s : bool) (m : positive) (e : Z) :
  valid (S754_finite s m e) = true ->
  e = Z.max (Zdigits2 (Z.pos m) + e - 53) (-1074) /\ e <= 971.
Proof.
  unfold valid. cbn [valid_binary]. unfold bounded, canonical_mantissa.
  intros [H1%Z.eqb_eq H2%Z.leb_le]%andb_true_iff. split; [|exact H2].
  symmetry. exact H1.
Qed.

(** The product of two finite doubles, as a rounding: a mantissa below
    [2^53] at its exponent of the format, which is that of the exact
    product or the next one, and the exact product rounded to nearest even
    at that exponent. *)
Lemma mul_round_spec (sa : bool) (ma : positive) (ea : Z) (sb : bool) (mb : positive) (eb : Z) :
  valid (S754_finite sa ma ea) = true -> valid (S754_finite sb mb eb) = true ->
  exists m' e',
    float_mul (S754_finite sa ma ea) (S754_finite sb mb eb) =
      finish prec emax (xorb sa sb) m' e' /\
    cexp prec emax m' e' = e' /\ 0 <= m' < 2 ^ prec /\
    cexp prec emax (Z.pos ma * Z.pos mb) (ea + eb) <= e' <=
      cexp prec emax (Z.pos ma * Z.pos mb) (ea + eb) + 1 /\
    ea + eb <= e' /\
    m' = rne (Z.pos ma * Z.pos mb) (2 ^ (e' - (ea + eb))).
Proof.
  intros Ha Hb. unfold float_mul. rewrite SFmul_ref.
  unfold valid in Ha, Hb. cbn [valid_binary] in Ha, Hb.
  apply andb_true_iff in Ha as [Ha _]. apply andb_true_iff in Hb as [Hb _].
  pose proof (canonical_mul_pre prec emax prec_pos ma ea mb eb Ha Hb) as Hpre.
  destruct (round_ref_spec prec emax prec_pos (Z.pos ma * Z.pos mb) 1 (ea + eb)
              (xorb sa sb) ltac:(lia) Z.lt_0_1 Hpre) as (m' & e' & H).
  exists m', e'. rewrite Z.div_1_r in Hpre. rewrite Z.div_1_r, Z.mul_1_l in H. intuition lia.
Qed.

Lemma finish_is_inf (m e : Z) :
  0 <= m -> is_inf (finish prec emax false m e) = (0 <? m) && (971 <? e).
Proof.
  intros Hm. destruct m as [|p|p]; [reflexivity| |lia]. cbn [finish].
  change (emax - prec) with 971. now destruct (Z.leb_spec e 971), (Z.ltb_spec 971 e); try lia.
Qed.

(** The square of a finite double, as a rounding by [r]: the mantissa and
    the exponent of the first rounding, or, after a carry, half the
    mantissa at the next exponent. *)
Lemma square_round_spec (r : Z -> Z -> Z) (s : bool) (m : positive) (e : Z) :
  is_pick r -> valid (S754_finite s m e) = true ->
  let e1 := cexp prec emax (Z.pos m * Z.pos m) (e + e) in
  exists m' e',
    square_round r (S754_finite s m e) = finish prec emax false m' e' /\
    cexp prec emax m' e' = e' /\ 0 <= m' < 2 ^ prec /\
    (e' = e1 \/
     (e' = e1 + 1 /\ Z.pos m * Z.pos m / 2 ^ (e1 - (e + e)) = 2 ^ prec - 1)).
Proof.
  intros Hr Hv. cbv zeta. cbn [square_round].
  unfold valid in Hv. cbn [valid_binary] in Hv. apply andb_true_iff in Hv as [Hc _].
  pose proof (canonical_mul_pre prec emax prec_pos m e m e Hc Hc) as Hpre.
  destruct (round_gen_spec prec emax prec_pos (Z.pos m * Z.pos m) 1 (e + e)
              ltac:(lia) Z.lt_0_1 Hpre r Hr false) as (m' & e' & E & Hce & Hm & Hcase).
  rewrite Z.div_1_r, Z.mul_1_l in Hcase. rewrite Z.div_1_r in Hpre.
  exists m', e'. intuition lia.
Qed.

(** The square of a finite double is an infinity from the exponent 460
    on, whatever the rounding. *)
Lemma square_round_is_inf (r : Z -> Z -> Z) (s : bool) (m : positive) (e : Z) :
  is_pick r -> valid (S754_finite s m e) = true ->
  is_inf (square_round r (S754_finite s m e)) = (460 <=? e).
Proof.
  intros Hr Hv.
  destruct (square_round_spec r s m e Hr Hv) as (m' & e' & -> & Hc & Hm & He).
  destruct (valid_finite s m e Hv) as [Hce Hmax].
  rewrite finish_is_inf by lia.
  pose proof (digits2_pos_bounds m) as [Hl Hu]. cbn [Zdigits2] in Hce.
  set (d := Z.pos (digits2_pos m)) in *.
  assert (d <= 53) as Hd by lia.
  assert (Z.pos m < 2 ^ 53) as Hm53.
  { assert (2 ^ d <= 2 ^ 53) by (apply Z.pow_le_mono_r; lia). lia. }
  assert (Zdigits2 (Z.pos m * Z.pos m) <= 106) as Hd2.
  { apply Zdigits2_le; [lia|]. change (2 ^ 106) with (2 ^ 53 * 2 ^ 53). nia. }
  unfold cexp, fexp, emin, prec, emax in *.
  destruct (Z.leb_spec 460 e) as [Hbig|Hsmall].
  - assert (2 ^ 52 <= Z.pos m) as Hm52 by (replace d with 53 in Hl by lia; exact Hl).
    assert (105 <= Zdigits2 (Z.pos m * Z.pos m)) as Hd3.
    { apply Zdigits2_ge; [|lia]. change (2 ^ (105 - 1)) with (2 ^ 52 * 2 ^ 52). nia. }
    assert (m' <> 0) by (intros ->; cbn [Zdigits2] in Hc; lia).
    destruct (Z.ltb_spec 0 m'), (Z.ltb_spec 971 e'); try reflexivity; lia.
  - destruct (Z.ltb_spec 971 e') as [He'|]; [|apply andb_false_r].
    exfalso. destruct He as [He|[He Hq]]; [lia|].
    assert (Zdigits2 (Z.pos m * Z.pos m) = 106 /\ e = 459) as [Hd106 ->] by lia.
    rewrite Hd106 in Hq. change (Z.max (106 + (459 + 459) - 53) (3 - 1024 - 53) - (459 + 459)) with 53 in Hq.
    pose proof (Z.mul_div_le (Z.pos m * Z.pos m) (2 ^ 53) ltac:(lia)) as Hle.
    rewrite Hq in Hle.
    assert (Z.pos m * Z.pos m <= (2 ^ 53 - 1) * (2 ^ 53 - 1)) by nia.
    lia.
Qed.

(** The square with its error: the error from the exponent 460 on, the
    rounded square below. *)
Lemma pow2_with_threshold (r : Z -> Z -> Z) (x : float) :
  is_pick r -> valid x = true ->
  pow2_with r x = (if square_overflows x then Raise OverflowError else Ok (square_round r x)).
Proof.
  intros Hr Hv. unfold pow2_with. cbv zeta.
  destruct x as [s|s| |s m e]; try reflexivity.
  cbn [square_overflows is_inf negb]. now rewrite andb_true_r, square_round_is_inf.
Qed.

(** The square of a double by [x ** 2]: the error from the exponent 460
    on, and below it the exact square rounded down or up. *)
Lemma float_pow2_threshold {M : Libm} {MF : LibmFaithful M} (x : float) :
  valid x = true ->
  float_pow2 x =
    (if square_overflows x then Raise OverflowError else Ok (square_round floor_pick x)) \/
  float_pow2 x =
    (if square_overflows x then Raise OverflowError else Ok (square_round ceil_pick x)).
Proof.
  intros Hv. destruct (float_pow2_down_or_up x) as [-> | ->]; [left|right];
    apply pow2_with_threshold; try assumption; [apply floor_is_pick | apply ceil_is_pick].
Qed.

(** ** Finite results *)

(** A float [finish] returns as finite has the mantissa and the exponent
    it was given. *)
Lemma finish_finite (sx s : bool) (m' e' : Z) (m : positive) (e : Z) :
  finish prec emax sx m' e' = S754_finite s m e -> m' = Z.pos m /\ e' = e /\ sx = s.
Proof.
  destruct m' as [|p|p]; cbn [finish]; try discriminate.
  destruct (e' <=? emax - prec); [|discriminate]. intros H. now inv H.
Qed.

(** ** Properties *)

(** C16: where the square overflows.  On a double [x], and with any C
    library whose [pow] errs by less than one unit in the last place,
    [x ** 2] raises [OverflowError] if and only if [x] is finite with an
    exponent of at least 460, that is [2^512 <= |x|]; on every other double
    it returns the exact square rounded down or rounded up. *)
Theorem float_pow2_overflow_iff {M : Libm} {MF : LibmFaithful M} (x : float) :
  valid x = true ->
  (float_pow2 x = Raise OverflowError <-> square_overflows x = true) /\
  (square_overflows x = false ->
   float_pow2 x = Ok (square_round floor_pick x) \/
   float_pow2 x = Ok (square_round ceil_pick x)).
Proof.
  intros Hv. destruct (float_pow2_threshold x Hv) as [-> | ->];
    destruct (square_overflows x); (split; [split|]); auto; discriminate.
Qed.

(** C19: when [x ** 2] is [x * x].  When the exact square of [x] is a
    double, [x ** 2] and [x * x] are that double, whatever the C library
    does on other squares; when it is not, they can differ in the last
    place. *)
Theorem float_pow2_exact_square {M : Libm} {MF : LibmFaithful M} (x : float) :
  square_exact x = true -> float_pow2 x = square_ref x.
Proof. apply float_pow2_exact. Qed.
