(* ===== verification/Accuracy.v ===== *)
(** * Accuracy: the floats of the script are correctly rounded

    The conversion of a decimal (the literal [3.14159], the argument of the
    script) and the product return, when they return a finite float, a
    double within half a unit in the last place of the exact value
    ([float_of_decimal_within_half_ulp], [float_mul_within_half_ulp]).  The
    bound [within_half_ulp] is stated on integers, denominators cleared. *)

From Stdlib Require Import ZArith Bool Lia SpecFloat.
From S2P Require Import Prelude Outcome Rounding Digits RoundRef Binary64 Validity.
Open Scope Z_scope.

(** ** Definitions *)

(** [within_half_ulp m e N D t]: the float [m * 2^e] is within half a unit
    in its last place, [2^e / 2], of the rational [N / D * 2^t].  The
    inequality is written on integers, both sides multiplied by [D] and by
    the power of two that clears the smaller exponent. *)
Definition within_half_ulp (m e N D t : Z) : Prop :=
  let c := Z.min e t in
  2 * Z.abs (m * 2 ^ (e - c) * D - N * 2 ^ (t - c)) <= D * 2 ^ (e - c).

(** The bound does not depend on how the value is written: a power of two
    may move between the numerator and the exponent. *)
Lemma within_half_ulp_scale (m e N D t s : Z) :
  0 <= s -> 0 < D ->
  within_half_ulp m e (N * 2 ^ s) D (t - s) -> within_half_ulp m e N D t.
Proof.
  unfold within_half_ulp. cbv zeta. intros Hs HD H.
  pose proof (pow2_pos s Hs) as Hps.
  destruct (Z.le_gt_cases e (t - s)) as [H1|H1].
  - rewrite Z.min_l in * by lia. rewrite Z.sub_diag, Z.pow_0_r in *.
    replace (t - e) with (s + (t - s - e)) by lia. rewrite Z.pow_add_r by lia.
    now rewrite Z.mul_assoc.
  - rewrite (Z.min_r e (t - s)) in H by lia.
    replace (t - s - (t - s)) with 0 in H by lia. rewrite Z.pow_0_r, Z.mul_1_r in H.
    destruct (Z.le_gt_cases e t) as [H2|H2].
    + rewrite Z.min_l by lia. rewrite Z.sub_diag, Z.pow_0_r, Z.mul_1_r.
      assert (2 ^ s = 2 ^ (t - e) * 2 ^ (e - (t - s))) as E
        by (rewrite <- Z.pow_add_r by lia; f_equal; lia).
      pose proof (pow2_pos (e - (t - s)) ltac:(lia)) as Hp.
      pose proof (pow2_pos (t - e) ltac:(lia)) as Hq.
      rewrite E in H. set (A := 2 ^ (e - (t - s))) in *. set (B := 2 ^ (t - e)) in *.
      replace (m * A * D - N * (B * A)) with ((m * D - N * B) * A) in H by ring.
      rewrite Z.abs_mul, (Z.abs_eq A) in H by lia. nia.
    + rewrite Z.min_r by lia. rewrite Z.sub_diag, Z.pow_0_r, Z.mul_1_r.
      assert (2 ^ (e - (t - s)) = 2 ^ (e - t) * 2 ^ s) as E
        by (rewrite <- Z.pow_add_r by lia; f_equal; lia).
      pose proof (pow2_pos (e - t) ltac:(lia)) as Hp.
      rewrite E in H. set (A := 2 ^ s) in *. set (B := 2 ^ (e - t)) in *.
      replace (m * (B * A) * D - N * A) with ((m * B * D - N) * A) in H by ring.
      rewrite Z.abs_mul, (Z.abs_eq A) in H by lia. nia.
Qed.

(** A rounding at an exponent not below that of the value is within half
    a unit. *)
Lemma rne_within_half_ulp (num W ex e : Z) :
  0 < W -> ex <= e -> within_half_ulp (rne num (W * 2 ^ (e - ex))) e num W ex.
Proof.
  intros HW He. unfold within_half_ulp. cbv zeta.
  rewrite Z.min_r, Z.sub_diag, Z.pow_0_r, Z.mul_1_r by lia.
  pose proof (pow2_pos (e - ex) ltac:(lia)) as Hp.
  pose proof (rne_bound num (W * 2 ^ (e - ex)) ltac:(nia)) as H.
  replace (rne num (W * 2 ^ (e - ex)) * 2 ^ (e - ex) * W)
    with (rne num (W * 2 ^ (e - ex)) * (W * 2 ^ (e - ex))) by ring.
  exact H.
Qed.

(** C22: a product is correctly rounded.  A finite product of two doubles
    has the sign of the exact product and is within half a unit in the last
    place of [ma * mb * 2^(ea + eb)]. *)
Theorem float_mul_within_half_ulp (sa : bool) (ma : positive) (ea : Z)
  (sb : bool) (mb : positive) (eb : Z) (s : bool) (m : positive) (e : Z) :
  valid (S754_finite sa ma ea) = true -> valid (S754_finite sb mb eb) = true ->
  float_mul (S754_finite sa ma ea) (S754_finite sb mb eb) = S754_finite s m e ->
  s = xorb sa sb /\ within_half_ulp (Z.pos m) e (Z.pos ma * Z.pos mb) 1 (ea + eb).
Proof.
  intros Ha Hb H.
  destruct (mul_round_spec sa ma ea sb mb eb Ha Hb) as (m' & e' & E & _ & _ & _ & He & Hr).
  rewrite E in H. apply finish_finite in H as (Hm & -> & ->).
  split; [reflexivity|]. rewrite <- Hm, Hr.
  rewrite <- (Z.mul_1_l (2 ^ _)). now apply rne_within_half_ulp.
Qed.

(** The conversion of a decimal. *)
Lemma float_of_decimal_round_spec (neg : bool) (p : positive) (e : Z) :
  exists num W ex s,
    0 <= num /\ 0 < W /\ 0 <= s /\ ex <= cexp prec emax (num / W) ex /\
    float_of_decimal neg (Z.pos p) e = round_ref prec emax neg num W ex /\
    ((0 <= e /\ W = 1 /\ num = Z.pos p * 10 ^ e * 2 ^ s /\ ex = - s) \/
     (e < 0 /\ W = 10 ^ (- e) /\ num = Z.pos p * 2 ^ s /\ ex = - s)).
Proof.
  unfold float_of_decimal. destruct (Z.leb_spec 0 e) as [He|He].
  - pose proof (pow10_pos e He) as H10.
    destruct (binary_round_ref prec emax neg (p * Z.to_pos (10 ^ e)) 0) as [E Hpre].
    set (ez := Z.min 0 (cexp prec emax (Z.pos (p * Z.to_pos (10 ^ e))) 0)) in *.
    exists (Z.pos (p * Z.to_pos (10 ^ e)) * 2 ^ (0 - ez)), 1, ez, (- ez).
    assert (ez <= 0) by apply Z.le_min_l.
    split; [lia|]. split; [lia|]. split; [lia|]. split; [exact Hpre|]. split; [exact E|].
    left. rewrite Pos2Z.inj_mul, Z2Pos.id by assumption.
    repeat split; lia.
  - pose proof (pow10_pos (- e) ltac:(lia)) as H10.
    rewrite SFdiv_ref, xorb_false_r. rewrite Z2Pos.id by assumption.
    set (e' := div_exp prec emax (Z.pos p) 0 (10 ^ (- e)) 0).
    assert (e' <= 0) by (unfold e', div_exp; lia).
    exists (Z.pos p * 2 ^ (0 - 0 - e')), (10 ^ (- e)), e', (- e').
    pose proof (div_exp_pre prec emax prec_pos (Z.pos p) 0 (10 ^ (- e)) 0 ltac:(lia) H10) as Hpre.
    split; [apply Z.mul_nonneg_nonneg; [lia|]; apply Z.pow_nonneg; lia|].
    split; [lia|]. split; [lia|]. split; [exact Hpre|]. split; [reflexivity|].
    right. repeat split; lia.
Qed.

(** The conversion of a decimal, against the decimal. *)
Lemma decimal_within_half_ulp (neg : bool) (p : positive) (e : Z)
  (s : bool) (m : positive) (e2 : Z) :
  float_of_decimal neg (Z.pos p) e = S754_finite s m e2 ->
  s = neg /\
  within_half_ulp (Z.pos m) e2 (Z.pos p * 10 ^ Z.max e 0) (10 ^ Z.max (- e) 0) 0.
Proof.
  intros H.
  destruct (float_of_decimal_round_spec neg p e) as (num & W & ex & k & Hnum & HW & Hk & Hpre & E & Hcase).
  destruct (round_ref_spec prec emax prec_pos num W ex neg Hnum HW Hpre)
    as (m' & e' & E' & _ & _ & He & Hr).
  rewrite E, E' in H. apply finish_finite in H as (Hm & -> & ->).
  split; [reflexivity|]. rewrite <- Hm, Hr.
  assert (ex <= e2) as Hle by lia.
  pose proof (rne_within_half_ulp num W ex e2 HW Hle) as Hb.
  destruct Hcase as [(He0 & -> & -> & ->)|(He0 & -> & -> & ->)].
  - rewrite Z.max_l, (Z.max_r (- e)) by lia. change (10 ^ 0) with 1.
    apply (within_half_ulp_scale _ _ _ _ _ k); [assumption|lia|exact Hb].
  - rewrite Z.max_r, (Z.max_l (- e)) by lia. rewrite Z.pow_0_r, Z.mul_1_r.
    apply (within_half_ulp_scale _ _ _ _ _ k); [assumption|lia|exact Hb].
Qed.

(** C21: a decimal is correctly rounded.  The conversion of [p * 10^e],
    when it returns a finite float, returns one of the sign asked for that
    is within half a unit in the last place of [p * 10^e]: of the integer
    [p * 10^e] for [0 <= e], of the quotient [p / 10^(-e)] for [e < 0]. *)
Theorem float_of_decimal_within_half_ulp (neg : bool) (p : positive) (e : Z)
  (s : bool) (m : positive) (e2 : Z) :
  float_of_decimal neg (Z.pos p) e = S754_finite s m e2 ->
  s = neg /\
  within_half_ulp (Z.pos m) e2 (Z.pos p * 10 ^ Z.max e 0) (10 ^ Z.max (- e) 0) 0.
Proof. apply decimal_within_half_ulp. Qed.
