(* ===== verification/Integers.v ===== *)
(** * Integers: exact arithmetic on small integers

    An integer below [2^53] is a double ([int_float]); the conversion of
    its decimal is that double, and the product of two such doubles is the
    double of the product as long as it stays below [2^53].  So is the
    square a faithful [pow] returns: the square of an integer argument is
    printed without any rounding, whatever the C library. *)

From Stdlib Require Import ZArith Bool Lia SpecFloat.
From S2P Require Import Prelude Outcome Rounding Digits RoundRef Binary64 Validity.
Open Scope Z_scope.

(** ** Integers *)

(** The double of value [n], for [0 <= n < 2^53]: the mantissa is [n]
    shifted to 53 digits. *)
Definition int_float (n : Z) : float :=
  finish prec emax false (n * 2 ^ (prec - Zdigits2 n)) (Zdigits2 n - prec).

Section Integers.
Variable n : Z.
Hypothesis Hn : 0 < n < 2 ^ prec.

Lemma int_digits : 0 < Zdigits2 n <= prec.
Proof.
  split; [apply Zdigits2_pos; lia|]. apply Zdigits2_le; [pose proof prec_pos|]; lia.
Qed.

Lemma int_mantissa_pos : 0 < n * 2 ^ (prec - Zdigits2 n).
Proof. pose proof int_digits. pose proof (pow2_pos (prec - Zdigits2 n) ltac:(lia)). nia. Qed.

Lemma int_cexp :
  cexp prec emax (n * 2 ^ (prec - Zdigits2 n)) (Zdigits2 n - prec) = Zdigits2 n - prec.
Proof.
  pose proof int_digits. unfold cexp. rewrite Zdigits2_shiftl by lia.
  unfold fexp, emin, prec, emax in *. lia.
Qed.

Lemma int_float_valid : valid (int_float n) = true.
Proof. apply finish_valid, int_cexp. Qed.

Lemma int_float_finite :
  int_float n = S754_finite false (Z.to_pos (n * 2 ^ (prec - Zdigits2 n))) (Zdigits2 n - prec).
Proof.
  unfold int_float. pose proof int_mantissa_pos as Hm. pose proof int_digits.
  destruct (n * 2 ^ (prec - Zdigits2 n)) as [|p|p]; try lia. cbn [finish].
  destruct (Z.leb_spec (Zdigits2 n - prec) (emax - prec)); [reflexivity|].
  unfold prec, emax in *. lia.
Qed.

End Integers.

(** The conversion of the decimal [n] is the double of value [n]. *)
Lemma float_of_decimal_int (n : Z) :
  0 <= n < 2 ^ prec -> float_of_decimal false n 0 = int_float n.
Proof.
  intros Hn. destruct (Z.eq_dec n 0) as [->|Hz]; [reflexivity|].
  assert (0 < n < 2 ^ prec) as Hn' by lia. clear Hn Hz. rename Hn' into Hn.
  pose proof (int_digits n Hn) as Hd.
  pose proof (int_mantissa_pos n Hn) as Hm. pose proof (int_cexp n Hn) as Hc.
  unfold float_of_decimal, int_float.
  destruct n as [|p|p]; try lia. cbn [Z.leb Z.compare].
  change (Z.to_pos (10 ^ 0)) with 1%positive. rewrite Pos.mul_1_r.
  destruct (binary_round_ref prec emax false p 0) as [-> _].
  assert (cexp prec emax (Z.pos p) 0 = Zdigits2 (Z.pos p) - prec) as ->.
  { unfold cexp, fexp, emin, prec, emax in *. lia. }
  rewrite Z.min_r by lia.
  apply round_ref_exact; try assumption; try lia.
  rewrite Z.sub_diag, Z.pow_0_r, !Z.mul_1_r. do 2 f_equal. lia.
Qed.


(** The product of the doubles of two integers is the double of their
    product, when that is below [2^53]. *)
Lemma int_float_mul (a b : Z) :
  0 < a -> 0 < b -> a * b < 2 ^ prec ->
  float_mul (int_float a) (int_float b) = int_float (a * b).
Proof.
  intros Ha Hb Hab.
  assert (0 < a < 2 ^ prec) as Ha' by nia. assert (0 < b < 2 ^ prec) as Hb' by nia.
  assert (0 < a * b < 2 ^ prec) as Hab' by nia.
  pose proof (int_digits a Ha') as Hda. pose proof (int_digits b Hb') as Hdb.
  pose proof (int_digits (a * b) Hab') as Hdab.
  pose proof (int_mantissa_pos a Ha') as Hma. pose proof (int_mantissa_pos b Hb') as Hmb.
  assert (Zdigits2 a <= Zdigits2 (a * b)) as Hmono by (apply Zdigits2_mono; nia).
  rewrite (int_float_finite a Ha'), (int_float_finite b Hb').
  unfold float_mul. rewrite SFmul_ref. cbn [xorb]. rewrite !Z2Pos.id by assumption.
  unfold int_float. apply round_ref_exact.
  - lia.
  - now apply int_mantissa_pos.
  - now apply int_cexp.
  - lia.
  - rewrite Z.mul_1_r.
    set (da := Zdigits2 a) in *. set (db := Zdigits2 b) in *. set (dab := Zdigits2 (a * b)) in *.
    replace (dab - prec - (da - prec + (db - prec))) with ((prec - da) + (prec - db) - (prec - dab)) by lia.
    assert (2 ^ (prec - dab) * 2 ^ (prec - da + (prec - db) - (prec - dab)) =
            2 ^ (prec - da) * 2 ^ (prec - db)) as E
      by (rewrite <- !Z.pow_add_r by lia; f_equal; lia).
    transitivity (a * b * (2 ^ (prec - dab) * 2 ^ (prec - da + (prec - db) - (prec - dab))));
      [rewrite E|]; ring.
Qed.

(** The square of the double of an integer, rounded down, up or to
    nearest, is the double of its square when that is below [2^53]. *)
Lemma square_round_int (r : Z -> Z -> Z) (n : Z) :
  is_pick r -> 0 < n -> n * n < 2 ^ prec ->
  square_round r (int_float n) = int_float (n * n).
Proof.
  intros Hr Hn Hnn.
  assert (0 < n < 2 ^ prec) as Hn' by nia. assert (0 < n * n < 2 ^ prec) as Hnn' by nia.
  pose proof (int_digits n Hn') as Hd. pose proof (int_digits (n * n) Hnn') as Hd2.
  pose proof (int_mantissa_pos n Hn') as Hm.
  assert (Zdigits2 n <= Zdigits2 (n * n)) as Hmono by (apply Zdigits2_mono; nia).
  rewrite (int_float_finite n Hn'). cbn [square_round]. rewrite !Z2Pos.id by assumption.
  unfold int_float.
  apply round_gen_exact;
    [assumption | lia | now apply int_mantissa_pos | now apply int_cexp | lia |].
  rewrite Z.mul_1_r.
    set (d := Zdigits2 n) in *. set (d2 := Zdigits2 (n * n)) in *.
    replace (d2 - prec - (d - prec + (d - prec))) with ((prec - d) + (prec - d) - (prec - d2)) by lia.
    assert (2 ^ (prec - d2) * 2 ^ (prec - d + (prec - d) - (prec - d2)) =
            2 ^ (prec - d) * 2 ^ (prec - d)) as E
      by (rewrite <- !Z.pow_add_r by lia; f_equal; lia).
    transitivity (n * n * (2 ^ (prec - d2) * 2 ^ (prec - d + (prec - d) - (prec - d2))));
      [rewrite E|]; ring.
Qed.

(** The square of the double of an integer is the double of its square,
    when that is below [2^53]: no rounding and no overflow, whatever the C
    library does on other squares. *)
Lemma float_pow2_int {M : Libm} {MF : LibmFaithful M} (n : Z) :
  0 <= n -> n * n < 2 ^ prec -> float_pow2 (int_float n) = Ok (int_float (n * n)).
Proof.
  intros Hn Hnn. destruct (Z.eq_dec n 0) as [->|Hz]; [reflexivity|].
  assert (0 < n < 2 ^ prec) as Hn' by nia.
  assert (square_overflows (int_float n) = false) as Hov.
  { rewrite (int_float_finite n Hn'). cbn [square_overflows].
    pose proof (int_digits n Hn'). apply Z.leb_gt. unfold prec in *. lia. }
  destruct (float_pow2_threshold (int_float n) (int_float_valid n Hn')) as [-> | ->];
    rewrite Hov, square_round_int by (lia || apply floor_is_pick || apply ceil_is_pick);
    reflexivity.
Qed.
