(* ===== verification/FloatParse.v ===== *)
(** * FloatParse: [float(x)] on a string

    The script converts its second argument with [float(x)] (source lines 24
    and 28).  CPython evaluates that call in five steps, each a function of
    this file, named after the C function it models:
    - [transform_decimal_and_space]: a string with a non-ASCII character has
      its Unicode spaces replaced by [' '] and is cut at the first character
      that is neither a space nor a decimal digit, which becomes ['?'];
    - [with_underscores]: a string with an underscore is accepted only if
      every underscore stands between two digits, and loses them;
    - [float_from_string_inner]: leading and trailing white space is
      stripped, the rest is parsed, and anything left after the number is
      an error;
    - [ascii_strtod]: the number is a decimal numeral ([dg_strtod]: sign,
      digits, point, digits, exponent), or else [inf], [infinity] or [nan] in
      any case ([parse_inf_or_nan]);
    - the value of a numeral is [Binary64.float_of_decimal]: the nearest
      double, an infinity when it is out of range.
    Every failure raises [ValueError].

    The strings accepted are described apart from the functions, by the
    grammar [accepts]: a well-formed [numeral] or one of the three words,
    between white space.  The file proves that the conversion accepts a
    string of the grammar with its value ([float_from_string_inner_complete])
    and nothing else ([float_from_string_inner_sound]), how underscores are
    treated, and that the value is a double within half a unit in the last
    place of the decimal written.

    Characters are those of code point below 256.  In that range the Unicode
    spaces above 127 are U+0085 and U+00A0, and no decimal digit lies above
    127. *)

From Stdlib Require Import ZArith String Ascii Bool Lia SpecFloat List.
From S2P Require Import Prelude Outcome Rounding Binary64 Validity Accuracy.
Import ListNotations.
Open Scope Z_scope.
Open Scope char_scope.

(** ** Characters *)

(** [Py_ISSPACE]: the white space of the C locale. *)
Definition py_isspace (c : ascii) : bool :=
  let n := code c in ((N.leb 9 n && N.leb n 13) || N.eqb n 32)%bool.

(** [Py_UNICODE_ISSPACE] on a code point above 126 (and below 256). *)
Definition unicode_isspace_high (c : ascii) : bool :=
  let n := code c in (N.eqb n 133 || N.eqb n 160)%bool.

(** [Py_TOLOWER]: the letters [A] to [Z] to lower case. *)
Definition py_tolower (c : ascii) : ascii :=
  let n := code c in
  if (N.leb 65 n && N.leb n 90)%bool then ascii_of_N (n + 32) else c.

(** ** Step 1: [_PyUnicode_TransformDecimalAndSpaceToASCII] *)

Definition is_ascii_string (s : list ascii) : bool :=
  forallb (fun c => N.ltb (code c) 128) s.

(** The loop over a string that is not ASCII: characters below 127 are
    kept, a space becomes [' '], and the first other character becomes ['?']
    and ends the string. *)
Fixpoint transform_chars (s : list ascii) : list ascii :=
  match s with
  | [] => []
  | c :: s' =>
    if N.ltb (code c) 127 then c :: transform_chars s'
    else if unicode_isspace_high c then " " :: transform_chars s'
    else ["?"]
  end.

Definition transform_decimal_and_space (s : list ascii) : list ascii :=
  if is_ascii_string s then s else transform_chars s.

(** ** Step 2: [_Py_string_to_number_with_underscores] *)

(** [strchr(s, '_') != NULL]: an underscore before the first NUL. *)
Fixpoint has_underscore (s : list ascii) : bool :=
  match s with
  | [] => false
  | c :: s' =>
    if Ascii.eqb c "000" then false
    else if Ascii.eqb c "_" then true
    else has_underscore s'
  end.

(** The copying loop: [prev] is the character before; an underscore must
    follow a digit and be followed by a digit, and is not copied. *)
Fixpoint copy_without_underscores (prev : ascii) (s : list ascii)
  : option (list ascii) :=
  match s with
  | [] => if Ascii.eqb prev "_" then None else Some []
  | c :: s' =>
    if Ascii.eqb c "_" then
      if is_digit prev then copy_without_underscores c s' else None
    else if (Ascii.eqb prev "_" && negb (is_digit c))%bool then None
    else option_map (cons c) (copy_without_underscores c s')
  end.

Definition with_underscores (inner : list ascii -> result float)
  (s : list ascii) : result float :=
  if has_underscore s then
    match copy_without_underscores "000" s with
    | Some dup =>
      if existsb (Ascii.eqb "000") dup then Raise ValueError else inner dup
    | None => Raise ValueError
    end
  else inner s.

(** ** Step 4: the numeral *)

(** The longest prefix of digits, and the rest. *)
Fixpoint span_digits (s : list ascii) : list ascii * list ascii :=
  match s with
  | c :: s' =>
    if is_digit c then let '(d, r) := span_digits s' in (c :: d, r)
    else ([], s)
  | [] => ([], [])
  end.

(** An optional sign. *)
Definition parse_sign (s : list ascii) : bool * list ascii :=
  match s with
  | "-" :: t => (true, t)
  | "+" :: t => (false, t)
  | _ => (false, s)
  end.

(** An optional exponent: [e] or [E], an optional sign, at least one digit.
    Without a digit nothing is consumed and the exponent is 0. *)
Definition parse_exponent (s : list ascii) : Z * list ascii :=
  match s with
  | c :: t =>
    if (Ascii.eqb c "e" || Ascii.eqb c "E")%bool then
      let '(esign, t1) := parse_sign t in
      let '(ds, t2) := span_digits t1 in
      match ds with
      | [] => (0, s)
      | _ => let v := digits_value 0 ds in ((if esign then - v else v), t2)
      end
    else (0, s)
  | [] => (0, s)
  end.

(** [_Py_dg_strtod]: the value of the longest numeral that starts the
    string, and what follows it; [None] when no numeral starts the string (a
    numeral has at least one digit before or after its point). *)
Definition dg_strtod (s : list ascii) : option (float * list ascii) :=
  let '(neg, s1) := parse_sign s in
  let '(ip, s2) := span_digits s1 in
  let '(fp, s3) :=
    match s2 with
    | "." :: t => span_digits t
    | _ => ([], s2)
    end in
  match ip ++ fp with
  | [] => None
  | ds =>
    let '(e, s4) := parse_exponent s3 in
    Some (float_of_decimal neg (digits_value 0 ds) (e - Z.of_nat (length fp)), s4)
  end.

(** [case_insensitive_match(s, t)]: [t], in lower case, starts [s] up to
    case; the rest of [s] when it does. *)
Fixpoint case_insensitive_match (s t : list ascii) : option (list ascii) :=
  match t, s with
  | [], _ => Some s
  | b :: t', a :: s' =>
    if Ascii.eqb (py_tolower a) b then case_insensitive_match s' t' else None
  | _ :: _, [] => None
  end.

(** [_Py_parse_inf_or_nan]: a sign, then [inf], [infinity] or [nan]. *)
Definition parse_inf_or_nan (s : list ascii) : option (float * list ascii) :=
  let '(neg, s1) := parse_sign s in
  match case_insensitive_match s1 ["i"; "n"; "f"] with
  | Some s2 =>
    match case_insensitive_match s2 ["i"; "n"; "i"; "t"; "y"] with
    | Some s3 => Some (S754_infinity neg, s3)
    | None => Some (S754_infinity neg, s2)
    end
  | None =>
    match case_insensitive_match s1 ["n"; "a"; "n"] with
    | Some s2 => Some (S754_nan, s2)
    | None => None
    end
  end.

(** [_PyOS_ascii_strtod]: a numeral, or else an infinity or a NaN. *)
Definition ascii_strtod (s : list ascii) : option (float * list ascii) :=
  match dg_strtod s with
  | Some r => Some r
  | None => parse_inf_or_nan s
  end.

(** ** Step 3: [float_from_string_inner] *)

Fixpoint lstrip (s : list ascii) : list ascii :=
  match s with
  | c :: s' => if py_isspace c then lstrip s' else s
  | [] => []
  end.

(** The trailing loop [while (s < last - 1 && Py_ISSPACE(last[-1]))]: it
    never looks at the first character. *)
Definition rstrip_after_first (s : list ascii) : list ascii :=
  match s with
  | [] => []
  | c :: s' => c :: rev (lstrip (rev s'))
  end.

Definition float_from_string_inner (s : list ascii) : result float :=
  match lstrip s with
  | [] => Raise ValueError
  | s1 =>
    match ascii_strtod (rstrip_after_first s1) with
    | Some (x, []) => Ok x
    | _ => Raise ValueError
    end
  end.

(** ** [float(x)] *)

(** [PyFloat_FromString] on a [str]. *)
Definition float_of_string (x : string) : result float :=
  with_underscores float_from_string_inner
    (transform_decimal_and_space (list_ascii_of_string x)).

(** ** The strings [float] accepts *)

(** The sign character of a numeral. *)
Inductive sign_char : Type := NoSign | Plus | Minus.

Definition sign_chars (s : sign_char) : list ascii :=
  match s with NoSign => [] | Plus => ["+"] | Minus => ["-"] end.

Definition sign_neg (s : sign_char) : bool :=
  match s with Minus => true | _ => false end.

(** A decimal numeral: sign, digits before the point, the point and the
    digits after it when there is a point, and the exponent (its letter in
    upper case or not, its sign, its digits) when there is one. *)
Record numeral : Type := {
  num_sign : sign_char;
  num_int : list ascii;
  num_frac : option (list ascii);
  num_exp : option (bool * sign_char * list ascii)
}.

Definition frac_digits (n : numeral) : list ascii :=
  match num_frac n with Some f => f | None => [] end.

Definition frac_chars (n : numeral) : list ascii :=
  match num_frac n with Some f => "." :: f | None => [] end.

Definition exp_chars (n : numeral) : list ascii :=
  match num_exp n with
  | Some (upper, s, ds) => (if upper then "E" else "e") :: sign_chars s ++ ds
  | None => []
  end.

Definition exp_value (n : numeral) : Z :=
  match num_exp n with
  | Some (_, s, ds) => if sign_neg s then - digits_value 0 ds else digits_value 0 ds
  | None => 0
  end.

(** The characters of a numeral. *)
Definition numeral_chars (n : numeral) : list ascii :=
  sign_chars (num_sign n) ++ num_int n ++ frac_chars n ++ exp_chars n.

(** A numeral is well formed when its digits are digits, it has one at
    least before or after the point, and its exponent has one at least. *)
Definition numeral_wf (n : numeral) : bool :=
  forallb is_digit (num_int n) && forallb is_digit (frac_digits n) &&
  negb (Nat.eqb (length (num_int n ++ frac_digits n)) 0) &&
  match num_exp n with
  | Some (_, _, ds) => forallb is_digit ds && negb (Nat.eqb (length ds) 0)
  | None => true
  end.

(** The float a numeral denotes. *)
Definition numeral_value (n : numeral) : float :=
  float_of_decimal (sign_neg (num_sign n))
    (digits_value 0 (num_int n ++ frac_digits n))
    (exp_value n - Z.of_nat (length (frac_digits n))).

(** No character of the string is white space. *)
Definition no_space (s : list ascii) : bool := forallb (fun c => negb (py_isspace c)) s.

(** The characters the first two steps leave as they are: ASCII, and
    neither NUL nor an underscore. *)
Definition plain_char (c : ascii) : bool :=
  N.ltb (code c) 128 && negb (Ascii.eqb c "000") && negb (Ascii.eqb c "_").

Inductive special : Type := Inf | Infinity | Nan.

(** The word, in lower case. *)
Definition special_word (w : special) : list ascii :=
  match w with
  | Inf => ["i"; "n"; "f"]
  | Infinity => ["i"; "n"; "f"; "i"; "n"; "i"; "t"; "y"]
  | Nan => ["n"; "a"; "n"]
  end.

Definition special_value (s : sign_char) (w : special) : float :=
  match w with
  | Nan => S754_nan
  | _ => S754_infinity (sign_neg s)
  end.

(** A character that is a letter of one of the words up to case is plain,
    and is neither a space, a digit, a sign nor a point. *)
Definition word_letter (c : ascii) : bool :=
  existsb (Ascii.eqb (py_tolower c)) ["i"; "n"; "f"; "t"; "y"; "a"].

(** The strings the conversion accepts once the first two steps are done,
    each with its value: a well-formed numeral or one of the three words
    with a sign or none, between white space. *)
Inductive accepts : list ascii -> float -> Prop :=
| accepts_numeral (ws1 ws2 : list ascii) (n : numeral) :
    forallb py_isspace ws1 = true -> forallb py_isspace ws2 = true ->
    numeral_wf n = true ->
    accepts (ws1 ++ numeral_chars n ++ ws2) (numeral_value n)
| accepts_special (ws1 ws2 l : list ascii) (s : sign_char) (w : special) :
    forallb py_isspace ws1 = true -> forallb py_isspace ws2 = true ->
    map py_tolower l = special_word w ->
    accepts (ws1 ++ (sign_chars s ++ l) ++ ws2) (special_value s w).

(** ** Errors *)

(** Whatever the string, a conversion that fails raises [ValueError]. *)
Lemma float_from_string_inner_raises (s : list ascii) (e : exn) :
  float_from_string_inner s = Raise e -> e = ValueError.
Proof.
  unfold float_from_string_inner. repeat destr_match; intros H; now inv H.
Qed.

Lemma with_underscores_raises inner (s : list ascii) (e : exn) :
  (forall s' e', inner s' = Raise e' -> e' = ValueError) ->
  with_underscores inner s = Raise e -> e = ValueError.
Proof.
  intros Hinner. unfold with_underscores.
  repeat destr_match; intros H; try (now inv H); eauto.
Qed.

Lemma float_of_string_raises (x : string) (e : exn) :
  float_of_string x = Raise e -> e = ValueError.
Proof.
  apply with_underscores_raises. exact float_from_string_inner_raises.
Qed.

(** ** Numerals *)

Lemma span_digits_app (ds rest : list ascii) :
  forallb is_digit ds = true ->
  match rest with [] => True | c :: _ => is_digit c = false end ->
  span_digits (ds ++ rest) = (ds, rest).
Proof.
  intros Hds Hrest. induction ds as [|d ds IH]; cbn [app span_digits].
  - destruct rest as [|c r]; [reflexivity|]. cbn [span_digits]. now rewrite Hrest.
  - cbn [forallb] in Hds. apply andb_true_iff in Hds as [Hd Hds].
    rewrite Hd, (IH Hds). reflexivity.
Qed.

Lemma span_digits_all (ds : list ascii) :
  forallb is_digit ds = true -> span_digits ds = (ds, []).
Proof. intros H. rewrite <- (List.app_nil_r ds) at 1. now apply span_digits_app. Qed.

Lemma parse_sign_chars (s : sign_char) (rest : list ascii) :
  match rest with [] => True | c :: _ => Ascii.eqb c "+" = false /\ Ascii.eqb c "-" = false end ->
  parse_sign (sign_chars s ++ rest) = (sign_neg s, rest).
Proof.
  destruct s; cbn; try reflexivity.
  destruct rest as [|c r]; [reflexivity|]. intros [Hp Hm].
  destruct c as [[] [] [] [] [] [] [] []]; try reflexivity; discriminate.
Qed.

Lemma digit_not_sign (c : ascii) :
  is_digit c = true -> Ascii.eqb c "+" = false /\ Ascii.eqb c "-" = false.
Proof. destruct c as [[] [] [] [] [] [] [] []]; cbn; intros; try discriminate; auto. Qed.

(** The exponent of a numeral, at the end of the string. *)
Lemma parse_exponent_chars (n : numeral) :
  numeral_wf n = true -> parse_exponent (exp_chars n) = (exp_value n, []).
Proof.
  unfold numeral_wf, exp_chars, exp_value. intros H.
  apply andb_true_iff in H as [_ H].
  destruct (num_exp n) as [[[upper s] ds]|]; [|reflexivity].
  apply andb_true_iff in H as [Hds Hne].
  assert (parse_sign (sign_chars s ++ ds) = (sign_neg s, ds)) as Hs.
  { apply parse_sign_chars. destruct ds as [|d ds']; [exact I|].
    cbn [forallb] in Hds. apply andb_true_iff in Hds as [Hd _]. now apply digit_not_sign. }
  unfold parse_exponent.
  destruct upper; cbn [Ascii.eqb Bool.eqb orb andb]; rewrite Hs, (span_digits_all _ Hds);
    destruct ds; try discriminate; reflexivity.
Qed.

Lemma exp_chars_head (n : numeral) :
  match exp_chars n with [] => True | c :: _ => is_digit c = false end.
Proof.
  unfold exp_chars. destruct (num_exp n) as [[[[] s] ds]|]; cbn; auto.
Qed.

(** The numeral parser reads a well-formed numeral to its end, with its
    value. *)
Lemma dg_strtod_numeral (n : numeral) :
  numeral_wf n = true -> dg_strtod (numeral_chars n) = Some (numeral_value n, []).
Proof.
  intros Hwf. pose proof Hwf as H. unfold numeral_wf in H.
  apply andb_true_iff in H as [H _]. apply andb_true_iff in H as [H Hne].
  apply andb_true_iff in H as [Hint Hfrac].
  unfold dg_strtod, numeral_chars, numeral_value.
  rewrite parse_sign_chars.
  2:{ destruct (num_int n) as [|d ds] eqn:Ei; cbn [app].
      - unfold frac_chars. destruct (num_frac n) as [f|] eqn:Ef; cbn [app]; [auto|].
        unfold frac_digits in Hne. rewrite Ef in Hne. discriminate.
      - cbn [forallb] in Hint. apply andb_true_iff in Hint as [Hd _]. now apply digit_not_sign. }
  rewrite span_digits_app; [|assumption|].
  2:{ unfold frac_chars. destruct (num_frac n); cbn [app]; [reflexivity|]. apply exp_chars_head. }
  unfold frac_chars, frac_digits in *. destruct (num_frac n) as [f|]; cbn [app].
  - rewrite span_digits_app; [|assumption|apply exp_chars_head].
    destruct (num_int n ++ f) eqn:E; [discriminate|]. rewrite <- E.
    now rewrite (parse_exponent_chars n Hwf).
  - pose proof (exp_chars_head n) as Hh.
    assert (match exp_chars n with "." :: t => span_digits t | _ => ([], exp_chars n) end
            = ([], exp_chars n)) as ->.
    { destruct (exp_chars n) as [|c r] eqn:E; [reflexivity|].
      unfold exp_chars in E. destruct (num_exp n) as [[[[] s] ds]|]; inv E; reflexivity. }
    rewrite List.app_nil_r in *.
    destruct (num_int n) eqn:E; [discriminate|]. rewrite <- E.
    now rewrite (parse_exponent_chars n Hwf).
Qed.

(** ** White space and plain strings *)

Lemma lstrip_spaces_app (ws s : list ascii) :
  forallb py_isspace ws = true -> lstrip (ws ++ s) = lstrip s.
Proof.
  induction ws as [|w ws IH]; cbn [app forallb lstrip]; [reflexivity|].
  intros H. apply andb_true_iff in H as [Hw Hws]. now rewrite Hw, IH.
Qed.

Lemma lstrip_no_space (s r : list ascii) :
  no_space s = true -> s <> [] -> lstrip (s ++ r) = s ++ r.
Proof.
  destruct s as [|c s]; [congruence|]. cbn. intros H _.
  apply andb_true_iff in H as [Hc _]. apply negb_true_iff in Hc. now rewrite Hc.
Qed.

Lemma rstrip_after_first_no_space (s ws : list ascii) :
  no_space s = true -> forallb py_isspace ws = true ->
  rstrip_after_first (s ++ ws) = match s with [] => rstrip_after_first ws | _ => s end.
Proof.
  intros Hs Hws. destruct s as [|c s]; [reflexivity|]. cbn [app rstrip_after_first].
  f_equal. rewrite rev_app_distr, lstrip_spaces_app by now rewrite forallb_rev.
  cbn in Hs. apply andb_true_iff in Hs as [_ Hs].
  destruct s as [|d s'] using rev_ind; [reflexivity|].
  rewrite rev_app_distr. cbn [rev app].
  unfold no_space in Hs. rewrite forallb_app in Hs. cbn in Hs.
  apply andb_true_iff in Hs as [_ Hd]. rewrite andb_true_r in Hd.
  apply negb_true_iff in Hd. cbn [lstrip]. rewrite Hd.
  change (d :: rev s') with ([d] ++ rev s'). rewrite rev_app_distr, rev_involutive. reflexivity.
Qed.

(** Stripping: white space around a string with none is removed. *)
Lemma strip_spaces (ws1 s ws2 : list ascii) :
  forallb py_isspace ws1 = true -> forallb py_isspace ws2 = true ->
  no_space s = true -> s <> [] ->
  lstrip (ws1 ++ s ++ ws2) = s ++ ws2 /\ rstrip_after_first (s ++ ws2) = s.
Proof.
  intros H1 H2 Hs Hne. split.
  - rewrite lstrip_spaces_app by assumption. now apply lstrip_no_space.
  - rewrite rstrip_after_first_no_space by assumption. destruct s; congruence.
Qed.

Lemma float_from_string_inner_strip (ws1 s ws2 : list ascii) :
  forallb py_isspace ws1 = true -> forallb py_isspace ws2 = true ->
  no_space s = true -> s <> [] ->
  float_from_string_inner (ws1 ++ s ++ ws2) =
  match ascii_strtod s with
  | Some (x, []) => Ok x
  | _ => Raise ValueError
  end.
Proof.
  intros H1 H2 Hs Hne. destruct (strip_spaces ws1 s ws2 H1 H2 Hs Hne) as [Hl Hr].
  unfold float_from_string_inner. rewrite Hl.
  destruct s as [|c s]; [congruence|]. cbn [app] in *. now rewrite Hr.
Qed.

(** Plain strings go through the first two steps unchanged. *)
Lemma plain_is_ascii (s : list ascii) :
  forallb plain_char s = true -> is_ascii_string s = true.
Proof.
  unfold is_ascii_string. induction s as [|c s IH]; cbn [forallb]; [reflexivity|].
  intros H. apply andb_true_iff in H as [Hc Hs]. rewrite (IH Hs), andb_true_r.
  unfold plain_char in Hc. now repeat (apply andb_true_iff in Hc as [Hc _]).
Qed.

Lemma plain_no_underscore (s : list ascii) :
  forallb plain_char s = true -> has_underscore s = false.
Proof.
  induction s as [|c s IH]; cbn [forallb has_underscore]; [reflexivity|].
  intros H. apply andb_true_iff in H as [Hc Hs]. unfold plain_char in Hc.
  apply andb_true_iff in Hc as [Hc Hu]. apply andb_true_iff in Hc as [_ Hn].
  apply negb_true_iff in Hu, Hn. rewrite Hu, Hn. auto.
Qed.

Lemma float_of_string_plain (s : list ascii) :
  forallb plain_char s = true ->
  float_of_string (string_of_list_ascii s) = float_from_string_inner s.
Proof.
  intros H. unfold float_of_string, transform_decimal_and_space, with_underscores.
  rewrite list_ascii_of_string_of_list_ascii, (plain_is_ascii _ H), (plain_no_underscore _ H).
  reflexivity.
Qed.

(** ** Characters of numerals *)

Lemma digit_plain (c : ascii) :
  is_digit c = true -> plain_char c = true /\ py_isspace c = false.
Proof. destruct c as [[] [] [] [] [] [] [] []]; cbn; intros; try discriminate; auto. Qed.

Lemma space_plain (c : ascii) : py_isspace c = true -> plain_char c = true.
Proof. destruct c as [[] [] [] [] [] [] [] []]; cbn; intros; try discriminate; auto. Qed.

Lemma digits_plain (ds : list ascii) :
  forallb is_digit ds = true -> forallb plain_char ds = true /\ no_space ds = true.
Proof.
  unfold no_space. induction ds as [|d ds IH]; cbn [forallb]; [auto|].
  intros H. apply andb_true_iff in H as [Hd Hds].
  destruct (digit_plain d Hd) as [-> ->]. destruct (IH Hds) as [-> ->]. auto.
Qed.

Lemma spaces_plain (ws : list ascii) :
  forallb py_isspace ws = true -> forallb plain_char ws = true.
Proof.
  induction ws as [|w ws IH]; cbn [forallb]; [auto|].
  intros H. apply andb_true_iff in H as [Hw Hws]. now rewrite (space_plain w Hw), IH.
Qed.

Lemma no_space_app (a b : list ascii) :
  no_space (a ++ b) = no_space a && no_space b.
Proof. apply forallb_app. Qed.

(** The characters of a well-formed numeral are plain, none is a space, and
    there is one at least. *)
Lemma numeral_chars_plain (n : numeral) :
  numeral_wf n = true ->
  forallb plain_char (numeral_chars n) = true /\
  no_space (numeral_chars n) = true /\ numeral_chars n <> [].
Proof.
  intros Hwf. pose proof Hwf as H. unfold numeral_wf in H.
  apply andb_true_iff in H as [H He]. apply andb_true_iff in H as [H Hne].
  apply andb_true_iff in H as [Hint Hfrac].
  destruct (digits_plain _ Hint) as [Hi1 Hi2].
  destruct (digits_plain _ Hfrac) as [Hf1 Hf2].
  assert (forallb plain_char (exp_chars n) = true /\ no_space (exp_chars n) = true) as [He1 He2].
  { unfold exp_chars. destruct (num_exp n) as [[[upper s] ds]|]; [|auto].
    apply andb_true_iff in He as [Hds _]. destruct (digits_plain _ Hds) as [Hd1 Hd2].
    unfold no_space in *. destruct upper, s; cbn [sign_chars app forallb];
      rewrite ?Hd1, ?Hd2; auto. }
  assert (forallb plain_char (frac_chars n) = true /\ no_space (frac_chars n) = true) as [Hc1 Hc2].
  { unfold frac_chars, frac_digits, no_space in *. destruct (num_frac n); cbn [forallb];
      rewrite ?Hf1, ?Hf2; auto. }
  unfold numeral_chars. rewrite !forallb_app, !no_space_app, Hi1, Hi2, He1, He2, Hc1, Hc2.
  repeat split; try (destruct (num_sign n); reflexivity).
  intros E. apply (f_equal (@length ascii)) in E. rewrite !length_app in E.
  rewrite length_app in Hne. unfold frac_chars, frac_digits in *.
  destruct (num_frac n); cbn [length] in *;
    destruct (length (num_int n)); try discriminate; cbn in *; try lia; discriminate.
Qed.

(** The conversion of a numeral between white space. *)
Lemma numeral_conversion (ws1 ws2 : list ascii) (n : numeral) :
  forallb py_isspace ws1 = true -> forallb py_isspace ws2 = true ->
  numeral_wf n = true ->
  float_of_string (string_of_list_ascii (ws1 ++ numeral_chars n ++ ws2)) =
  Ok (numeral_value n).
Proof.
  intros H1 H2 Hwf. destruct (numeral_chars_plain n Hwf) as (Hp & Hs & Hne).
  rewrite float_of_string_plain
    by (now rewrite !forallb_app, Hp, (spaces_plain _ H1), (spaces_plain _ H2)).
  rewrite float_from_string_inner_strip by assumption.
  unfold ascii_strtod. now rewrite dg_strtod_numeral.
Qed.

(** C24: [float] on a numeral.  A well-formed numeral, with white space before and after,
    is converted to the double nearest to the decimal it denotes. *)
Theorem float_of_string_numeral (ws1 ws2 : list ascii) (n : numeral) :
  forallb py_isspace ws1 = true -> forallb py_isspace ws2 = true ->
  numeral_wf n = true ->
  float_of_string (string_of_list_ascii (ws1 ++ numeral_chars n ++ ws2)) =
  Ok (numeral_value n).
Proof. apply numeral_conversion. Qed.

(** ** Infinities and NaN *)

Lemma case_insensitive_match_app (l t r : list ascii) :
  map py_tolower l = t -> case_insensitive_match (l ++ r) t = Some r.
Proof.
  revert t. induction l as [|c l IH]; intros t <-; cbn [map app case_insensitive_match].
  - now destruct r.
  - rewrite Ascii.eqb_refl. now apply IH.
Qed.

Lemma case_insensitive_match_head (c b : ascii) (l t : list ascii) :
  py_tolower c <> b -> case_insensitive_match (c :: l) (b :: t) = None.
Proof. intros H. cbn. apply Ascii.eqb_neq in H. now rewrite H. Qed.

Lemma word_letter_plain (c : ascii) :
  word_letter c = true ->
  plain_char c = true /\ py_isspace c = false /\ is_digit c = false /\
  Ascii.eqb c "." = false /\ Ascii.eqb c "+" = false /\ Ascii.eqb c "-" = false.
Proof.
  destruct c as [[] [] [] [] [] [] [] []]; cbn; intros; try discriminate; auto 10.
Qed.

Lemma special_letters (w : special) (l : list ascii) :
  map py_tolower l = special_word w -> forallb word_letter l = true.
Proof.
  intros H. apply forallb_forall. intros c Hc.
  apply (in_map py_tolower) in Hc. rewrite H in Hc. unfold word_letter.
  apply existsb_exists. exists (py_tolower c). split; [|apply Ascii.eqb_refl].
  destruct w; cbn in Hc; cbn; intuition auto.
Qed.

Lemma letters_plain (l : list ascii) :
  forallb word_letter l = true -> forallb plain_char l = true /\ no_space l = true.
Proof.
  unfold no_space. induction l as [|c l IH]; cbn [forallb]; [auto|].
  intros H. apply andb_true_iff in H as [Hc Hl].
  destruct (word_letter_plain c Hc) as (-> & -> & _). destruct (IH Hl) as [-> ->]. auto.
Qed.

(** No numeral starts with a letter. *)
Lemma dg_strtod_letter (s : sign_char) (c : ascii) (l : list ascii) :
  word_letter c = true -> dg_strtod (sign_chars s ++ c :: l) = None.
Proof.
  intros Hc. destruct (word_letter_plain c Hc) as (_ & _ & Hd & Hp & Hplus & Hminus).
  unfold dg_strtod. rewrite parse_sign_chars by auto.
  cbn [span_digits]. rewrite Hd.
  destruct c as [[] [] [] [] [] [] [] []]; try reflexivity; discriminate.
Qed.

Lemma parse_inf_or_nan_special (s : sign_char) (w : special) (l : list ascii) :
  map py_tolower l = special_word w ->
  parse_inf_or_nan (sign_chars s ++ l) = Some (special_value s w, []).
Proof.
  intros H. pose proof (special_letters w l H) as Hl.
  assert (parse_sign (sign_chars s ++ l) = (sign_neg s, l)) as Hs.
  { apply parse_sign_chars. destruct l as [|c l']; [exact I|].
    cbn in Hl. apply andb_true_iff in Hl as [Hc _].
    now destruct (word_letter_plain c Hc) as (_ & _ & _ & _ & ? & ?). }
  unfold parse_inf_or_nan. rewrite Hs. destruct w; cbn [special_word] in H.
  - rewrite <- (List.app_nil_r l), (case_insensitive_match_app l _ [] H). reflexivity.
  - destruct l as [|c1 [|c2 [|c3 l2]]]; try discriminate.
    cbn [map] in H. injection H as H1 H2 H3 H4.
    change (c1 :: c2 :: c3 :: l2) with ([c1; c2; c3] ++ l2).
    rewrite (case_insensitive_match_app [c1; c2; c3] _ l2) by (cbn; congruence).
    rewrite <- (List.app_nil_r l2), (case_insensitive_match_app l2 _ [] H4). reflexivity.
  - destruct l as [|c l']; [discriminate|]. cbn [map] in H. injection H as H1 H2.
    rewrite case_insensitive_match_head by (rewrite H1; discriminate).
    rewrite <- (List.app_nil_r (c :: l')).
    rewrite (case_insensitive_match_app (c :: l') _ []) by (cbn; congruence). reflexivity.
Qed.

(** C34: [float] on [inf], [infinity] and [nan].  In any mix of cases, with a sign or none
    and white space around, the three words convert to an infinity of the sign and to a NaN,
    and raise nothing. *)
Theorem float_of_string_special (ws1 ws2 l : list ascii) (s : sign_char) (w : special) :
  forallb py_isspace ws1 = true -> forallb py_isspace ws2 = true ->
  map py_tolower l = special_word w ->
  float_of_string (string_of_list_ascii (ws1 ++ (sign_chars s ++ l) ++ ws2)) =
  Ok (special_value s w).
Proof.
  intros H1 H2 Hw. pose proof (special_letters w l Hw) as Hl.
  destruct (letters_plain l Hl) as [Hp Hn].
  assert (l <> []) as Hne by (destruct l, w; discriminate).
  rewrite float_of_string_plain.
  2:{ rewrite !forallb_app, Hp, (spaces_plain _ H1), (spaces_plain _ H2). now destruct s. }
  rewrite float_from_string_inner_strip; try assumption.
  - unfold ascii_strtod. destruct l as [|c l']; [congruence|].
    cbn in Hl. apply andb_true_iff in Hl as [Hc _].
    rewrite dg_strtod_letter by assumption.
    now rewrite (parse_inf_or_nan_special s w (c :: l') Hw).
  - rewrite no_space_app, Hn. now destruct s.
  - destruct s, l; cbn; congruence.
Qed.

(** ** Underscores *)

Lemma plain_not_underscore (c : ascii) :
  plain_char c = true -> Ascii.eqb c "_" = false /\ Ascii.eqb c "000" = false.
Proof.
  unfold plain_char. intros H. apply andb_true_iff in H as [H Hu].
  apply andb_true_iff in H as [_ Hn]. now apply negb_true_iff in Hu, Hn.
Qed.

(** A plain string is copied as it is, unless it follows an underscore and
    does not start with a digit. *)
Lemma copy_plain (prev : ascii) (l : list ascii) :
  forallb plain_char l = true ->
  Ascii.eqb prev "_" = false ->
  copy_without_underscores prev l = Some l.
Proof.
  revert prev. induction l as [|c l IH]; intros prev Hl Hprev; cbn [copy_without_underscores].
  - now rewrite Hprev.
  - cbn [forallb] in Hl. apply andb_true_iff in Hl as [Hc Hl].
    destruct (plain_not_underscore c Hc) as [Hu _].
    rewrite Hu, Hprev. cbn [andb]. now rewrite (IH c Hl Hu).
Qed.

(** An underscore between a digit and a digit is dropped. *)
Lemma copy_underscore (prev d1 d2 : ascii) (a b : list ascii) :
  forallb plain_char a = true -> forallb plain_char b = true ->
  Ascii.eqb prev "_" = false ->
  is_digit d1 = true -> is_digit d2 = true ->
  copy_without_underscores prev (a ++ d1 :: "_" :: d2 :: b) = Some (a ++ d1 :: d2 :: b).
Proof.
  intros Ha Hb Hprev H1 H2. revert prev Hprev.
  induction a as [|c a IH]; intros prev Hprev; cbn [app copy_without_underscores].
  - destruct (digit_plain d1 H1) as [Hp1 _]. destruct (digit_plain d2 H2) as [Hp2 _].
    destruct (plain_not_underscore d1 Hp1) as [Hu1 _].
    destruct (plain_not_underscore d2 Hp2) as [Hu2 _].
    rewrite Hu1, Hprev. cbn [andb]. rewrite Ascii.eqb_refl, H1, Hu2, H2. cbn [andb negb].
    now rewrite (copy_plain d2 b Hb Hu2).
  - cbn [forallb] in Ha. apply andb_true_iff in Ha as [Hc Ha].
    destruct (plain_not_underscore c Hc) as [Hu _].
    rewrite Hu, Hprev. cbn [andb]. now rewrite (IH Ha c Hu).
Qed.

Lemma has_underscore_app (a b : list ascii) :
  forallb plain_char a = true -> has_underscore (a ++ "_" :: b) = true.
Proof.
  induction a as [|c a IH]; cbn [app forallb has_underscore]; [reflexivity|].
  intros H. apply andb_true_iff in H as [Hc Ha].
  destruct (plain_not_underscore c Hc) as [-> ->]. auto.
Qed.

Lemma plain_no_nul (l : list ascii) :
  forallb plain_char l = true -> existsb (Ascii.eqb "000") l = false.
Proof.
  induction l as [|c l IH]; cbn [forallb existsb]; [reflexivity|].
  intros H. apply andb_true_iff in H as [Hc Hl].
  destruct (plain_not_underscore c Hc) as [_ Hn].
  rewrite Ascii.eqb_sym, Hn. auto.
Qed.

(** C35: an underscore between two digits is ignored.  [float] gives a
    string with one underscore between two digits the value of the string
    without it, for instance [1_000.5] that of [1000.5], when the rest of
    the string is made of ASCII characters other than NUL and the
    underscore ([plain_char]). *)
Theorem float_of_string_underscore (a b : list ascii) (d1 d2 : ascii) :
  forallb plain_char a = true -> forallb plain_char b = true ->
  is_digit d1 = true -> is_digit d2 = true ->
  float_of_string (string_of_list_ascii (a ++ d1 :: "_" :: d2 :: b)) =
  float_of_string (string_of_list_ascii (a ++ d1 :: d2 :: b)).
Proof.
  intros Ha Hb H1 H2.
  destruct (digit_plain d1 H1) as [Hp1 _]. destruct (digit_plain d2 H2) as [Hp2 _].
  assert (forallb plain_char (a ++ d1 :: d2 :: b) = true) as Hab
    by (rewrite forallb_app; cbn [forallb]; now rewrite Ha, Hb, Hp1, Hp2).
  rewrite (float_of_string_plain _ Hab).
  unfold float_of_string, transform_decimal_and_space, with_underscores.
  rewrite list_ascii_of_string_of_list_ascii.
  assert (is_ascii_string (a ++ d1 :: "_" :: d2 :: b) = true) as ->.
  { unfold is_ascii_string. rewrite forallb_app. cbn [forallb].
    pose proof (plain_is_ascii _ Hab) as H. unfold is_ascii_string in H.
    rewrite forallb_app in H. cbn [forallb] in H.
    apply andb_true_iff in H as [-> H]. apply andb_true_iff in H as [-> H].
    now rewrite H. }
  change (a ++ d1 :: "_" :: d2 :: b) with (a ++ d1 :: "_" :: (d2 :: b)) at 1.
  replace (a ++ d1 :: "_" :: d2 :: b) with ((a ++ [d1]) ++ "_" :: d2 :: b) at 1
    by now rewrite <- app_assoc.
  rewrite has_underscore_app by (rewrite forallb_app; cbn; now rewrite Ha, Hp1).
  rewrite copy_underscore by auto.
  now rewrite (plain_no_nul _ Hab).
Qed.

(** The copy fails at an underscore that does not stand between two
    digits. *)
Lemma copy_bad_underscore (prev c1 c2 : ascii) (a b : list ascii) :
  forallb plain_char a = true -> plain_char c1 = true ->
  Ascii.eqb prev "_" = false ->
  is_digit c1 && is_digit c2 = false ->
  copy_without_underscores prev (a ++ c1 :: "_" :: c2 :: b) = None /\
  copy_without_underscores prev (a ++ [c1; "_"]) = None.
Proof.
  intros Ha Hc1 Hprev Hd. revert prev Hprev.
  induction a as [|c a IH]; intros prev Hprev; cbn [app copy_without_underscores].
  - destruct (plain_not_underscore c1 Hc1) as [Hu1 _].
    rewrite Hu1, Hprev. cbn [andb]. rewrite !Ascii.eqb_refl.
    destruct (is_digit c1); [|auto]. cbn [andb] in Hd.
    destruct (Ascii.eqb c2 "_") eqn:E2; [now cbn|]. rewrite Hd. now cbn.
  - cbn [forallb] in Ha. apply andb_true_iff in Ha as [Hc Ha].
    destruct (plain_not_underscore c Hc) as [Hu _].
    rewrite Hu, Hprev. cbn [andb]. destruct (IH Ha c Hu) as [-> ->]. auto.
Qed.

(** C36: where an underscore is refused.  An underscore that starts the
    string, ends it, or has on one side a character that is not a digit
    (a second underscore, the point, a sign) makes the conversion raise
    [ValueError], whatever follows it in the string and whatever the inner
    conversion, when the characters before it are ASCII characters other
    than NUL and the underscore ([plain_char]). *)
Theorem with_underscores_refused inner (a b : list ascii) (c1 c2 : ascii) :
  forallb plain_char a = true -> plain_char c1 = true ->
  is_digit c1 && is_digit c2 = false ->
  with_underscores inner ("_" :: b) = Raise ValueError /\
  with_underscores inner (a ++ [c1; "_"]) = Raise ValueError /\
  with_underscores inner (a ++ c1 :: "_" :: c2 :: b) = Raise ValueError.
Proof.
  intros Ha Hc1 Hd. unfold with_underscores.
  destruct (copy_bad_underscore "000" c1 c2 a b Ha Hc1 eq_refl Hd) as [H1 H2].
  assert (forallb plain_char (a ++ [c1]) = true) as Hac
    by (rewrite forallb_app; cbn; now rewrite Ha, Hc1).
  split; [|split].
  - reflexivity.
  - replace (a ++ [c1; "_"]) with ((a ++ [c1]) ++ "_" :: []) at 1 by now rewrite <- app_assoc.
    rewrite has_underscore_app by assumption. now rewrite H2.
  - replace (a ++ c1 :: "_" :: c2 :: b) with ((a ++ [c1]) ++ "_" :: c2 :: b) at 1
      by now rewrite <- app_assoc.
    rewrite has_underscore_app by assumption. now rewrite H1.
Qed.

(** ** What the parsers consumed *)

Lemma lstrip_inv (s : list ascii) :
  exists ws, forallb py_isspace ws = true /\ s = ws ++ lstrip s.
Proof.
  induction s as [|c s (ws & Hws & IH)]; [now exists []|]. cbn [lstrip].
  destruct (py_isspace c) eqn:Hc; [|now exists []].
  exists (c :: ws). cbn [forallb app]. rewrite Hc, Hws, <- IH. auto.
Qed.

Lemma rstrip_after_first_inv (s : list ascii) :
  exists ws, forallb py_isspace ws = true /\ s = rstrip_after_first s ++ ws.
Proof.
  destruct s as [|c s]; [now exists []|]. cbn [rstrip_after_first].
  destruct (lstrip_inv (rev s)) as (ws & Hws & E).
  exists (rev ws). rewrite forallb_rev. split; [assumption|].
  cbn [app]. f_equal. rewrite <- rev_app_distr, <- E. symmetry. apply rev_involutive.
Qed.

Lemma parse_sign_inv (s t : list ascii) (neg : bool) :
  parse_sign s = (neg, t) -> exists sg, s = sign_chars sg ++ t /\ neg = sign_neg sg.
Proof.
  unfold parse_sign. repeat destr_match; intros H; inv H;
    solve [now exists NoSign | now exists Plus | now exists Minus].
Qed.

Lemma span_digits_inv (s d r : list ascii) :
  span_digits s = (d, r) -> s = d ++ r /\ forallb is_digit d = true.
Proof.
  revert d r. induction s as [|c s IH]; intros d r; cbn [span_digits].
  - intros H. now inv H.
  - destruct (is_digit c) eqn:Hc; [|intros H; now inv H].
    destruct (span_digits s) as [d' r']. intros H. inv H.
    destruct (IH d' r eq_refl) as [-> Hd]. cbn [forallb app]. now rewrite Hc, Hd.
Qed.

(** The exponent read, as the exponent of a numeral. *)
Lemma parse_exponent_inv (s r : list ascii) (e : Z) :
  parse_exponent s = (e, r) ->
  exists ex, forall sg ip fr,
    let n := {| num_sign := sg; num_int := ip; num_frac := fr; num_exp := ex |} in
    s = exp_chars n ++ r /\ e = exp_value n /\
    match ex with
    | Some (_, _, ds) => forallb is_digit ds && negb (Nat.eqb (length ds) 0)
    | None => true
    end = true.
Proof.
  unfold parse_exponent. destruct s as [|c t]; [intros H; inv H; now exists None|].
  destruct (Ascii.eqb c "e" || Ascii.eqb c "E")%bool eqn:Hc; [|intros H; inv H; now exists None].
  destruct (parse_sign t) as [esign t1] eqn:Hs. destruct (span_digits t1) as [ds t2] eqn:Hd.
  apply parse_sign_inv in Hs as (sg & -> & ->). apply span_digits_inv in Hd as [-> Hds].
  destruct ds as [|d ds]; intros H; inv H; [now exists None|].
  exists (Some (Ascii.eqb c "E", sg, d :: ds)). intros sg0 ip fr.
  unfold exp_chars, exp_value. cbn [num_exp app]. rewrite Hds, <- app_assoc.
  apply orb_true_iff in Hc as [Hc|Hc]; apply Ascii.eqb_eq in Hc; subst c; auto.
Qed.

(** What the numeral parser read is a well-formed numeral, and what it
    returned is its value. *)
Lemma dg_strtod_inv (s r : list ascii) (v : float) :
  dg_strtod s = Some (v, r) ->
  exists n, numeral_wf n = true /\ s = numeral_chars n ++ r /\ v = numeral_value n.
Proof.
  unfold dg_strtod.
  destruct (parse_sign s) as [neg s1] eqn:Hs. destruct (span_digits s1) as [ip s2] eqn:Hi.
  apply parse_sign_inv in Hs as (sg & -> & ->). apply span_digits_inv in Hi as [-> Hip].
  assert (exists fr fp s3,
            match s2 with "." :: t => span_digits t | _ => ([], s2) end = (fp, s3) /\
            fp = match fr with Some f => f | None => [] end /\
            s2 = match fr with Some f => "." :: f | None => [] end ++ s3 /\
            forallb is_digit fp = true) as (fr & fp & s3 & -> & Hfp & -> & Hd).
  { destruct s2 as [|c t]; [now exists None, [], []|].
    destruct (Ascii.eqb c ".") eqn:Hc.
    - apply Ascii.eqb_eq in Hc. subst c. destruct (span_digits t) as [fp s3] eqn:Hf.
      apply span_digits_inv in Hf as [-> Hd]. now exists (Some fp), fp, s3.
    - exists None, [], (c :: t). repeat split.
      destruct c as [[] [] [] [] [] [] [] []]; try reflexivity; discriminate. }
  destruct (ip ++ fp) as [|d ds] eqn:Hne; [discriminate|]. rewrite <- Hne.
  destruct (parse_exponent s3) as [e s4] eqn:He. intros H. inv H.
  apply parse_exponent_inv in He as [ex He]. destruct (He sg ip fr) as (-> & -> & Hex).
  exists {| num_sign := sg; num_int := ip; num_frac := fr; num_exp := ex |}.
  unfold numeral_wf, numeral_chars, numeral_value, frac_chars, frac_digits.
  cbn [num_sign num_int num_frac num_exp]. rewrite Hip, Hd, Hne, Hex, <- !app_assoc. auto.
Qed.

Lemma case_insensitive_match_inv (s t r : list ascii) :
  case_insensitive_match s t = Some r -> exists l, s = l ++ r /\ map py_tolower l = t.
Proof.
  revert s. induction t as [|b t IH]; intros [|a s]; cbn [case_insensitive_match];
    try discriminate.
  - intros H. inv H. now exists [].
  - intros H. inv H. now exists [].
  - destruct (Ascii.eqb (py_tolower a) b) eqn:Hab; [|discriminate].
    apply Ascii.eqb_eq in Hab. intros H. destruct (IH s H) as (l & -> & <-).
    exists (a :: l). now rewrite <- Hab.
Qed.

(** What the second parser read is one of the three words, with a sign or
    none. *)
Lemma parse_inf_or_nan_inv (s r : list ascii) (v : float) :
  parse_inf_or_nan s = Some (v, r) ->
  exists sg w l, s = (sign_chars sg ++ l) ++ r /\ map py_tolower l = special_word w /\
                 v = special_value sg w.
Proof.
  unfold parse_inf_or_nan. destruct (parse_sign s) as [neg s1] eqn:Hs.
  apply parse_sign_inv in Hs as (sg & -> & ->).
  destruct (case_insensitive_match s1 _) as [s2|] eqn:H1.
  - apply case_insensitive_match_inv in H1 as (l1 & -> & Hl1).
    destruct (case_insensitive_match s2 _) as [s3|] eqn:H2; intros H; inv H.
    + apply case_insensitive_match_inv in H2 as (l2 & -> & Hl2).
      exists sg, Infinity, (l1 ++ l2). rewrite map_app, Hl1, Hl2, <- !app_assoc. auto.
    + exists sg, Inf, l1. rewrite <- !app_assoc. auto.
  - destruct (case_insensitive_match s1 ["n"; "a"; "n"]) as [s2|] eqn:H2; intros H; inv H.
    apply case_insensitive_match_inv in H2 as (l & -> & Hl).
    exists sg, Nan, l. rewrite <- !app_assoc. auto.
Qed.

(** ** The strings accepted *)

(** Soundness: what the conversion accepts is in the grammar. *)
Lemma float_from_string_inner_sound (s : list ascii) (v : float) :
  float_from_string_inner s = Ok v -> accepts s v.
Proof.
  unfold float_from_string_inner, ascii_strtod.
  destruct (lstrip_inv s) as (ws1 & H1 & E1).
  destruct (lstrip s) as [|c s1]; [discriminate|].
  destruct (rstrip_after_first_inv (c :: s1)) as (ws2 & H2 & E2).
  remember (rstrip_after_first (c :: s1)) as body eqn:Eb. clear Eb.
  rewrite E1, E2. clear E1 E2.
  destruct (dg_strtod body) as [[x r]|] eqn:Hd.
  - destruct r; intros H; inv H. apply dg_strtod_inv in Hd as (n & Hwf & -> & ->).
    rewrite List.app_nil_r. now constructor.
  - destruct (parse_inf_or_nan _) as [[x r]|] eqn:Hp; [|discriminate].
    destruct r; intros H; inv H. apply parse_inf_or_nan_inv in Hp as (sg & w & l & -> & Hl & ->).
    rewrite List.app_nil_r. now constructor.
Qed.

(** Completeness: the conversion accepts the grammar, with its value. *)
Lemma float_from_string_inner_complete (s : list ascii) (v : float) :
  accepts s v -> float_from_string_inner s = Ok v.
Proof.
  intros [ws1 ws2 n H1 H2 Hwf | ws1 ws2 l sg w H1 H2 Hw].
  - destruct (numeral_chars_plain n Hwf) as (_ & Hs & Hne).
    rewrite float_from_string_inner_strip by assumption.
    unfold ascii_strtod. now rewrite dg_strtod_numeral.
  - pose proof (special_letters w l Hw) as Hl. destruct (letters_plain l Hl) as [_ Hn].
    rewrite float_from_string_inner_strip; try assumption.
    + unfold ascii_strtod. destruct l as [|c l']; [now destruct w|].
      cbn in Hl. apply andb_true_iff in Hl as [Hc _].
      rewrite dg_strtod_letter by assumption.
      now rewrite (parse_inf_or_nan_special sg w (c :: l') Hw).
    + rewrite no_space_app, Hn. now destruct sg.
    + destruct l as [|c l']; [now destruct w|]. destruct sg; discriminate.
Qed.

(** The strings of the grammar are plain. *)
Lemma accepts_plain (s : list ascii) (v : float) :
  accepts s v -> forallb plain_char s = true.
Proof.
  intros [ws1 ws2 n H1 H2 Hwf | ws1 ws2 l sg w H1 H2 Hw];
    rewrite !forallb_app, (spaces_plain _ H1), (spaces_plain _ H2).
  - now destruct (numeral_chars_plain n Hwf) as (-> & _).
  - destruct (letters_plain l (special_letters w l Hw)) as [-> _]. now destruct sg.
Qed.

(** The conversion on the strings of the grammar. *)
Lemma float_of_string_accepts (s : list ascii) (v : float) :
  accepts s v -> float_of_string (string_of_list_ascii s) = Ok v.
Proof.
  intros H. rewrite float_of_string_plain by (eapply accepts_plain; eassumption).
  now apply float_from_string_inner_complete.
Qed.

(** On a string of ASCII characters without NUL and without underscore,
    [float] returns [v] exactly when the string is in the grammar with the
    value [v], and raises [ValueError] on every other such string. *)
Lemma float_of_string_plain_iff (x : string) :
  forallb plain_char (list_ascii_of_string x) = true ->
  (forall v, float_of_string x = Ok v <-> accepts (list_ascii_of_string x) v) /\
  (float_of_string x = Raise ValueError <-> forall v, ~ accepts (list_ascii_of_string x) v).
Proof.
  remember (list_ascii_of_string x) as s eqn:Es. intros Hp.
  assert (x = string_of_list_ascii s) as ->
    by (subst s; symmetry; apply string_of_list_ascii_of_string).
  clear Es. rewrite float_of_string_plain by assumption.
  assert (forall v, float_from_string_inner s = Ok v <-> accepts s v) as Hiff
    by (split; [apply float_from_string_inner_sound | apply float_from_string_inner_complete]).
  split; [exact Hiff|]. split.
  - intros H v Hv. apply Hiff in Hv. congruence.
  - intros H. destruct (float_from_string_inner _) as [v|e] eqn:E.
    + now apply float_from_string_inner_sound, H in E.
    + now rewrite (float_from_string_inner_raises _ _ E).
Qed.

(** ** The result is a double *)

Lemma dg_strtod_valid (s r : list ascii) (x : float) :
  dg_strtod s = Some (x, r) -> valid x = true.
Proof.
  unfold dg_strtod. repeat destr_match; intros H; inv H; apply float_of_decimal_valid.
Qed.

Lemma parse_inf_or_nan_valid (s r : list ascii) (x : float) :
  parse_inf_or_nan s = Some (x, r) -> valid x = true.
Proof.
  unfold parse_inf_or_nan. repeat destr_match; intros H; now inv H.
Qed.

Lemma float_from_string_inner_valid (s : list ascii) (x : float) :
  float_from_string_inner s = Ok x -> valid x = true.
Proof.
  unfold float_from_string_inner, ascii_strtod.
  destruct (lstrip s) as [|c s1]; [discriminate|].
  destruct (dg_strtod _) as [[y r]|] eqn:E.
  - destruct r; intros H; inv H. eapply dg_strtod_valid; eassumption.
  - destruct (parse_inf_or_nan _) as [[y r]|] eqn:E'; [|discriminate].
    destruct r; intros H; inv H. eapply parse_inf_or_nan_valid; eassumption.
Qed.

(** What [with_underscores] returns, its inner conversion returned. *)
Lemma with_underscores_ok inner (s : list ascii) (x : float) :
  with_underscores inner s = Ok x -> exists s', inner s' = Ok x.
Proof.
  unfold with_underscores. repeat destr_match; intros H; try discriminate; eauto.
Qed.

(** Every float [float(x)] returns is a double. *)
Lemma float_of_string_valid_ok (x : string) (v : float) :
  float_of_string x = Ok v -> valid v = true.
Proof.
  unfold float_of_string. intros H. apply with_underscores_ok in H as [s' H].
  eapply float_from_string_inner_valid; eassumption.
Qed.

(** ** The result is correctly rounded *)

(** C25: [float] rounds a numeral correctly.  When the conversion of a
    well-formed numeral returns a finite float, that float has the sign
    written and is within half a unit in the last place of the decimal the
    numeral denotes: its digits, as an integer, times ten to the exponent
    written less the number of digits after the point. *)
Theorem float_of_string_correctly_rounded (ws1 ws2 : list ascii) (n : numeral)
  (s : bool) (m : positive) (e : Z) :
  forallb py_isspace ws1 = true -> forallb py_isspace ws2 = true ->
  numeral_wf n = true ->
  float_of_string (string_of_list_ascii (ws1 ++ numeral_chars n ++ ws2)) =
    Ok (S754_finite s m e) ->
  let d := digits_value 0 (num_int n ++ frac_digits n) in
  let x := exp_value n - Z.of_nat (length (frac_digits n)) in
  s = sign_neg (num_sign n) /\
  within_half_ulp (Z.pos m) e (d * 10 ^ Z.max x 0) (10 ^ Z.max (- x) 0) 0.
Proof.
  intros H1 H2 Hwf H. rewrite numeral_conversion in H by assumption.
  inv H. cbv zeta. unfold numeral_value in *.
  destruct (digits_value 0 (num_int n ++ frac_digits n)) as [|p|p] eqn:Hd;
    try discriminate.
  now apply decimal_within_half_ulp.
Qed.
