(* ===== verification/FloatLanguage.v ===== *)
(** * FloatLanguage: the strings [float] accepts, all of them

    [FloatParse] describes the strings the last three steps of [float(x)]
    accept by the grammar [accepts].  This file adds the first two steps
    and characterises the conversion on every string:
    - a Unicode space above 127 (U+0085, U+00A0) counts as a blank
      ([ascii_space]);
    - an underscore is dropped ([remove_underscores]) and must stand
      between two digits ([between_digits]);
    - what is left must be in the grammar, and gives the value.
    Any other character (a NUL, a letter that belongs to no word, a
    character above 127 that is not a space) makes the conversion raise
    [ValueError], because no string of the grammar holds one
    ([grammar_char]). *)

From Stdlib Require Import ZArith String Ascii Bool Lia SpecFloat List.
From S2P Require Import Prelude Outcome Binary64 FloatParse.
Import ListNotations.
Open Scope char_scope.

(** ** The normal form of a string *)

(** A Unicode space above 127 is read as a blank. *)
Definition ascii_space (c : ascii) : ascii :=
  if unicode_isspace_high c then " " else c.

Definition remove_underscores (s : list ascii) : list ascii :=
  filter (fun c => negb (Ascii.eqb c "_")) s.

(** What the conversion parses: Unicode spaces as blanks, no underscore. *)
Definition normal_form (s : list ascii) : list ascii :=
  remove_underscores (map ascii_space s).

(** Every underscore of [s] has a digit before it and a digit after it. *)
Definition between_digits (s : list ascii) : Prop :=
  forall a b, s = a ++ "_" :: b ->
    is_digit (last a "000") = true /\ is_digit (hd "000" b) = true.

(** The same as a test, [prev] being the character before [s]. *)
Fixpoint underscores_ok (prev : ascii) (s : list ascii) : bool :=
  match s with
  | [] => true
  | c :: s' =>
    (negb (Ascii.eqb c "_") || (is_digit prev && is_digit (hd "000" s'))) &&
    underscores_ok c s'
  end.

(** The characters of the strings of the grammar. *)
Definition grammar_char (c : ascii) : bool :=
  py_isspace c || is_digit c || existsb (Ascii.eqb c) ["+"; "-"; "."; "e"; "E"] ||
  word_letter c.

(** The characters the first step keeps or turns into a blank. *)
Definition keepable (c : ascii) : bool :=
  N.ltb (code c) 127 || unicode_isspace_high c.

(** ** Characters *)

Ltac by_cases c := destruct c as [[] [] [] [] [] [] [] []]; cbn; intros; try discriminate; auto.

Lemma grammar_char_facts (c : ascii) :
  grammar_char c = true ->
  Ascii.eqb c "_" = false /\ Ascii.eqb "000" c = false /\ Ascii.eqb c "000" = false.
Proof. by_cases c. Qed.

Lemma ascii_space_digit (c : ascii) : is_digit (ascii_space c) = is_digit c.
Proof. by_cases c. Qed.

Lemma ascii_space_underscore (c : ascii) :
  Ascii.eqb (ascii_space c) "_" = Ascii.eqb c "_".
Proof. by_cases c. Qed.

Lemma ascii_space_low (c : ascii) : N.ltb (code c) 128 = true -> ascii_space c = c.
Proof. by_cases c. Qed.

Lemma not_keepable (c : ascii) :
  keepable c = false -> grammar_char c = false /\ Ascii.eqb c "_" = false.
Proof. by_cases c. Qed.

Lemma ascii_space_keepable (c : ascii) :
  grammar_char (ascii_space c) || Ascii.eqb (ascii_space c) "_" = true -> keepable c = true.
Proof. by_cases c. Qed.

Lemma digit_grammar (c : ascii) : is_digit c = true -> grammar_char c = true.
Proof. by_cases c. Qed.

Lemma space_grammar (c : ascii) : py_isspace c = true -> grammar_char c = true.
Proof. by_cases c. Qed.

Lemma letter_grammar (c : ascii) : word_letter c = true -> grammar_char c = true.
Proof. by_cases c. Qed.


(** ** The characters of the grammar *)

Lemma sign_chars_grammar (s : sign_char) : forallb grammar_char (sign_chars s) = true.
Proof. now destruct s. Qed.

Lemma numeral_chars_grammar (n : numeral) :
  numeral_wf n = true -> forallb grammar_char (numeral_chars n) = true.
Proof.
  unfold numeral_wf, numeral_chars, frac_chars, frac_digits, exp_chars.
  intros [[[Hi Hf]%andb_true_iff _]%andb_true_iff He]%andb_true_iff.
  rewrite !forallb_app, sign_chars_grammar, (forallb_impl _ _ _ digit_grammar Hi).
  destruct (num_frac n) as [f|], (num_exp n) as [[[upper sg] ds]|]; cbn [forallb andb];
    rewrite ?(forallb_impl _ _ _ digit_grammar Hf); try reflexivity;
    apply andb_true_iff in He as [Hd _];
    rewrite forallb_app, sign_chars_grammar, (forallb_impl _ _ _ digit_grammar Hd);
    now destruct upper.
Qed.

(** A string of the grammar is made of its characters. *)
Lemma accepts_grammar (s : list ascii) (v : float) :
  accepts s v -> forallb grammar_char s = true.
Proof.
  intros [ws1 ws2 n H1 H2 Hwf | ws1 ws2 l sg w H1 H2 Hw];
    rewrite !forallb_app, (forallb_impl _ _ _ space_grammar H1),
      (forallb_impl _ _ _ space_grammar H2), ?andb_true_r.
  - now apply numeral_chars_grammar.
  - now rewrite sign_chars_grammar, (forallb_impl _ _ _ letter_grammar (special_letters w l Hw)).
Qed.

(** ** Step 1: Unicode spaces *)

Lemma map_ascii_space_low (s : list ascii) :
  is_ascii_string s = true -> map ascii_space s = s.
Proof.
  unfold is_ascii_string. induction s as [|c s IH]; cbn [forallb map]; [reflexivity|].
  intros [Hc Hs]%andb_true_iff. now rewrite (ascii_space_low c Hc), IH.
Qed.

Lemma transform_chars_keepable (s : list ascii) :
  forallb keepable s = true -> transform_chars s = map ascii_space s.
Proof.
  induction s as [|c s IH]; cbn [forallb map transform_chars]; [reflexivity|].
  intros [Hc Hs]%andb_true_iff. rewrite (IH Hs). unfold keepable, ascii_space in *.
  destruct (N.ltb (code c) 127) eqn:E; [|cbn in Hc; now rewrite Hc].
  destruct (unicode_isspace_high c) eqn:E'; [|reflexivity].
  revert E E'. by_cases c.
Qed.

(** A string of characters the first step keeps comes out with its Unicode
    spaces as blanks. *)
Lemma transform_keepable (s : list ascii) :
  forallb keepable s = true -> transform_decimal_and_space s = map ascii_space s.
Proof.
  intros H. unfold transform_decimal_and_space.
  destruct (is_ascii_string s) eqn:E; [now rewrite map_ascii_space_low|].
  now apply transform_chars_keepable.
Qed.

Lemma transform_chars_bad (s : list ascii) :
  forallb keepable s = false ->
  exists c, In c (transform_chars s) /\ grammar_char c = false /\ Ascii.eqb c "_" = false.
Proof.
  induction s as [|c s IH]; cbn [forallb transform_chars]; [discriminate|].
  unfold keepable at 1. destruct (N.ltb (code c) 127); cbn [orb andb].
  - intros H. destruct (IH H) as (c' & Hin & Hc'). exists c'. split; [now right|assumption].
  - destruct (unicode_isspace_high c); cbn [andb].
    + intros H. destruct (IH H) as (c' & Hin & Hc'). exists c'. split; [now right|assumption].
    + intros _. exists "?". split; [now left|auto].
Qed.

(** Any other string comes out with a character that no string of the
    grammar holds. *)
Lemma transform_bad (s : list ascii) :
  forallb keepable s = false ->
  exists c, In c (transform_decimal_and_space s) /\
            grammar_char c = false /\ Ascii.eqb c "_" = false.
Proof.
  intros H. unfold transform_decimal_and_space.
  destruct (is_ascii_string s); [|now apply transform_chars_bad].
  induction s as [|c s IH]; [discriminate|]. cbn [forallb] in H.
  destruct (keepable c) eqn:Hc.
  - destruct (IH H) as (c' & Hin & Hc'). exists c'. split; [now right|assumption].
  - exists c. split; [now left|]. now apply not_keepable.
Qed.

(** ** Step 2: underscores *)

(** The test decides the property. *)
Lemma underscores_ok_iff (prev : ascii) (s : list ascii) :
  underscores_ok prev s = true <->
  forall a b, s = a ++ "_" :: b ->
    is_digit (last a prev) = true /\ is_digit (hd "000" b) = true.
Proof.
  revert prev. induction s as [|c s IH]; intros prev; cbn [underscores_ok].
  - split; [|reflexivity]. intros _ [|? ?] b; discriminate.
  - rewrite andb_true_iff, IH. split.
    + intros [Hc Hs] [|a0 a] b E; inv E.
      * cbn in Hc. now apply andb_true_iff in Hc.
      * rewrite last_cons. now apply Hs.
    + intros H. split.
      * destruct (Ascii.eqb c "_") eqn:Hc; [|reflexivity]. apply Ascii.eqb_eq in Hc. subst c.
        cbn. apply andb_true_iff. exact (H [] s eq_refl).
      * intros a b ->. rewrite <- last_cons with (d := prev). now apply (H (c :: a) b).
Qed.

Lemma underscores_ok_space (prev : ascii) (s : list ascii) :
  underscores_ok (ascii_space prev) (map ascii_space s) = underscores_ok prev s.
Proof.
  revert prev. induction s as [|c s IH]; intros prev; cbn [map underscores_ok]; [reflexivity|].
  rewrite IH, ascii_space_underscore, ascii_space_digit.
  now destruct s; cbn [map hd]; rewrite ?ascii_space_digit.
Qed.

(** The copying loop succeeds exactly on underscores between digits, and
    then returns the string without them. *)
Lemma copy_without_underscores_eq (prev : ascii) (s : list ascii) :
  copy_without_underscores prev s =
  if (negb (Ascii.eqb prev "_") || is_digit (hd "000" s)) && underscores_ok prev s
  then Some (remove_underscores s) else None.
Proof.
  revert prev. induction s as [|c s IH]; intros prev;
    cbn [copy_without_underscores underscores_ok remove_underscores filter hd].
  - now destruct (Ascii.eqb prev "_").
  - rewrite IH. fold (remove_underscores s).
    assert (is_digit prev = true -> Ascii.eqb prev "_" = false) as Hp by (by_cases prev).
    assert (Ascii.eqb c "_" = true -> is_digit c = false) as Hc
      by (intros ->%Ascii.eqb_eq; reflexivity).
    destruct (Ascii.eqb c "_") eqn:Ec; cbn [negb orb andb].
    + rewrite (Hc eq_refl), orb_false_r.
      destruct (is_digit prev) eqn:Ed; [rewrite (Hp eq_refl)|]; cbn [negb andb];
        [reflexivity | now rewrite andb_false_r].
    + destruct (Ascii.eqb prev "_"), (is_digit c), (underscores_ok c s); reflexivity.
Qed.

Lemma remove_underscores_id (s : list ascii) :
  forallb grammar_char s = true -> remove_underscores s = s.
Proof.
  induction s as [|c s IH]; cbn [forallb remove_underscores filter]; [reflexivity|].
  intros [Hc Hs]%andb_true_iff. destruct (grammar_char_facts c Hc) as (-> & _).
  cbn [negb]. f_equal. now apply IH.
Qed.

Lemma underscores_ok_none (prev : ascii) (s : list ascii) :
  forallb grammar_char s = true -> underscores_ok prev s = true.
Proof.
  revert prev. induction s as [|c s IH]; intros prev; cbn [forallb underscores_ok]; [reflexivity|].
  intros [Hc Hs]%andb_true_iff. destruct (grammar_char_facts c Hc) as (-> & _).
  now rewrite IH.
Qed.

(** What remains of a string whose normal form is in the grammar. *)
Lemma remove_underscores_grammar (s : list ascii) :
  forallb grammar_char (remove_underscores s) = true ->
  forallb (fun c => grammar_char c || Ascii.eqb c "_") s = true.
Proof.
  induction s as [|c s IH]; cbn [forallb remove_underscores filter]; [reflexivity|].
  destruct (Ascii.eqb c "_"); cbn [negb forallb].
  - intros H. now rewrite orb_true_r, IH.
  - intros [-> Hs]%andb_true_iff. now rewrite IH.
Qed.

Lemma no_underscore_found (s : list ascii) :
  forallb (fun c => grammar_char c || Ascii.eqb c "_") s = true ->
  has_underscore s = false -> remove_underscores s = s.
Proof.
  induction s as [|c s IH]; cbn [forallb has_underscore remove_underscores filter];
    [reflexivity|].
  intros [Hc Hs]%andb_true_iff.
  assert (Ascii.eqb c "000" = false) as -> by (revert Hc; by_cases c).
  destruct (Ascii.eqb c "_"); [discriminate|]. intros H. cbn [negb]. f_equal. now apply IH.
Qed.

Lemma grammar_no_nul (s : list ascii) :
  forallb grammar_char s = true -> existsb (Ascii.eqb "000") s = false.
Proof.
  induction s as [|c s IH]; cbn [forallb existsb]; [reflexivity|].
  intros [Hc Hs]%andb_true_iff. destruct (grammar_char_facts c Hc) as (_ & -> & _).
  now apply IH.
Qed.

(** The second step and the parser together. *)
Lemma with_underscores_iff (s : list ascii) (v : float) :
  with_underscores float_from_string_inner s = Ok v <->
  underscores_ok "000" s = true /\ accepts (remove_underscores s) v.
Proof.
  unfold with_underscores. rewrite copy_without_underscores_eq. cbn [Ascii.eqb Bool.eqb negb orb andb].
  split.
  - destruct (has_underscore s) eqn:Hu.
    + destruct (underscores_ok "000" s); [|discriminate].
      destruct (existsb _ _); [discriminate|]. intros H.
      split; [reflexivity | now apply float_from_string_inner_sound].
    + intros H%float_from_string_inner_sound. pose proof (accepts_grammar _ _ H) as Hg.
      now rewrite (underscores_ok_none _ _ Hg), (remove_underscores_id _ Hg).
  - intros [Hok H]. pose proof (accepts_grammar _ _ H) as Hg. rewrite Hok.
    destruct (has_underscore s) eqn:Hu.
    + rewrite (grammar_no_nul _ Hg). now apply float_from_string_inner_complete.
    + rewrite <- (no_underscore_found s (remove_underscores_grammar s Hg) Hu) at 1.
      now apply float_from_string_inner_complete.
Qed.

(** ** The conversion on every string *)

(** A string whose normal form is in the grammar has only characters the
    first step keeps. *)
Lemma normal_form_keepable (s : list ascii) :
  forallb grammar_char (normal_form s) = true -> forallb keepable s = true.
Proof.
  intros H%remove_underscores_grammar. rewrite forallb_map in H.
  revert H. apply forallb_impl. intros c. apply ascii_space_keepable.
Qed.

Lemma float_of_string_ok_iff (x : string) (v : float) :
  float_of_string x = Ok v <->
  between_digits (list_ascii_of_string x) /\ accepts (normal_form (list_ascii_of_string x)) v.
Proof.
  unfold float_of_string, between_digits. rewrite with_underscores_iff, <- underscores_ok_iff.
  set (s := list_ascii_of_string x). split.
  - intros [Hok H]. pose proof (accepts_grammar _ _ H) as Hg.
    destruct (forallb keepable s) eqn:Hk.
    + rewrite (transform_keepable s Hk) in *. fold (normal_form s) in H.
      now rewrite <- (underscores_ok_space "000").
    + destruct (transform_bad s Hk) as (c & Hin & Hc & Hu). exfalso.
      assert (In c (remove_underscores (transform_decimal_and_space s))) as Hin'
        by (apply filter_In; now rewrite Hu).
      rewrite forallb_forall in Hg. rewrite (Hg c Hin') in Hc. discriminate.
  - intros [Hok H]. pose proof (normal_form_keepable s (accepts_grammar _ _ H)) as Hk.
    rewrite (transform_keepable s Hk). now rewrite (underscores_ok_space "000").
Qed.

(** C23: the strings [float] accepts and what it returns on them.  On every
    string, [float] returns [v] exactly when each underscore of the string
    stands between two digits and the string, its Unicode spaces read as
    blanks and its underscores removed, is in the grammar with the value
    [v]: a well-formed numeral or [inf], [infinity], [nan] in any case, with
    a sign or none, between white space.  On every other string it raises
    [ValueError], and nothing else: a string with a NUL, with a character
    after the number, or with a non-ASCII character that is not a space is
    refused, and no numeral is refused for its size. *)
Theorem float_of_string_language (x : string) :
  (forall v, float_of_string x = Ok v <->
     between_digits (list_ascii_of_string x) /\
     accepts (normal_form (list_ascii_of_string x)) v) /\
  (forall e, float_of_string x = Raise e -> e = ValueError).
Proof.
  split; [intros v; apply float_of_string_ok_iff | apply float_of_string_raises].
Qed.
