(* ===== verification/FloatFormat.v ===== *)
(** * FloatFormat: ['%.2f' % x]

    The script prints an area with ['Area = %.2f' % a] (source lines 24 and
    28).  For a float [a] the conversion [%.2f] writes
    - [nan] for a NaN, [inf] or [-inf] for an infinity;
    - otherwise a minus sign when the sign bit is set (also on [-0.0] and on
      a negative value that rounds to zero), the integer part in decimal
      with no leading zero, a point and exactly two decimals, the exact
      value of the double being rounded to the nearest hundredth, ties to
      the even one.
    There is never an exponent, whatever the size of the number.

    The hundredths are computed exactly: [m * 2^e * 100] is an integer
    when [0 <= e], and [rne (m * 100) (2^(-e))] otherwise. *)

From Stdlib Require Import ZArith String Ascii Bool Lia SpecFloat List.
From Stdlib Require Import DecimalString DecimalN DecimalPos.
From S2P Require Import Prelude Outcome Rounding Digits RoundRef Binary64 Validity Integers.
Import ListNotations.
Open Scope Z_scope.

(** ** Definitions *)

(** The exact value [m * 2^e] in hundredths, rounded half-even. *)
Definition hundredths (m : positive) (e : Z) : Z :=
  if 0 <=? e then Z.pos m * 2 ^ e * 100
  else rne (Z.pos m * 100) (2 ^ (- e)).

(** A non-negative integer in decimal, [0] for zero. *)
Definition decimal_string (n : Z) : string :=
  NilZero.string_of_uint (N.to_uint (Z.to_N n)).

(** Two decimals. *)
Definition two_digits (n : Z) : string :=
  String (digit_char (n / 10)) (String (digit_char (n mod 10)) EmptyString).

(** [n] hundredths in fixed notation. *)
Definition fixed2 (n : Z) : string :=
  (decimal_string (n / 100) ++ "." ++ two_digits (n mod 100))%string.

Definition sign_string (s : bool) : string :=
  if s then "-"%string else EmptyString.

(** ['%.2f' % x]. *)
Definition format_f2 (x : float) : string :=
  match x with
  | S754_nan => "nan"%string
  | S754_infinity s => (sign_string s ++ "inf")%string
  | S754_zero s => (sign_string s ++ "0.00")%string
  | S754_finite s m e => (sign_string s ++ fixed2 (hundredths m e))%string
  end.

(** ['Area = %.2f' % a]. *)
Definition format_area (a : float) : string := ("Area = " ++ format_f2 a)%string.

(** ** The sign *)

(** A decimal numeral starts with a digit. *)
Lemma decimal_string_no_minus (n : Z) :
  starts_with "-" (decimal_string n) = false.
Proof.
  unfold decimal_string. now destruct (N.to_uint (Z.to_N n)).
Qed.

Lemma starts_with_minus_app (a b : string) :
  starts_with "-" a = false -> a <> EmptyString ->
  starts_with "-" (a ++ b) = false.
Proof. destruct a; [congruence|]. auto. Qed.

Lemma decimal_string_nonempty (n : Z) : decimal_string n <> EmptyString.
Proof.
  unfold decimal_string. now destruct (N.to_uint (Z.to_N n)).
Qed.

Lemma fixed2_no_minus (n : Z) : starts_with "-" (fixed2 n) = false.
Proof.
  unfold fixed2. apply starts_with_minus_app;
    [apply decimal_string_no_minus | apply decimal_string_nonempty].
Qed.

(** A float whose sign bit is clear is written without a minus sign. *)
Lemma format_f2_nonneg (x : float) :
  negative x = false -> starts_with "-" (format_f2 x) = false.
Proof.
  destruct x as [s|s| |s m e]; cbn [negative format_f2]; intros H; subst;
    try reflexivity.
  cbn [sign_string String.append]. apply fixed2_no_minus.
Qed.

(** A float whose sign bit is set is written with a minus sign. *)
Lemma format_f2_negative (x : float) :
  negative x = true -> starts_with "-" (format_f2 x) = true.
Proof.
  destruct x as [s|s| |s m e]; cbn [negative format_f2]; intros H; subst;
    try discriminate; reflexivity.
Qed.

(** ** Decimal numerals *)

(** The characters of a string. *)
Abbreviation chars := list_ascii_of_string.

Lemma uint_chars_digits (u : Decimal.uint) :
  forallb is_digit (chars (NilEmpty.string_of_uint u)) = true.
Proof. induction u; cbn [NilEmpty.string_of_uint chars forallb]; auto. Qed.

Lemma uint_value_acc (u : Decimal.uint) (acc : positive) :
  digits_value (Z.pos acc) (chars (NilEmpty.string_of_uint u)) = Z.pos (Pos.of_uint_acc u acc).
Proof.
  revert acc. induction u; intros acc;
    cbn [NilEmpty.string_of_uint chars digits_value Pos.of_uint_acc]; [reflexivity|..];
    rewrite <- IHu; f_equal;
    match goal with |- context [digit_val ?c] =>
      let v := eval vm_compute in (digit_val c) in change (digit_val c) with v end; lia.
Qed.

Lemma uint_value (u : Decimal.uint) :
  digits_value 0 (chars (NilEmpty.string_of_uint u)) = Z.of_N (Pos.of_uint u).
Proof.
  induction u; cbn [NilEmpty.string_of_uint chars digits_value Pos.of_uint]; [reflexivity|..];
    try exact IHu; apply (uint_value_acc u).
Qed.

Lemma to_uint_not_nil (n : N) : N.to_uint n <> Decimal.Nil.
Proof.
  intros E. pose proof (DecimalN.Unsigned.of_to n) as H. rewrite E in H.
  cbn in H. subst n. discriminate.
Qed.

Lemma decimal_string_uint (n : Z) :
  decimal_string n = NilEmpty.string_of_uint (N.to_uint (Z.to_N n)).
Proof.
  unfold decimal_string, NilZero.string_of_uint.
  pose proof (to_uint_not_nil (Z.to_N n)). now destruct (N.to_uint (Z.to_N n)).
Qed.

(** The characters of a decimal numeral are digits. *)
Lemma decimal_string_digits (n : Z) : forallb is_digit (chars (decimal_string n)) = true.
Proof. rewrite decimal_string_uint. apply uint_chars_digits. Qed.

(** Reading the numeral of [n] gives [n] back. *)
Lemma decimal_string_value (n : Z) :
  0 <= n -> digits_value 0 (chars (decimal_string n)) = n.
Proof.
  intros Hn. rewrite decimal_string_uint, uint_value.
  change (Pos.of_uint ?u) with (N.of_uint u).
  rewrite DecimalN.Unsigned.of_to. lia.
Qed.

Lemma decimal_string_chars_nonempty (n : Z) : chars (decimal_string n) <> [].
Proof.
  rewrite decimal_string_uint. pose proof (to_uint_not_nil (Z.to_N n)).
  now destruct (N.to_uint (Z.to_N n)).
Qed.

(** Two decimals. *)
Lemma two_digits_chars (n : Z) :
  chars (two_digits n) = [digit_char (n / 10); digit_char (n mod 10)].
Proof. reflexivity. Qed.

Lemma two_digit_bounds (n : Z) :
  0 <= n < 100 -> 0 <= n / 10 <= 9 /\ 0 <= n mod 10 <= 9.
Proof.
  intros H. pose proof (Z.div_mod n 10 ltac:(lia)).
  pose proof (Z.mod_pos_bound n 10 ltac:(lia)). lia.
Qed.

Lemma two_digits_digits (n : Z) :
  0 <= n < 100 -> forallb is_digit (chars (two_digits n)) = true.
Proof.
  intros H. destruct (two_digit_bounds n H). rewrite two_digits_chars. cbn [forallb].
  now rewrite !digit_char_is_digit.
Qed.

Lemma two_digits_value (acc n : Z) :
  0 <= n < 100 -> digits_value acc (chars (two_digits n)) = 100 * acc + n.
Proof.
  intros H. destruct (two_digit_bounds n H). rewrite two_digits_chars. cbn [digits_value].
  rewrite !digit_val_char by assumption.
  pose proof (Z.div_mod n 10 ltac:(lia)). lia.
Qed.

Lemma chars_app (a b : string) : chars (a ++ b) = (chars a ++ chars b)%list.
Proof. induction a; cbn; congruence. Qed.

(** The digits of [fixed2 n] read [n] hundredths. *)
Lemma fixed2_value (n : Z) :
  0 <= n ->
  digits_value 0 (chars (decimal_string (n / 100)) ++ chars (two_digits (n mod 100))) = n.
Proof.
  intros Hn. rewrite digits_value_app, decimal_string_value by (apply Z.div_pos; lia).
  rewrite two_digits_value by (apply Z.mod_pos_bound; lia).
  pose proof (Z.div_mod n 100 ltac:(lia)). lia.
Qed.

(** ** The hundredths *)

Lemma hundredths_nonneg (m : positive) (e : Z) : 0 <= hundredths m e.
Proof.
  unfold hundredths. destruct (Z.leb_spec 0 e).
  - pose proof (pow2_pos e H). nia.
  - apply rne_nonneg; [lia | apply pow2_pos; lia].
Qed.

(** ** The shape of what is written *)

(** [fixed2 n] is one digit at least, a point and two digits, which read
    together are [n]. *)
Lemma fixed2_shape (n : Z) :
  0 <= n ->
  exists ip d1 d2,
    ip <> [] /\ forallb is_digit (ip ++ [d1; d2]) = true /\
    chars (fixed2 n) = (ip ++ "."%char :: [d1; d2])%list /\
    digits_value 0 (ip ++ [d1; d2]) = n.
Proof.
  intros Hn. pose proof (Z.mod_pos_bound n 100 ltac:(lia)) as Hm.
  exists (chars (decimal_string (n / 100))),
         (digit_char (n mod 100 / 10)), (digit_char ((n mod 100) mod 10)).
  split; [apply decimal_string_chars_nonempty|]. split; [|split].
  - rewrite forallb_app, decimal_string_digits. exact (two_digits_digits _ Hm).
  - unfold fixed2. now rewrite chars_app.
  - exact (fixed2_value n Hn).
Qed.

(** ['%.2f'] of a float whose sign bit is clear is [nan], [inf], or a
    decimal with two digits after the point and no exponent. *)
Lemma format_f2_shape (x : float) :
  negative x = false ->
  format_f2 x = "nan"%string \/ format_f2 x = "inf"%string \/
  exists ip d1 d2,
    ip <> [] /\ forallb is_digit (ip ++ [d1; d2]) = true /\
    chars (format_f2 x) = (ip ++ "."%char :: [d1; d2])%list.
Proof.
  destruct x as [s|s| |s m e]; cbn [negative format_f2]; [| |now left|]; intros ->; cbn [sign_string].
  - right; right. now exists ["0"%char], "0"%char, "0"%char.
  - now right; left.
  - right; right. destruct (fixed2_shape _ (hundredths_nonneg m e)) as (ip & d1 & d2 & H1 & H2 & H3 & _).
    now exists ip, d1, d2.
Qed.

(** C27: the hundredths printed are within half a hundredth of the float.
    For a finite float [m * 2^e], ['%.2f'] prints [n] hundredths with
    [|n / 100 - m * 2^e| <= 1/200]; the statement is scaled by [2^(-e)] to
    stay in the integers. When [0 <= e] the float is an integer and [n] is
    exact. *)
Theorem hundredths_bound (m : positive) (e : Z) :
  (0 <= e -> hundredths m e = Z.pos m * 2 ^ e * 100) /\
  (e < 0 -> 2 * Z.abs (hundredths m e * 2 ^ (- e) - Z.pos m * 100) <= 2 ^ (- e)).
Proof.
  unfold hundredths. split; intros He.
  - now replace (0 <=? e) with true by (symmetry; apply Z.leb_le; lia).
  - replace (0 <=? e) with false by (symmetry; apply Z.leb_gt; lia).
    apply rne_bound. apply pow2_pos. lia.
Qed.

(** ** Integers *)

(** The double of an integer below [2^53] is printed as the integer, with
    two zeros after the point. *)
Lemma format_f2_int (n : Z) :
  0 <= n < 2 ^ prec -> format_f2 (int_float n) = (decimal_string n ++ ".00")%string.
Proof.
  intros Hn. destruct (Z.eq_dec n 0) as [->|Hz]; [reflexivity|].
  assert (0 < n < 2 ^ prec) as Hn' by lia.
  rewrite (int_float_finite n Hn'). cbn [format_f2 sign_string String.append].
  pose proof (int_digits n Hn') as Hd. pose proof (int_mantissa_pos n Hn') as Hm.
  assert (hundredths (Z.to_pos (n * 2 ^ (prec - Zdigits2 n))) (Zdigits2 n - prec) = n * 100) as ->.
  { unfold hundredths. rewrite Z2Pos.id by assumption.
    destruct (Z.leb_spec 0 (Zdigits2 n - prec)).
    - replace (Zdigits2 n - prec) with 0 by lia. replace (prec - Zdigits2 n) with 0 by lia.
      rewrite !Z.pow_0_r. lia.
    - replace (- (Zdigits2 n - prec)) with (prec - Zdigits2 n) by lia.
      replace (n * 2 ^ (prec - Zdigits2 n) * 100) with (n * 100 * 2 ^ (prec - Zdigits2 n)) by lia.
      apply rne_exact, pow2_pos. lia. }
  unfold fixed2. now rewrite Z.div_mul, Z.mod_mul by lia.
Qed.
