(* ===== verification/Circle.v ===== *)
(** * Circle: the area of a circle of integer radius

    For a radius [n] given as an integer, [r ** 2] is exact and the only
    roundings of the script are that of the literal [3.14159], that of the
    product and that of ['%.2f'].  This file proves that up to
    [n = 100000] they cannot move the result across a hundredth: the
    digits printed are those of the decimal [3.14159 * n^2] rounded to two
    places, unless that decimal ends in [5] at its third place, where the
    error of the literal and of the product decide. *)

From Stdlib Require Import ZArith Bool Lia SpecFloat.
From S2P Require Import Prelude Outcome Rounding Digits RoundRef Binary64 Validity Accuracy.
From S2P Require Import Integers FloatFormat.
Open Scope Z_scope.

(** The literal [3.14159]. *)
Definition pi : float := float_of_decimal false 314159 (-5).

Lemma pi_value : pi = S754_finite false 7074231776675438 (-51).
Proof. reflexivity. Qed.

Section Circle.
Variable n : Z.
Hypothesis Hn : 1 <= n <= 100000.

Let N := n * n.

Lemma N_bounds : 0 < N < 2 ^ prec.
Proof. unfold N, prec. nia. Qed.

(** The product [pi * n^2], before the formatting. *)
Lemma circle_product :
  exists m e,
    float_mul pi (int_float N) = S754_finite false m e /\
    - 51 <= e <= - 17 /\
    2 * Z.abs (Z.pos m * 2 ^ (e + 51) - 7074231776675438 * N) <= 2 ^ (e + 51).
Proof.
  pose proof N_bounds as HN.
  pose proof (int_digits N HN) as Hd. pose proof (int_mantissa_pos N HN) as Hm.
  rewrite pi_value, (int_float_finite N HN).
  assert (valid (S754_finite false 7074231776675438 (-51)) = true) as Hvp by reflexivity.
  pose proof (int_float_valid N HN) as Hv2. rewrite (int_float_finite N HN) in Hv2.
  destruct (mul_round_spec _ _ _ _ _ _ Hvp Hv2) as (m' & e' & E & Hc & Hm' & He & Hle & Hr).
  rewrite Z2Pos.id in He, Hr by assumption. cbn [xorb] in E.
  (* the exponent *)
  assert (Zdigits2 (7074231776675438 * (N * 2 ^ (prec - Zdigits2 N))) =
          Zdigits2 (7074231776675438 * N) + (prec - Zdigits2 N)) as Hdig.
  { rewrite Z.mul_assoc. apply Zdigits2_shiftl; lia. }
  assert (53 <= Zdigits2 (7074231776675438 * N) <= 86) as Hd2.
  { split.
    - apply Zdigits2_ge; [|lia]. change (2 ^ (53 - 1)) with 4503599627370496. lia.
    - apply Zdigits2_le; [lia|]. unfold N. change (2 ^ 86) with 77371252455336267181195264. nia. }
  unfold cexp, fexp, emin, prec, emax in *. rewrite Hdig in He.
  assert (- 51 <= e' <= - 17) as Hrange by lia.
  assert (m' <> 0) as Hnz by (intros ->; cbn [Zdigits2] in Hc; lia).
  destruct m' as [|m|m]; try lia. cbn [finish] in E.
  destruct (Z.leb_spec e' (1024 - 53)); [|lia].
  exists m, e'. split; [exact E|]. split; [exact Hrange|].
  (* the error, rescaled *)
  assert (within_half_ulp (Z.pos m) e' (7074231776675438 * N) 1 (-51)) as Hw.
  { apply (within_half_ulp_scale _ _ _ _ _ (53 - Zdigits2 N)); [lia|lia|].
    rewrite Hr. rewrite <- Z.mul_assoc.
    replace (-51 - (53 - Zdigits2 N)) with (-51 + (Zdigits2 N - 53)) by lia.
    rewrite <- (Z.mul_1_l (2 ^ (e' - _))). apply rne_within_half_ulp; lia. }
  unfold within_half_ulp in Hw. cbv zeta in Hw.
  rewrite Z.min_r in Hw by lia.
  replace (e' - -51) with (e' + 51) in Hw by lia.
  replace (-51 - -51) with 0 in Hw by lia.
  now rewrite Z.pow_0_r, !Z.mul_1_r, Z.mul_1_l in Hw.
Qed.

(** The hundredths printed for [pi * n^2] are those of the decimal
    [3.14159 * n^2], unless that lies half-way between two hundredths. *)
Lemma circle_hundredths :
  (314159 * N) mod 1000 <> 500 ->
  exists m e,
    float_mul pi (int_float N) = S754_finite false m e /\
    hundredths m e = rne (314159 * N) 1000.
Proof.
  intros Htie. destruct circle_product as (m & e & E & He & Hb).
  exists m, e. split; [exact E|].
  unfold hundredths. destruct (Z.leb_spec 0 e); [lia|].
  pose proof (rne_strict (314159 * N) 1000 ltac:(lia) ltac:(lia)) as Hq.
  set (q := rne (314159 * N) 1000) in *.
  assert (2 ^ (e + 51) * 2 ^ (- e) = 2251799813685248) as HRT
    by (rewrite <- Z.pow_add_r by lia; now replace (e + 51 + - e) with 51 by lia).
  assert (1 <= 2 ^ (e + 51) <= 2 ^ 34) as HR.
  { split; [pose proof (pow2_pos (e + 51) ltac:(lia)); lia|].
    apply Z.pow_le_mono_r; lia. }
  change (2 ^ 34) with 17179869184 in HR.
  pose proof N_bounds as HN. assert (N <= 10000000000) as HN' by (unfold N; nia).
  set (R := 2 ^ (e + 51)) in *. set (T := 2 ^ (- e)) in *.
  apply rne_unique; [unfold T; apply pow2_pos; lia|].
  assert (0 < T) as HT by (unfold T; apply pow2_pos; lia).
  split.
  - apply (Z.mul_lt_mono_pos_l R); [lia|].
    replace (R * ((2 * q - 1) * T)) with ((2 * q - 1) * (R * T)) by ring. rewrite HRT. lia.
  - apply (Z.mul_lt_mono_pos_l R); [lia|].
    replace (R * ((2 * q + 1) * T)) with ((2 * q + 1) * (R * T)) by ring. rewrite HRT. lia.
Qed.

End Circle.
