(* ===== verification/RoundTrip.v ===== *)
(** * RoundTrip: what the script prints, [float] reads

    The number of an area line is a string ['%.2f'] wrote.  This file proves
    that [float] accepts every such string, and says which float it
    returns: a NaN for [nan], the infinity for [inf] and [-inf], the zero
    for [0.00] and [-0.00], and for a finite float the double nearest to the
    hundredths printed.  The output of the script can thus be given back to
    it as an argument. *)

From Stdlib Require Import ZArith String Ascii Bool Lia SpecFloat List.
From S2P Require Import Prelude Outcome Rounding Binary64 FloatParse FloatFormat.
Import ListNotations.
Open Scope Z_scope.

(** ** Definitions *)

(** The float [float] reads from ['%.2f' % x]. *)
Definition reread (x : float) : float :=
  match x with
  | S754_finite s m e => float_of_decimal s (hundredths m e) (-2)
  | _ => x
  end.

(** The numeral ['%.2f'] writes for [n] hundredths of sign [s]. *)
Definition fixed2_numeral (s : bool) (n : Z) : numeral :=
  {| num_sign := if s then Minus else NoSign;
     num_int := list_ascii_of_string (decimal_string (n / 100));
     num_frac := Some (list_ascii_of_string (two_digits (n mod 100)));
     num_exp := None |}.

(** ** The round trip *)

Lemma fixed2_numeral_chars (s : bool) (n : Z) :
  numeral_chars (fixed2_numeral s n) =
  list_ascii_of_string (sign_string s ++ fixed2 n).
Proof.
  unfold numeral_chars, fixed2_numeral, fixed2, frac_chars, exp_chars.
  cbn [num_sign num_int num_frac num_exp]. rewrite !chars_app, app_nil_r.
  now destruct s.
Qed.

Lemma fixed2_numeral_wf (s : bool) (n : Z) :
  0 <= n -> numeral_wf (fixed2_numeral s n) = true.
Proof.
  intros Hn. unfold numeral_wf, fixed2_numeral, frac_digits.
  cbn [num_sign num_int num_frac num_exp].
  rewrite decimal_string_digits, two_digits_digits by (apply Z.mod_pos_bound; lia).
  rewrite length_app, two_digits_chars. cbn [length].
  now rewrite Nat.add_comm.
Qed.

Lemma fixed2_numeral_value (s : bool) (n : Z) :
  0 <= n -> numeral_value (fixed2_numeral s n) = float_of_decimal s n (-2).
Proof.
  intros Hn. unfold numeral_value, fixed2_numeral, frac_digits, exp_value.
  cbn [num_sign num_int num_frac num_exp]. rewrite fixed2_value by assumption.
  rewrite two_digits_chars. cbn [length]. now destruct s.
Qed.

(** [float] on a string of hundredths. *)
Lemma float_of_string_fixed2 (s : bool) (n : Z) :
  0 <= n ->
  float_of_string (sign_string s ++ fixed2 n) = Ok (float_of_decimal s n (-2)).
Proof.
  intros Hn.
  rewrite <- (string_of_list_ascii_of_string (sign_string s ++ fixed2 n)).
  rewrite <- fixed2_numeral_chars.
  rewrite <- (app_nil_r (numeral_chars _)), <- (app_nil_l (numeral_chars _ ++ [])).
  rewrite numeral_conversion by (auto using fixed2_numeral_wf).
  now rewrite fixed2_numeral_value.
Qed.

(** C26: [float] reads what ['%.2f'] writes.  For every float [x], the
    string ['%.2f' % x] is accepted by [float]; the result is [x] itself
    when [x] is a NaN, an infinity or a zero (with its sign), and the double
    nearest to the printed hundredths when [x] is finite. *)
Theorem float_of_string_format_f2 (x : float) :
  float_of_string (format_f2 x) = Ok (reread x).
Proof.
  destruct x as [s|s| |s m e]; cbn [format_f2 reread].
  - now destruct s.
  - now destruct s.
  - reflexivity.
  - apply float_of_string_fixed2, hundredths_nonneg.
Qed.

(** ** Integers *)

(** [float] reads the decimal digits of a non-negative integer as the
    double nearest to it. *)
Lemma float_of_string_decimal_string (n : Z) :
  0 <= n -> float_of_string (decimal_string n) = Ok (float_of_decimal false n 0).
Proof.
  intros Hn.
  set (num := {| num_sign := NoSign; num_int := list_ascii_of_string (decimal_string n);
                 num_frac := None; num_exp := None |}).
  assert (numeral_chars num = list_ascii_of_string (decimal_string n)) as Hc
    by (unfold numeral_chars; cbn; now rewrite app_nil_r).
  rewrite <- (string_of_list_ascii_of_string (decimal_string n)), <- Hc.
  rewrite <- (app_nil_r (numeral_chars _)), <- (app_nil_l (numeral_chars _ ++ [])).
  rewrite numeral_conversion; try reflexivity.
  - unfold numeral_value, frac_digits, exp_value, num. cbn [num_sign num_int num_frac num_exp sign_neg length].
    now rewrite app_nil_r, decimal_string_value.
  - unfold numeral_wf, frac_digits, num. cbn [num_sign num_int num_frac num_exp forallb app length].
    rewrite app_nil_r, decimal_string_digits. cbn [andb].
    pose proof (decimal_string_chars_nonempty n). now destruct (list_ascii_of_string _).
Qed.
