(* ===== verification/Runtime.v ===== *)
(** * Runtime: what the script asks of the interpreter's floats

    The script never looks inside a float: it converts a string with
    [float(x)], squares with [x ** 2], multiplies by the literal [3.14159]
    and formats with ['%.2f'].  [PyFloat] is that interface; the script is
    modelled over any instance of it ([Script]), and [CPython] gives the
    instance of double precision.

    [PyFloatLaws] states what the properties of the script need of an
    instance: which exception each operation can raise, how the sign
    travels through the operations, and that the operations stay inside
    the format. *)

From Stdlib Require Import ZArith String Ascii Bool List.
From S2P Require Import Prelude Outcome.

Class PyFloat : Type := {
  (** the values of type [float] *)
  flt : Type;
  (** [float(x)] for a string [x] *)
  flt_of_string : string -> result flt;
  (** the value of a literal [d * 10^e] of the source, [0 <= d] *)
  flt_of_decimal : Z -> Z -> flt;
  (** [x ** 2] *)
  flt_pow2 : flt -> result flt;
  (** [a * b] *)
  flt_mul : flt -> flt -> flt;
  (** ['%.2f' % x] *)
  flt_format_f2 : flt -> string;
  (** the sign bit of a float that is not a NaN *)
  flt_negative : flt -> bool;
  (** the float is a value of the format *)
  flt_valid : flt -> bool
}.

Class PyFloatLaws (F : PyFloat) : Prop := {
  (** [float(x)] raises nothing but [ValueError] *)
  of_string_raises : forall s e, flt_of_string s = Raise e -> e = ValueError;
  (** [x ** 2] raises nothing but [OverflowError] *)
  pow2_raises : forall x e, flt_pow2 x = Raise e -> e = OverflowError;
  (** a square is not negative *)
  pow2_nonneg : forall x y, flt_pow2 x = Ok y -> flt_negative y = false;
  (** a product of non-negative floats is not negative *)
  mul_nonneg : forall a b,
    flt_negative a = false -> flt_negative b = false ->
    flt_negative (flt_mul a b) = false;
  (** a literal is not negative *)
  of_decimal_nonneg : forall d e, flt_negative (flt_of_decimal d e) = false;
  (** a float that is not negative is written without a minus sign *)
  format_nonneg : forall x,
    flt_negative x = false -> starts_with "-" (flt_format_f2 x) = false;
  (** the operations return values of the format *)
  of_string_valid : forall s v, flt_of_string s = Ok v -> flt_valid v = true;
  pow2_valid : forall x y, flt_valid x = true -> flt_pow2 x = Ok y -> flt_valid y = true;
  mul_valid : forall a b,
    flt_valid a = true -> flt_valid b = true -> flt_valid (flt_mul a b) = true;
  of_decimal_valid : forall d e, flt_valid (flt_of_decimal d e) = true
}.
