(* ===== verification/Script.v ===== *)
(** * Script: [area_w_arguments.py]

    The script, statement by statement, over any [PyFloat]:
    - [square] and [circle], the two functions (source lines 5-9, 11-16);
    - [usage_stmt], [square_stmt], [circle_stmt], the three top-level [if]
      statements (lines 18-20, 22-24, 26-31);
    - [main], the three in sequence, from an argument vector [sys.argv].

    [spec_main] is what the script is meant to do: one case split on the
    argument vector with mutually exclusive outcomes.  The source is not
    written that way: the test for ['square'] and the test for ['circle'] are
    two independent [if] statements, every test reads [sys.argv[1]] again,
    and the unknown-shape message hangs on the [elif] of the second one.
    [main_run] proves that the two agree on every argument vector, and the
    properties of the script follow from it. *)

From Stdlib Require Import ZArith String Ascii Bool Lia List.
From S2P Require Import Prelude Outcome Runtime.
Import ListNotations.
Open Scope string_scope.
Open Scope py_scope.

Section Script.
Context {F : PyFloat}.

(** ** The functions *)

(** [def square(x): return x**2] *)
Definition square (x : flt) : py flt :=
  lift (flt_pow2 x).

(** [def circle(r): pi = 3.14159; return pi * r**2] *)
Definition circle (r : flt) : py flt :=
  let pi := flt_of_decimal 314159 (-5) in
  r2 <- lift (flt_pow2 r) ;;
  ret (flt_mul pi r2).

(** ** The statements *)

(** ["Usage: %s shape_name value" % sys.argv[0]] *)
Definition usage_line (prog : string) : string :=
  "Usage: " ++ prog ++ " shape_name value".

(** ['Area = %.2f' % a] *)
Definition area_line (a : flt) : string :=
  "Area = " ++ flt_format_f2 a.

Definition unknown_line : string := "I do not know that shape".

(** [if len(sys.argv) == 1: print(...); exit()] *)
Definition usage_stmt (argv : list string) : py unit :=
  if (len argv =? 1)%Z then
    prog <- lift (subscript argv 0) ;;
    print (usage_line prog) ;;
    py_exit
  else ret tt.

(** [if sys.argv[1] == 'square': x = sys.argv[2];
    print('Area = %.2f' % square(float(x)))] *)
Definition square_stmt (argv : list string) : py unit :=
  shape <- lift (subscript argv 1) ;;
  if shape =? "square" then
    x <- lift (subscript argv 2) ;;
    v <- lift (flt_of_string x) ;;
    a <- square v ;;
    print (area_line a)
  else ret tt.

(** [if sys.argv[1] == 'circle': x = sys.argv[2];
    print('Area = %.2f' % circle(float(x)))
    elif (sys.argv[1] != 'square') & (sys.argv[1] != 'circle'):
    print('I do not know that shape')] *)
Definition circle_stmt (argv : list string) : py unit :=
  shape <- lift (subscript argv 1) ;;
  if shape =? "circle" then
    x <- lift (subscript argv 2) ;;
    v <- lift (flt_of_string x) ;;
    a <- circle v ;;
    print (area_line a)
  else
    l <- lift (subscript argv 1) ;;
    r <- lift (subscript argv 1) ;;
    if negb (l =? "square") && negb (r =? "circle") then
      print unknown_line
    else ret tt.

(** The script. *)
Definition main (argv : list string) : py unit :=
  usage_stmt argv ;;
  square_stmt argv ;;
  circle_stmt argv.

(** ** The specification *)

(** The area of a shape, as a value: the square, and the square times the
    literal. *)
Definition square_value (x : flt) : result flt := flt_pow2 x.

Definition circle_value (r : flt) : result flt :=
  match flt_pow2 r with
  | Ok r2 => Ok (flt_mul (flt_of_decimal 314159 (-5)) r2)
  | Raise e => Raise e
  end.

(** What a run leaves: its result and the lines it printed. *)
Definition behaviour : Type := result unit * stdout.

(** The outcome for a recognised shape, from the arguments after it: the
    first is converted and the area printed; a missing argument, a
    conversion that fails and an area that overflows end the run with
    nothing printed. *)
Definition spec_area (area : flt -> result flt) (rest : list string) : behaviour :=
  match rest with
  | [] => (Raise IndexError, [])
  | x :: _ =>
    match flt_of_string x with
    | Raise e => (Raise e, [])
    | Ok v =>
      match area v with
      | Raise e => (Raise e, [])
      | Ok a => (Ok tt, [area_line a])
      end
    end
  end.

(** The outcome for a shape name and the arguments after it. *)
Definition spec_main_tail (shape : string) (rest : list string) : behaviour :=
  if shape =? "square" then spec_area square_value rest
  else if shape =? "circle" then spec_area circle_value rest
  else (Ok tt, [unknown_line]).

(** The outcome of the script, by cases on the argument vector. *)
Definition spec_main (argv : list string) : behaviour :=
  match argv with
  | [] => (Raise IndexError, [])
  | [prog] => (Raise SystemExit, [usage_line prog])
  | _ :: shape :: rest => spec_main_tail shape rest
  end.

(** The recognised shapes. *)
Definition recognised (shape : string) : bool :=
  (shape =? "square") || (shape =? "circle").

(** [raise_cause argv e]: the one way a run on [argv] ends with [e].
    [SystemExit] comes from the usage path; [IndexError] from an empty
    vector or from a recognised shape without a value; [ValueError] from
    [float(x)] on the value of a recognised shape; [OverflowError] from
    [** 2] on the float that value converts to. *)
Inductive raise_cause : list string -> exn -> Prop :=
| cause_usage prog :
    raise_cause [prog] SystemExit
| cause_no_argv :
    raise_cause [] IndexError
| cause_no_value prog shape :
    recognised shape = true ->
    raise_cause [prog; shape] IndexError
| cause_not_a_number prog shape x rest :
    recognised shape = true ->
    flt_of_string x = Raise ValueError ->
    raise_cause (prog :: shape :: x :: rest) ValueError
| cause_overflow prog shape x rest v :
    recognised shape = true ->
    flt_of_string x = Ok v ->
    flt_pow2 v = Raise OverflowError ->
    raise_cause (prog :: shape :: x :: rest) OverflowError.

(** The floats the script prints: values of the format that are not
    negative. *)
Definition printable (a : flt) : Prop :=
  flt_valid a = true /\ flt_negative a = false.

(** [after out b]: the behaviour [b] of a run that starts with [out] already
    printed. *)
Definition after (out : stdout) (b : behaviour) : behaviour :=
  (fst b, (out ++ snd b)%list).

(** ** The script refines the specification *)

Lemma len_two_more {A} (a b : A) l : (len (a :: b :: l) =? 1)%Z = false.
Proof. apply Z.eqb_neq. unfold len. cbn [length]. lia. Qed.

Lemma len_single {A} (a : A) : (len [a] =? 1)%Z = true.
Proof. reflexivity. Qed.

Lemma len_nil {A} : (len (@nil A) =? 1)%Z = false.
Proof. reflexivity. Qed.

(** The functions print nothing and return the specified values. *)
Lemma run_square (x : flt) out : run (square x) out = (square_value x, out).
Proof. reflexivity. Qed.

Lemma run_circle (r : flt) out : run (circle r) out = (circle_value r, out).
Proof. unfold circle, circle_value. py_unfold. now destruct (flt_pow2 r). Qed.

(** Each statement, on each shape of the argument vector. *)
Lemma run_usage_single prog out :
  run (usage_stmt [prog]) out = (Raise SystemExit, (out ++ [usage_line prog])%list).
Proof. reflexivity. Qed.

Lemma run_usage_other argv out :
  (len argv =? 1)%Z = false -> run (usage_stmt argv) out = (Ok tt, out).
Proof. unfold usage_stmt. now intros ->. Qed.

Lemma run_area_stmt (area : flt -> py flt) (value : flt -> result flt) rest out p shape :
  (forall v o, run (area v) o = (value v, o)) ->
  run (x <- lift (subscript (p :: shape :: rest) 2) ;;
       v <- lift (flt_of_string x) ;;
       a <- area v ;;
       print (area_line a)) out
  = after out (spec_area value rest).
Proof.
  intros Harea. unfold after, spec_area.
  destruct rest as [|x rest].
  - unfold run, bind. rewrite subscript_2_pair. cbn. now rewrite app_nil_r.
  - unfold run, bind. rewrite subscript_2. cbn [lift].
    destruct (flt_of_string x) as [v|e]; cbn; [|now rewrite app_nil_r].
    change (area v out) with (run (area v) out). rewrite Harea.
    destruct (value v); cbn; [reflexivity | now rewrite app_nil_r].
Qed.

Lemma run_square_stmt p shape rest out :
  run (square_stmt (p :: shape :: rest)) out =
  if shape =? "square" then after out (spec_area square_value rest) else (Ok tt, out).
Proof.
  unfold square_stmt. unfold run at 1, bind at 1. rewrite subscript_1. cbn [lift].
  destruct (shape =? "square"); [|reflexivity].
  apply (run_area_stmt square square_value). apply run_square.
Qed.

Lemma run_circle_stmt p shape rest out :
  run (circle_stmt (p :: shape :: rest)) out =
  if shape =? "circle" then after out (spec_area circle_value rest)
  else if shape =? "square" then (Ok tt, out)
  else (Ok tt, (out ++ [unknown_line])%list).
Proof.
  unfold circle_stmt. unfold run at 1, bind at 1. rewrite subscript_1. cbn [lift].
  destruct (shape =? "circle") eqn:Hc.
  - apply (run_area_stmt circle circle_value). apply run_circle.
  - unfold run, bind. cbn [lift]. rewrite Hc.
    now destruct (shape =? "square").
Qed.

(** A shape cannot be both. *)
Lemma square_not_circle shape :
  (shape =? "square") = true -> (shape =? "circle") = false.
Proof. intros H. apply String.eqb_eq in H. now subst. Qed.

(** Refinement: from any output, a run of [main] is the behaviour
    [spec_main] gives, after that output. *)
Lemma main_run argv out : run (main argv) out = after out (spec_main argv).
Proof.
  destruct argv as [|p [|shape rest]].
  - unfold main, after. cbn. now rewrite app_nil_r.
  - reflexivity.
  - unfold main. unfold run at 1, bind at 1.
    change (usage_stmt ?a out) with (run (usage_stmt a) out).
    rewrite run_usage_other by apply len_two_more.
    unfold bind. change (square_stmt ?a out) with (run (square_stmt a) out).
    rewrite run_square_stmt. cbn [spec_main]. unfold spec_main_tail.
    destruct (shape =? "square") eqn:Hs.
    + destruct (spec_area square_value rest) as [[[]|e] o] eqn:E; unfold after; cbn [fst snd];
        [|reflexivity].
      change (circle_stmt ?a ?o) with (run (circle_stmt a) o).
      rewrite run_circle_stmt, (square_not_circle _ Hs), Hs. reflexivity.
    + change (circle_stmt ?a ?o) with (run (circle_stmt a) o).
      rewrite run_circle_stmt, Hs. now destruct (shape =? "circle").
Qed.

(** ** Consequences *)

(** What the specification prints: nothing when it raises an error, one line
    otherwise. *)
Lemma spec_area_lines area rest :
  snd (spec_area area rest) =
  match fst (spec_area area rest) with
  | Ok _ => snd (spec_area area rest)
  | Raise _ => []
  end.
Proof. unfold spec_area. now repeat destr_match. Qed.

Lemma spec_main_length argv : (length (snd (spec_main argv)) <= 1)%nat.
Proof.
  unfold spec_main, spec_main_tail, spec_area. repeat destr_match; cbn [snd length]; lia.
Qed.

Lemma spec_main_error_silent argv :
  is_error (fst (spec_main argv)) = true -> snd (spec_main argv) = [].
Proof.
  unfold spec_main, spec_main_tail, spec_area. repeat destr_match; cbn [fst snd is_error];
    intros H; try discriminate; reflexivity.
Qed.

(** C1: refinement of the specification by the script.  From any
    output already printed and on every argument vector, the three [if]
    statements of the script, run in sequence, end with the result and print
    the lines that the exhaustive case split [spec_main] gives. *)
Theorem main_refines_spec (argv : list string) (out : stdout) :
  run (main argv) out = after out (spec_main argv).
Proof. apply main_run. Qed.

(** A run does not look at the output it starts from.  What a run
    returns does not depend on what was printed before it, and what it
    leaves on standard output is what was there followed by what it prints
    from an empty output: nothing is read back, nothing erased. *)
Lemma main_frame (argv : list string) (out : stdout) :
  run (main argv) out =
  (fst (run (main argv) []), (out ++ snd (run (main argv) []))%list).
Proof. now rewrite !main_run. Qed.

(** C3: a run prints at most one line.  Whatever the arguments, the output
    after the run is the output before it followed by no line or by one
    line: the usage line, an area line and the unknown-shape line never come
    together. *)
Theorem main_prints_at_most_one_line (argv : list string) (out : stdout) :
  exists lines,
    snd (run (main argv) out) = (out ++ lines)%list /\ (length lines <= 1)%nat.
Proof.
  rewrite main_run. exists (snd (spec_main argv)).
  split; [reflexivity | apply spec_main_length].
Qed.

(** C4: a run that ends with an error prints nothing.  When an exception
    other than [SystemExit] reaches the top level ([IndexError] for a missing
    argument, [ValueError] for a value that is not a number,
    [OverflowError] for a square out of range), standard output is what it
    was before the run: no [Area =] line, no message. *)
Theorem main_error_prints_nothing (argv : list string) (out : stdout) :
  is_error (fst (run (main argv) out)) = true ->
  snd (run (main argv) out) = out.
Proof.
  rewrite main_run. unfold after. cbn [fst snd]. intros H.
  rewrite (spec_main_error_silent _ H). apply app_nil_r.
Qed.

(** C8: the usage path.  With the program name as only argument the script
    prints [Usage: <program> shape_name value] and calls [exit()]: the run
    ends with [SystemExit], whose exit status is 0, and nothing after the
    usage test is executed. *)
Theorem main_usage (prog : string) (out : stdout) :
  run (main [prog]) out = (Raise SystemExit, (out ++ [usage_line prog])%list) /\
  exit_status (fst (run (main [prog]) out)) = 0%Z.
Proof. now rewrite main_run. Qed.

(** C7: the unknown-shape path.  When the first argument is neither
    ['square'] nor ['circle'] the script prints [I do not know that shape]
    and completes, whether or not a value follows: the value is never
    read. *)
Theorem main_unknown_shape (prog shape : string) (rest : list string) (out : stdout) :
  (shape =? "square") = false -> (shape =? "circle") = false ->
  run (main (prog :: shape :: rest)) out = (Ok tt, (out ++ [unknown_line])%list).
Proof. intros Hs Hc. rewrite main_run. cbn [spec_main]. unfold spec_main_tail. now rewrite Hs, Hc. Qed.

(** C5: the square path.  With ['square'] and a value [x], the outcome is
    that of [float(x)] then [x ** 2]: the area line when both succeed, the
    exception of the first that fails otherwise, with nothing printed;
    arguments after the value are ignored. *)
Theorem main_square (prog x : string) (rest : list string) (out : stdout) :
  run (main (prog :: "square" :: x :: rest)) out =
  match flt_of_string x with
  | Raise e => (Raise e, out)
  | Ok v =>
    match flt_pow2 v with
    | Raise e => (Raise e, out)
    | Ok a => (Ok tt, (out ++ [area_line a])%list)
    end
  end.
Proof.
  rewrite main_run. cbn [spec_main spec_main_tail String.eqb Ascii.eqb Bool.eqb spec_area].
  unfold square_value, after.
  repeat destr_match; cbn [fst snd]; now rewrite ?app_nil_r.
Qed.

(** C6: the circle path.  With ['circle'] and a value [x], the outcome is
    that of [float(x)], then [r ** 2], then the product with the literal
    [3.14159], which raises nothing: the area line when the first two
    succeed, the exception of the first that fails otherwise, with nothing
    printed. *)
Theorem main_circle (prog x : string) (rest : list string) (out : stdout) :
  run (main (prog :: "circle" :: x :: rest)) out =
  match flt_of_string x with
  | Raise e => (Raise e, out)
  | Ok v =>
    match flt_pow2 v with
    | Raise e => (Raise e, out)
    | Ok r2 =>
      (Ok tt, (out ++ [area_line (flt_mul (flt_of_decimal 314159 (-5)) r2)])%list)
    end
  end.
Proof.
  rewrite main_run. cbn [spec_main spec_main_tail String.eqb Ascii.eqb Bool.eqb spec_area].
  unfold circle_value, after.
  repeat destr_match; cbn [fst snd]; now rewrite ?app_nil_r.
Qed.

(** C9: a recognised shape without a value.  [sys.argv[2]] raises
    [IndexError] before anything is printed, for ['square'] and for
    ['circle'], and the exit status is 1. *)
Theorem main_missing_value (prog : string) (out : stdout) :
  run (main [prog; "square"]) out = (Raise IndexError, out) /\
  run (main [prog; "circle"]) out = (Raise IndexError, out) /\
  exit_status (@Raise unit IndexError) = 1%Z.
Proof. rewrite !main_run. unfold after. cbn. now rewrite app_nil_r. Qed.

(** C32: an empty argument vector.  [len(sys.argv) == 1] is false and
    [sys.argv[1]] raises [IndexError]: the usage line is printed for a
    vector of length one only. *)
Theorem main_no_argv (out : stdout) :
  run (main []) out = (Raise IndexError, out).
Proof. rewrite main_run. unfold after. cbn. now rewrite app_nil_r. Qed.

(** C31: arguments after the value are ignored.  A run with a shape, a
    value and further arguments is the run with the shape and the value
    alone: no subscript beyond [sys.argv[2]] is evaluated and the length of
    the vector is compared with 1 only. *)
Theorem main_extra_arguments_ignored (prog shape x : string) (rest : list string)
  (out : stdout) :
  run (main (prog :: shape :: x :: rest)) out = run (main [prog; shape; x]) out.
Proof. now rewrite !main_run. Qed.

(** Why the specification raises: each exception has one cause. *)
Lemma spec_area_raises area rest e :
  fst (spec_area area rest) = Raise e ->
  (e = IndexError /\ rest = []) \/
  (exists x rest', rest = x :: rest' /\
     (flt_of_string x = Raise e \/
      exists v, flt_of_string x = Ok v /\ area v = Raise e)).
Proof.
  unfold spec_area. destruct rest as [|x rest']; cbn [fst].
  - intros H. inv H. auto.
  - destruct (flt_of_string x) as [v|e1] eqn:Hx; cbn [fst].
    + destruct (area v) as [a|e2] eqn:Ha; cbn [fst]; intros H; inv H.
      right. exists x, rest'. split; [reflexivity|]. right. eauto.
    + intros H. inv H. right. exists x, rest'. auto.
Qed.

Lemma circle_value_raises r e :
  circle_value r = Raise e -> flt_pow2 r = Raise e.
Proof. unfold circle_value. destruct (flt_pow2 r); intros H; now inv H. Qed.

Section Laws.
Context {L : PyFloatLaws F}.

(** Under the laws, the causes by exception class. *)
Lemma spec_area_raises_cases area rest e :
  (forall v e', area v = Raise e' -> flt_pow2 v = Raise e') ->
  fst (spec_area area rest) = Raise e ->
  (e = IndexError /\ rest = []) \/
  (e = ValueError /\ exists x rest', rest = x :: rest' /\
     flt_of_string x = Raise ValueError) \/
  (e = OverflowError /\ exists x rest' v, rest = x :: rest' /\
     flt_of_string x = Ok v /\ flt_pow2 v = Raise OverflowError).
Proof.
  intros Harea H. apply spec_area_raises in H.
  destruct H as [[-> ->] | (x & rest' & -> & [Hx | (v & Hx & Hv)])]; [auto| |].
  - pose proof (of_string_raises _ _ Hx). subst e. right. left. eauto.
  - apply Harea in Hv. pose proof (pow2_raises _ _ Hv). subst e.
    right. right. split; [reflexivity|]. eauto 6.
Qed.

(** The area function of a recognised shape raises what [** 2] raises. *)
Lemma recognised_area shape rest :
  recognised shape = true ->
  exists area, (forall v e', area v = Raise e' -> flt_pow2 v = Raise e') /\
    spec_main_tail shape rest = spec_area area rest.
Proof.
  unfold recognised, spec_main_tail. intros Hrec. destruct (shape =? "square").
  - exists square_value. auto.
  - cbn in Hrec. rewrite Hrec. exists circle_value.
    split; [apply circle_value_raises | reflexivity].
Qed.

(** A cause makes the specification raise (no law is needed). *)
Lemma raise_cause_spec argv e : raise_cause argv e -> fst (spec_main argv) = Raise e.
Proof.
  intros H. destruct H as [prog| |prog shape Hrec|prog shape x rest Hrec Hx
                           |prog shape x rest v Hrec Hx Hv];
    cbn [spec_main fst]; try reflexivity;
    unfold recognised in Hrec; unfold spec_main_tail, spec_area, square_value, circle_value;
    destruct (shape =? "square"); cbn in Hrec; rewrite ?Hrec, ?Hx, ?Hv; reflexivity.
Qed.

(** The specification raises [e] exactly on a cause of [e]. *)
Lemma spec_main_raises_iff (argv : list string) (e : exn) :
  fst (spec_main argv) = Raise e <-> raise_cause argv e.
Proof.
  split; [|apply raise_cause_spec].
  destruct argv as [|prog [|shape rest]]; cbn [spec_main fst].
  - intros H. inv H. constructor.
  - intros H. inv H. constructor.
  - destruct (recognised shape) eqn:Hrec.
    + destruct (recognised_area shape rest Hrec) as (area & Ha & ->). intros Hr.
      destruct (spec_area_raises_cases area rest e Ha Hr)
        as [[-> ->] | [(-> & x & r & -> & Hx) | (-> & x & r & v & -> & Hx & Hv)]];
        econstructor; eassumption.
    + unfold recognised in Hrec. apply orb_false_iff in Hrec as [Hs Hc].
      unfold spec_main_tail. rewrite Hs, Hc. intros H. inv H.
Qed.

(** C2: every exception of a run has exactly one cause.  A run ends with
    the exception [e] if and only if [raise_cause argv e]: [SystemExit] on
    the usage path, [IndexError] on an empty vector or a recognised shape
    without a value, [ValueError] when [float(x)] fails on the value of a
    recognised shape, [OverflowError] when [** 2] overflows on it.  No other
    exception is raised, and an unknown shape raises none. *)
Theorem main_raises_iff (argv : list string) (out : stdout) (e : exn) :
  fst (run (main argv) out) = Raise e <-> raise_cause argv e.
Proof. rewrite main_run. apply spec_main_raises_iff. Qed.

(** C10: the exit status.  The process ends with status 1 exactly when an
    exception other than [SystemExit] has a cause on the argument vector (an
    empty vector, a recognised shape without a value, a value that is not
    a number, a square out of range), and with status 0 otherwise: on the
    usage path, on an unknown shape and when an area is printed. *)
Theorem main_exit_status (argv : list string) (out : stdout) :
  (exit_status (fst (run (main argv) out)) = 1%Z <->
   exists e, e <> SystemExit /\ raise_cause argv e) /\
  (exit_status (fst (run (main argv) out)) = 0%Z \/
   exit_status (fst (run (main argv) out)) = 1%Z).
Proof.
  split; [|apply exit_status_range].
  rewrite main_run. unfold after. cbn [fst]. rewrite exit_status_error, is_error_iff.
  split; intros (e & He & H); exists e; (split; [exact He|]); now apply spec_main_raises_iff.
Qed.

(** What the specification prints on a recognised shape is an area line,
    of a float with every property [P] that the area function establishes
    from a property [Q] of the converted argument. *)
Lemma spec_area_inv (P Q : flt -> Prop) area rest line :
  (forall x v, flt_of_string x = Ok v -> Q v) ->
  (forall v a, Q v -> area v = Ok a -> P a) ->
  In line (snd (spec_area area rest)) ->
  exists a, line = area_line a /\ P a.
Proof.
  intros Hconv Harea. unfold spec_area. destruct rest as [|x rest]; [intros []|].
  destruct (flt_of_string x) as [v|] eqn:Hx; [|intros []].
  destruct (area v) as [a|] eqn:Ha; [|intros []].
  intros [<- | []]. eauto.
Qed.

Lemma square_value_nonneg v a : square_value v = Ok a -> flt_negative a = false.
Proof. apply pow2_nonneg. Qed.

Lemma circle_value_nonneg v a : circle_value v = Ok a -> flt_negative a = false.
Proof.
  unfold circle_value. destruct (flt_pow2 v) as [r2|] eqn:E; intros H; inv H.
  apply mul_nonneg; [apply of_decimal_nonneg | eapply pow2_nonneg; eassumption].
Qed.

Lemma area_line_no_minus a :
  flt_negative a = false -> starts_with "Area = -" (area_line a) = false.
Proof.
  intros H. unfold area_line. cbn. apply format_nonneg in H.
  destruct (flt_format_f2 a); [reflexivity|]. cbn in *.
  rewrite andb_true_r in *. assumption.
Qed.

Lemma square_value_valid v a :
  flt_valid v = true -> square_value v = Ok a -> flt_valid a = true.
Proof. apply pow2_valid. Qed.

Lemma circle_value_valid v a :
  flt_valid v = true -> circle_value v = Ok a -> flt_valid a = true.
Proof.
  intros Hv. unfold circle_value. destruct (flt_pow2 v) as [r2|] eqn:E; intros H; inv H.
  apply mul_valid; [apply of_decimal_valid | eapply pow2_valid; eassumption].
Qed.

(** What the specification prints on a shape name and its arguments. *)
Lemma spec_main_tail_forms shape rest line :
  In line (snd (spec_main_tail shape rest)) ->
  line = unknown_line \/ exists a, line = area_line a /\ printable a.
Proof.
  unfold spec_main_tail. intros H.
  destruct (shape =? "square"); [|destruct (shape =? "circle")].
  - right. apply (spec_area_inv printable (fun v => flt_valid v = true)) in H;
      [assumption | apply of_string_valid |].
    intros v a Hv Ha. split; [eapply square_value_valid | eapply square_value_nonneg]; eassumption.
  - right. apply (spec_area_inv printable (fun v => flt_valid v = true)) in H;
      [assumption | apply of_string_valid |].
    intros v a Hv Ha. split; [eapply circle_value_valid | eapply circle_value_nonneg]; eassumption.
  - left. now destruct H as [<- | []].
Qed.

(** C11: the lines a run can print.  Every line of the output is the usage
    line of the program name, the unknown-shape message, or [Area = ]
    followed by ['%.2f'] of a float that is a value of the format and is not
    negative: no operation of the script leaves the format, and no area is
    negative. *)
Theorem main_output_forms (argv : list string) (line : string) :
  In line (snd (run (main argv) [])) ->
  (exists prog, argv = [prog] /\ line = usage_line prog) \/
  line = unknown_line \/
  exists a, line = area_line a /\ flt_valid a = true /\ flt_negative a = false.
Proof.
  rewrite main_run. unfold after. cbn [snd app].
  destruct argv as [|prog [|shape rest]]; cbn [spec_main snd In]; [tauto| |].
  - intros [<- | []]. eauto.
  - intros H. right. apply spec_main_tail_forms in H as [H|(a & H & Hv & Hn)]; eauto.
Qed.

(** C30: a printed area is never negative.  Whatever the arguments, no
    line the script prints starts with [Area = -]: a square is not negative,
    the literal [3.14159] is not, their product is not, and ['%.2f'] writes
    a minus sign for a set sign bit only.  (A negative value squares to a
    positive area; [-0.0] squares to [0.0].) *)
Theorem main_area_not_negative (argv : list string) (line : string) :
  In line (snd (run (main argv) [])) -> starts_with "Area = -" line = false.
Proof.
  rewrite main_run. unfold after. cbn [snd app].
  destruct argv as [|prog [|shape rest]]; cbn [spec_main snd In]; [tauto| |].
  - intros [<- | []]. reflexivity.
  - intros H. apply spec_main_tail_forms in H as [->|(a & -> & _ & Hn)]; [reflexivity|].
    now apply area_line_no_minus.
Qed.

End Laws.

End Script.
