(* ===== verification/CPython.v ===== *)
(** * CPython: the floats of the interpreter as an instance of [PyFloat]

    [float(x)] is [FloatParse.float_of_string], [x ** 2] is
    [Binary64.float_pow2] over the C library [M], [a * b] is
    [Binary64.float_mul], ['%.2f' % x] is [FloatFormat.format_f2], and a
    literal of the source is the double nearest to it.  The laws of
    [PyFloatLaws] are the lemmas of those files; they hold for every C
    library whose [pow] satisfies [LibmFaithful]. *)

From Stdlib Require Import ZArith String Ascii Bool Lia SpecFloat List.
From S2P Require Import Prelude Outcome Rounding Binary64 Validity FloatParse FloatFormat Runtime.

Definition cpython_float {M : Libm} : PyFloat := {|
  flt := float;
  flt_of_string := float_of_string;
  flt_of_decimal := float_of_decimal false;
  flt_pow2 := float_pow2;
  flt_mul := float_mul;
  flt_format_f2 := format_f2;
  flt_negative := negative;
  flt_valid := valid
|}.

#[export] Existing Instance cpython_float.

Lemma cpython_float_laws {M : Libm} {MF : LibmFaithful M} : PyFloatLaws cpython_float.
Proof.
  constructor; cbn.
  - exact float_of_string_raises.
  - intros x e H. now apply float_pow2_raises in H.
  - exact float_pow2_negative.
  - exact float_mul_nonneg.
  - intros d e. apply float_of_decimal_negative.
  - exact format_f2_nonneg.
  - exact float_of_string_valid_ok.
  - exact float_pow2_valid.
  - exact float_mul_valid.
  - intros d e. apply float_of_decimal_valid.
Qed.

#[export] Existing Instance cpython_float_laws.
