(* ===== verification/Program.v ===== *)
(** * Program: the script on CPython's floats

    [Script] at the instance [CPython.cpython_float], for every C library
    that satisfies [Binary64.LibmFaithful]: a run is the run with the
    library that rounds squares down or the run with the one that rounds
    them up ([run_down_or_up]), so a run on which these two agree is the
    run with every such library ([run_settled]).  With this the file
    proves the runs the specification of the repository lists as test
    cases, the behaviours it does not list (a square that overflows raises
    [OverflowError], a circle whose area overflows prints [Area = inf], a
    NaN prints [Area = nan]), the agreement with the interpreter on a table
    of reference values, the exact output on integer arguments
    ([square_of_integer], [circle_of_integer]), an argument on which
    [x ** 2] and [x * x] differ ([square_is_not_product]), the outcome of
    a run on any value ([run_outcomes]), the shape of every line printed
    ([printed_area_two_decimals]), and that every float of a run is a
    double.  It ends with the general
    theorems of the other files applied to concrete inputs, at the library
    that rounds to nearest. *)

From Stdlib Require Import ZArith String Ascii Bool Lia SpecFloat List.
From S2P Require Import Prelude Outcome Rounding Binary64 Validity Accuracy Integers.
From S2P Require Import FloatParse FloatFormat Circle RoundTrip.
From S2P Require Import Runtime Script CPython.
Import ListNotations.
Open Scope string_scope.

(** The script on CPython's floats with the C library [M], from an empty
    standard output. *)
Definition area_w_arguments {M : Libm} (argv : list string) : behaviour :=
  run (main argv) [].

(** What a run shows: the line it printed when it completed after one
    line, the exception when it raised with nothing printed. *)
Definition observed (b : behaviour) : option (result string) :=
  match b with
  | (Ok tt, [l]) => Some (Ok l)
  | (Raise e, []) => Some (Raise e)
  | _ => None
  end.

(** Values of the second argument, each with what the interpreter shows
    for [square] and for [circle] on it; the expected outcomes were computed
    with CPython's own [float], [**], [*] and ['%.2f'].  The table holds the
    values on which the outcome does not depend on which neighbour of the
    exact square [pow] returns. *)
Definition reference_runs : list (string * result string * result string) :=
  [
  ("4", Ok "Area = 16.00", Ok "Area = 50.27");
  ("2", Ok "Area = 4.00", Ok "Area = 12.57");
  ("0", Ok "Area = 0.00", Ok "Area = 0.00");
  ("-0", Ok "Area = 0.00", Ok "Area = 0.00");
  ("-3", Ok "Area = 9.00", Ok "Area = 28.27");
  ("1.5", Ok "Area = 2.25", Ok "Area = 7.07");
  ("+1.5E-3", Ok "Area = 0.00", Ok "Area = 0.00");
  (".5", Ok "Area = 0.25", Ok "Area = 0.79");
  ("5.", Ok "Area = 25.00", Ok "Area = 78.54");
  ("1e2", Ok "Area = 10000.00", Ok "Area = 31415.90");
  (" 7 ", Ok "Area = 49.00", Ok "Area = 153.94");
  ("1_0", Ok "Area = 100.00", Ok "Area = 314.16");
  ("1_000.25", Ok "Area = 1000500.06", Ok "Area = 3143160.99");
  ("1__0", Raise ValueError, Raise ValueError);
  ("_1", Raise ValueError, Raise ValueError);
  ("1_", Raise ValueError, Raise ValueError);
  ("1e", Raise ValueError, Raise ValueError);
  ("e5", Raise ValueError, Raise ValueError);
  (EmptyString, Raise ValueError, Raise ValueError);
  ("abc", Raise ValueError, Raise ValueError);
  ("0x10", Raise ValueError, Raise ValueError);
  ("1,5", Raise ValueError, Raise ValueError);
  ("1.2.3", Raise ValueError, Raise ValueError);
  ("--1", Raise ValueError, Raise ValueError);
  ("+-1", Raise ValueError, Raise ValueError);
  ("1e+", Raise ValueError, Raise ValueError);
  ("1e-", Raise ValueError, Raise ValueError);
  ("nan", Ok "Area = nan", Ok "Area = nan");
  ("NaN", Ok "Area = nan", Ok "Area = nan");
  ("-nan", Ok "Area = nan", Ok "Area = nan");
  ("inf", Ok "Area = inf", Ok "Area = inf");
  ("-inf", Ok "Area = inf", Ok "Area = inf");
  ("Infinity", Ok "Area = inf", Ok "Area = inf");
  ("+INFINITY", Ok "Area = inf", Ok "Area = inf");
  ("infinit", Raise ValueError, Raise ValueError);
  ("1e400", Ok "Area = inf", Ok "Area = inf");
  ("-1e400", Ok "Area = inf", Ok "Area = inf");
  ("1e-400", Ok "Area = 0.00", Ok "Area = 0.00");
  ("1.3407807929942597e154", Raise OverflowError, Raise OverflowError);
  ("1e200", Raise OverflowError, Raise OverflowError);
  ("-1e200", Raise OverflowError, Raise OverflowError);
  ("0.125", Ok "Area = 0.02", Ok "Area = 0.05");
  ("0.375", Ok "Area = 0.14", Ok "Area = 0.44");
  ("2.5", Ok "Area = 6.25", Ok "Area = 19.63");
  ("0.005", Ok "Area = 0.00", Ok "Area = 0.00");
  ("0.015", Ok "Area = 0.00", Ok "Area = 0.00");
  ("1e-3", Ok "Area = 0.00", Ok "Area = 0.00");
  ("94906265", Ok "Area = 9007199136250225.00", Ok "Area = 28296926734452344.00");
  ("94906266", Ok "Area = 9007199326062756.00", Ok "Area = 28296927330765492.00");
  ("9007199254740993", Ok "Area = 81129638414606681695789005144064.00", Ok "Area = 254876060746944195625542152617984.00");
  ("0.1", Ok "Area = 0.01", Ok "Area = 0.03");
  ("0.7", Ok "Area = 0.49", Ok "Area = 1.54");
  ("1.005", Ok "Area = 1.01", Ok "Area = 3.17");
  ("3.14159", Ok "Area = 9.87", Ok "Area = 31.01");
  ("100000", Ok "Area = 10000000000.00", Ok "Area = 31415900000.00");
  ("50", Ok "Area = 2500.00", Ok "Area = 7853.97");
  ("4.35", Ok "Area = 18.92", Ok "Area = 59.45");
  ("2.675", Ok "Area = 7.16", Ok "Area = 22.48");
  ("1e-320", Ok "Area = 0.00", Ok "Area = 0.00");
  ("4.9e-324", Ok "Area = 0.00", Ok "Area = 0.00");
  ("2e-324", Ok "Area = 0.00", Ok "Area = 0.00");
  ("179769313486231570814527423731704356798070567525844996598917476803157260780028538760589558632766878171540458953514382464234321326889464182768467546703537516986049910576551282076245490090389328944075868508455133942304583236903222948165808559332123348274797826204144723168738177180919299881250404026184124858368", Raise OverflowError, Raise OverflowError);
  ("1.0000000000000002", Ok "Area = 1.00", Ok "Area = 3.14");
  ("0.99999999999999994", Ok "Area = 1.00", Ok "Area = 3.14");
  ("  -2.50  ", Ok "Area = 6.25", Ok "Area = 19.63");
  ("1E5", Ok "Area = 10000000000.00", Ok "Area = 31415900000.00");
  ("1e+05", Ok "Area = 10000000000.00", Ok "Area = 31415900000.00");
  ("00012", Ok "Area = 144.00", Ok "Area = 452.39");
  ("-.5e1", Ok "Area = 25.00", Ok "Area = 78.54");
  ("1.e1", Ok "Area = 100.00", Ok "Area = 314.16")
  ].

(** ** Runs and the C library *)

(** The area of a shape with the library [M] is the area with the library
    that rounds down, or the area with the one that rounds up. *)
Lemma spec_area_down_or_up {M : Libm} {MF : LibmFaithful M} (circle : bool) (rest : list string) :
  let area (N : Libm) :=
    spec_area (F := cpython_float (M := N))
              (if circle then circle_value else square_value) rest in
  area M = area libm_down \/ area M = area libm_up.
Proof.
  intros area. subst area. cbv beta.
  destruct rest as [|x rest]; [left; reflexivity|].
  cbn [spec_area flt_of_string cpython_float].
  destruct (float_of_string x) as [v|e]; [|left; reflexivity].
  destruct circle; unfold circle_value, square_value; cbn [flt_pow2 cpython_float];
    unfold libm_down, libm_up;
    rewrite (float_pow2_libm_of floor_pick) by apply floor_is_pick;
    rewrite (float_pow2_libm_of ceil_pick) by apply ceil_is_pick;
    destruct (float_pow2_down_or_up v) as [-> | ->]; auto.
Qed.

Lemma spec_main_down_or_up {M : Libm} {MF : LibmFaithful M} (argv : list string) :
  spec_main (F := cpython_float (M := M)) argv = spec_main (F := cpython_float (M := libm_down)) argv \/
  spec_main (F := cpython_float (M := M)) argv = spec_main (F := cpython_float (M := libm_up)) argv.
Proof.
  destruct argv as [|p [|shape rest]]; try (left; reflexivity).
  cbn [spec_main]. unfold spec_main_tail.
  destruct (shape =? "square"); [apply (spec_area_down_or_up false)|].
  destruct (shape =? "circle"); [apply (spec_area_down_or_up true)|].
  left; reflexivity.
Qed.

Section Runs.
Context {M : Libm} {MF : LibmFaithful M}.

(** A run is the run with squares rounded down, or the run with squares
    rounded up. *)
Lemma run_down_or_up (argv : list string) :
  area_w_arguments argv = area_w_arguments (M := libm_down) argv \/
  area_w_arguments argv = area_w_arguments (M := libm_up) argv.
Proof.
  unfold area_w_arguments. rewrite !main_run.
  destruct (spec_main_down_or_up argv) as [-> | ->]; auto.
Qed.

(** A run on which the two roundings agree is the run with every
    library. *)
Lemma run_settled (argv : list string) (b : behaviour) :
  area_w_arguments (M := libm_down) argv = b ->
  area_w_arguments (M := libm_up) argv = b ->
  area_w_arguments argv = b.
Proof. intros Hd Hu. destruct (run_down_or_up argv) as [-> | ->]; assumption. Qed.

Lemma observed_settled (argv : list string) (o : option (result string)) :
  observed (area_w_arguments (M := libm_down) argv) = o ->
  observed (area_w_arguments (M := libm_up) argv) = o ->
  observed (area_w_arguments argv) = o.
Proof. intros Hd Hu. destruct (run_down_or_up argv) as [-> | ->]; assumption. Qed.

Lemma status_settled (argv : list string) (k : Z) :
  exit_status (fst (area_w_arguments (M := libm_down) argv)) = k ->
  exit_status (fst (area_w_arguments (M := libm_up) argv)) = k ->
  exit_status (fst (area_w_arguments argv)) = k.
Proof. intros Hd Hu. destruct (run_down_or_up argv) as [-> | ->]; assumption. Qed.

(** Decides a run by evaluating it with both roundings. *)
Ltac settle :=
  first [apply run_settled | apply observed_settled | apply status_settled];
  vm_compute; reflexivity.

(** ** The runs of the specification *)

(** C14: the test cases the specification lists, with any C library.
    [square 4] prints [Area = 16.00]; [circle 2] prints [Area = 12.57]
    (3.14159 times 4 is 12.56636); [triangle 5] prints the unknown-shape
    message; no argument prints the usage line with the program name and
    exits with status 0; [square] without a value fails with [IndexError]
    and [circle abc] with [ValueError], both with nothing printed and
    status 1. *)
Theorem specification_test_cases :
  area_w_arguments ["area.py"; "square"; "4"] = (Ok tt, ["Area = 16.00"]) /\
  area_w_arguments ["area.py"; "circle"; "2"] = (Ok tt, ["Area = 12.57"]) /\
  area_w_arguments ["area.py"; "triangle"; "5"] = (Ok tt, ["I do not know that shape"]) /\
  area_w_arguments ["area.py"] = (Raise SystemExit, ["Usage: area.py shape_name value"]) /\
  exit_status (fst (area_w_arguments ["area.py"])) = 0%Z /\
  area_w_arguments ["area.py"; "square"] = (Raise IndexError, []) /\
  area_w_arguments ["area.py"; "circle"; "abc"] = (Raise ValueError, []) /\
  exit_status (fst (area_w_arguments ["area.py"; "circle"; "abc"])) = 1%Z.
Proof. repeat split; settle. Qed.

(** C33: runs the specification does not describe, with any C library.  A
    square out of range raises [OverflowError] ([x ** 2] is not [x * x],
    which would give [inf]), from [1.3407807929942597e154] on, the double
    [2^512]; a circle whose product overflows prints [Area = inf], and a
    NaN prints [Area = nan], neither with two decimals; [float] accepts
    [inf], [nan], underscores between digits and surrounding white space; a
    negative zero and a tiny value print [Area = 0.00]. *)
Theorem unspecified_runs :
  area_w_arguments ["area.py"; "square"; "1e200"] = (Raise OverflowError, []) /\
  area_w_arguments ["area.py"; "circle"; "1e200"] = (Raise OverflowError, []) /\
  area_w_arguments ["area.py"; "square"; "1.3407807929942597e154"] = (Raise OverflowError, []) /\
  area_w_arguments ["area.py"; "circle"; "1e154"] = (Ok tt, ["Area = inf"]) /\
  area_w_arguments ["area.py"; "square"; "nan"] = (Ok tt, ["Area = nan"]) /\
  area_w_arguments ["area.py"; "square"; "-Infinity"] = (Ok tt, ["Area = inf"]) /\
  area_w_arguments ["area.py"; "square"; " 1_0 "] = (Ok tt, ["Area = 100.00"]) /\
  area_w_arguments ["area.py"; "square"; "-0.0"] = (Ok tt, ["Area = 0.00"]) /\
  area_w_arguments ["area.py"; "circle"; "1e-200"] = (Ok tt, ["Area = 0.00"]).
Proof. repeat split; settle. Qed.

(** C39: the product of [circle] is taken in the order of the source.
    [pi * r**2] multiplies the literal by the square; the product
    [3.14159 * r * r], taken from the left, rounds differently: for the
    radius [250] the script prints [Area = 196349.38], and the product from
    the left would print [Area = 196349.37]. *)
Theorem circle_association :
  area_w_arguments ["area.py"; "circle"; "250"] = (Ok tt, ["Area = 196349.38"]) /\
  format_area
    (float_mul (float_mul (float_of_decimal false 314159 (-5))
                          (float_of_decimal false 250 0))
               (float_of_decimal false 250 0)) =
    "Area = 196349.37".
Proof. split; [settle | vm_compute; reflexivity]. Qed.

(** C38: a circle whose area lies half-way between two hundredths.  For the
    radius 50 the decimal [3.14159 * 2500] is [7853.975]; the script prints
    [7853.97]: the double of the literal is below [3.14159], and so is the
    product. *)
Theorem circle_half_way :
  ((314159 * (50 * 50)) mod 1000 = 500)%Z /\
  area_w_arguments ["area.py"; "circle"; "50"] = (Ok tt, ["Area = 7853.97"]).
Proof. split; [reflexivity | settle]. Qed.

(** ** Agreement with the interpreter *)

(** C15: the runs on the 70 reference values, with any C library.  On each
    of the 70 values of [reference_runs] (integers, fractions, exponents,
    white space, underscores, malformed strings, [inf] and [nan], values
    around the overflow of the square, subnormal numbers, values half-way
    between two hundredths) the run for [square] and the run for [circle]
    print the line, or raise the exception, the table gives.  The table was
    computed with CPython 3.11; the theorem is about the model. *)
Theorem reference_runs_agree :
  length reference_runs = 70%nat /\
  Forall (fun '(x, sq, ci) =>
            observed (area_w_arguments ["area.py"; "square"; x]) = Some sq /\
            observed (area_w_arguments ["area.py"; "circle"; x]) = Some ci)
         reference_runs.
Proof.
  split; [reflexivity|].
  repeat (constructor; [split; settle|]). constructor.
Qed.

(** C20: [x ** 2] is not [x * x].  The exact square of [123456789] is
    [15241578750190521], half-way between two doubles.  The script prints
    one of them, whichever the C library returns: [15241578750190522.00]
    with a library that rounds this square up, which is what the
    interpreter prints on glibc, and [15241578750190520.00] with one that
    rounds to nearest, ties to even, which is what [x * x] gives. *)
Theorem square_is_not_product :
  (area_w_arguments ["area.py"; "square"; "123456789"] =
     (Ok tt, ["Area = 15241578750190520.00"]) \/
   area_w_arguments ["area.py"; "square"; "123456789"] =
     (Ok tt, ["Area = 15241578750190522.00"])) /\
  area_w_arguments (M := libm_up) ["area.py"; "square"; "123456789"] =
    (Ok tt, ["Area = 15241578750190522.00"]) /\
  area_w_arguments (M := libm_nearest) ["area.py"; "square"; "123456789"] =
    (Ok tt, ["Area = 15241578750190520.00"]) /\
  format_area (float_mul (float_of_decimal false 123456789 0)
                         (float_of_decimal false 123456789 0)) =
    "Area = 15241578750190520.00".
Proof.
  split; [|repeat split; vm_compute; reflexivity].
  destruct (run_down_or_up ["area.py"; "square"; "123456789"]) as [-> | ->];
    [left | right]; vm_compute; reflexivity.
Qed.

(** ** Integers *)

(** C17: the square of an integer is printed exactly.  For an integer [n]
    given in decimal whose square is below [2^53], the script prints
    [Area = ] followed by the decimal digits of [n * n] and [.00]: the
    conversion, the square and the formatting round nothing, whatever the
    C library. *)
Theorem square_of_integer (prog : string) (n : Z) :
  (0 <= n)%Z -> (n * n < 2 ^ 53)%Z ->
  area_w_arguments [prog; "square"; decimal_string n] =
  (Ok tt, ["Area = " ++ decimal_string (n * n) ++ ".00"]).
Proof.
  intros Hn Hnn. unfold area_w_arguments. rewrite main_run.
  unfold after, spec_main, spec_main_tail, spec_area, square_value, area_line.
  cbn [String.eqb Ascii.eqb Bool.eqb flt_of_string flt_pow2 flt_format_f2 cpython_float].
  rewrite float_of_string_decimal_string by assumption.
  rewrite float_of_decimal_int by (change prec with 53%Z; nia).
  rewrite float_pow2_int by assumption.
  rewrite format_f2_int by (change prec with 53%Z; nia).
  reflexivity.
Qed.

(** C18: the area of a circle of integer radius is correctly rounded.  For
    an integer radius [n] up to 100000, given in decimal, the script prints
    the decimal [3.14159 * n^2] rounded to the nearest hundredth, provided
    that decimal is not half-way between two hundredths: the errors of the
    literal, of the product and of the formatting together stay below the
    distance to the nearest rounding boundary, and the square is exact. *)
Theorem circle_of_integer (prog : string) (n : Z) :
  (0 <= n <= 100000)%Z -> ((314159 * (n * n)) mod 1000 <> 500)%Z ->
  area_w_arguments [prog; "circle"; decimal_string n] =
  (Ok tt, ["Area = " ++ fixed2 (rne (314159 * (n * n)) 1000)]).
Proof.
  intros Hn Htie. unfold area_w_arguments. rewrite main_run.
  unfold after, spec_main, spec_main_tail, spec_area, circle_value, area_line.
  cbn [String.eqb Ascii.eqb Bool.eqb flt_of_string flt_pow2 flt_mul flt_of_decimal
       flt_format_f2 cpython_float].
  rewrite float_of_string_decimal_string by lia.
  rewrite float_of_decimal_int by (change prec with 53%Z; nia).
  rewrite float_pow2_int by (change prec with 53%Z; nia).
  destruct (Z.eq_dec n 0) as [->|Hz]; [reflexivity|].
  destruct (circle_hundredths n ltac:(lia) Htie) as (m & e & E & Hh).
  fold pi. now rewrite E, <- Hh.
Qed.

(** ** The floats of CPython *)

(** C28: every float of a run is a double.  [float(x)] returns a double, a
    literal is a double, and the product and the square of doubles are
    doubles: the mantissa has 53 digits, or fewer at the least exponent, and
    the exponent is in range. *)
Theorem floats_are_doubles :
  (forall x v, float_of_string x = Ok v -> valid v = true) /\
  (forall neg d e, valid (float_of_decimal neg d e) = true) /\
  (forall a b, valid a = true -> valid b = true -> valid (float_mul a b) = true) /\
  (forall x y, valid x = true -> float_pow2 x = Ok y -> valid y = true).
Proof.
  split; [exact float_of_string_valid_ok|]. split; [exact float_of_decimal_valid|].
  split; [exact float_mul_valid|]. exact float_pow2_valid.
Qed.

(** ** Every run with a value *)

(** C12: the outcome of a run on a shape and a value, whatever the value.
    When [float] refuses the value the run raises [ValueError]; when the
    float [v] it returns is [2^512] or more in absolute value the run
    raises [OverflowError]; in both cases nothing is printed.  Otherwise
    the run prints one line: for [square] the exact square of [v] rounded
    to a double, and for [circle] the product of the literal by that
    double, each with two decimals.  The rounding of the square is the one
    the C library does on [v], downwards or upwards, and is the same for
    both shapes; arguments after the value change nothing. *)
Theorem run_outcomes (prog x : string) (rest : list string) :
  exists r, (r = floor_pick \/ r = ceil_pick) /\
    area_w_arguments (prog :: "square" :: x :: rest) =
      match float_of_string x with
      | Raise _ => (Raise ValueError, [])
      | Ok v =>
        if square_overflows v then (Raise OverflowError, [])
        else (Ok tt, [format_area (square_round r v)])
      end /\
    area_w_arguments (prog :: "circle" :: x :: rest) =
      match float_of_string x with
      | Raise _ => (Raise ValueError, [])
      | Ok v =>
        if square_overflows v then (Raise OverflowError, [])
        else (Ok tt, [format_area (float_mul pi (square_round r v))])
      end.
Proof.
  unfold area_w_arguments. rewrite !main_run.
  unfold after, spec_main, spec_main_tail, spec_area, square_value, circle_value, area_line.
  cbn [String.eqb Ascii.eqb Bool.eqb flt_of_string flt_pow2 flt_mul flt_of_decimal
       flt_format_f2 cpython_float].
  destruct (float_of_string x) as [v|e] eqn:E;
    [|rewrite (float_of_string_raises x e E); exists floor_pick; auto].
  pose proof (float_of_string_valid_ok x v E) as Hv.
  destruct (float_pow2_threshold v Hv) as [-> | ->]; [exists floor_pick | exists ceil_pick];
    (split; [auto|]); destruct (square_overflows v); split; reflexivity.
Qed.

(** C13: an area is printed with two decimals, or as [inf] or [nan].  Every
    line a run prints is the usage line, the unknown-shape message,
    [Area = nan], [Area = inf], or [Area = ] followed by one digit at
    least, a point and exactly two digits: there is no sign, no exponent
    and no other character, whatever the size of the area. *)
Theorem printed_area_two_decimals (argv : list string) (line : string) :
  In line (snd (area_w_arguments argv)) ->
  (exists prog, argv = [prog] /\ line = usage_line prog) \/
  line = unknown_line \/
  line = "Area = nan" \/ line = "Area = inf" \/
  exists ip d1 d2,
    ip <> [] /\ forallb is_digit (ip ++ [d1; d2])%list = true /\
    line = "Area = " ++ string_of_list_ascii (ip ++ "."%char :: [d1; d2])%list.
Proof.
  unfold area_w_arguments. rewrite main_run. unfold after. cbn [snd app].
  destruct argv as [|prog [|shape rest]]; cbn [spec_main snd In]; [tauto| |].
  - intros [<- | []]. eauto.
  - intros H. apply spec_main_tail_forms in H as [H|(a & -> & _ & Hn)]; [auto|].
    right; right. unfold area_line. cbn [flt_format_f2 flt_negative cpython_float] in *.
    destruct (format_f2_shape a Hn) as [-> | [-> | (ip & d1 & d2 & Hne & Hd & E)]]; auto.
    right; right. exists ip, d1, d2. rewrite <- E, string_of_list_ascii_of_string. auto.
Qed.

End Runs.

(** ** The theorems at concrete inputs

    The library of the lemmas below is [libm_nearest]. *)

#[local] Existing Instance libm_nearest.
#[local] Existing Instance libm_nearest_faithful.

Lemma specification_test_cases_witness :
  area_w_arguments ["area.py"; "square"; "4"] = (Ok tt, ["Area = 16.00"]) /\
  area_w_arguments ["area.py"; "circle"; "2"] = (Ok tt, ["Area = 12.57"]) /\
  area_w_arguments ["area.py"; "triangle"; "5"] = (Ok tt, ["I do not know that shape"]) /\
  area_w_arguments ["area.py"] = (Raise SystemExit, ["Usage: area.py shape_name value"]) /\
  exit_status (fst (area_w_arguments ["area.py"])) = 0%Z /\
  area_w_arguments ["area.py"; "square"] = (Raise IndexError, []) /\
  area_w_arguments ["area.py"; "circle"; "abc"] = (Raise ValueError, []) /\
  exit_status (fst (area_w_arguments ["area.py"; "circle"; "abc"])) = 1%Z.
Proof. exact (@specification_test_cases libm_nearest libm_nearest_faithful). Defined.

Lemma unspecified_runs_witness :
  area_w_arguments ["area.py"; "square"; "1e200"] = (Raise OverflowError, []) /\
  area_w_arguments ["area.py"; "circle"; "1e200"] = (Raise OverflowError, []) /\
  area_w_arguments ["area.py"; "square"; "1.3407807929942597e154"] = (Raise OverflowError, []) /\
  area_w_arguments ["area.py"; "circle"; "1e154"] = (Ok tt, ["Area = inf"]) /\
  area_w_arguments ["area.py"; "square"; "nan"] = (Ok tt, ["Area = nan"]) /\
  area_w_arguments ["area.py"; "square"; "-Infinity"] = (Ok tt, ["Area = inf"]) /\
  area_w_arguments ["area.py"; "square"; " 1_0 "] = (Ok tt, ["Area = 100.00"]) /\
  area_w_arguments ["area.py"; "square"; "-0.0"] = (Ok tt, ["Area = 0.00"]) /\
  area_w_arguments ["area.py"; "circle"; "1e-200"] = (Ok tt, ["Area = 0.00"]).
Proof. exact (@unspecified_runs libm_nearest libm_nearest_faithful). Defined.

Lemma circle_association_witness :
  area_w_arguments ["area.py"; "circle"; "250"] = (Ok tt, ["Area = 196349.38"]) /\
  format_area
    (float_mul (float_mul (float_of_decimal false 314159 (-5))
                          (float_of_decimal false 250 0))
               (float_of_decimal false 250 0)) =
    "Area = 196349.37".
Proof. exact (@circle_association libm_nearest libm_nearest_faithful). Defined.

Lemma circle_half_way_witness :
  ((314159 * (50 * 50)) mod 1000 = 500)%Z /\
  area_w_arguments ["area.py"; "circle"; "50"] = (Ok tt, ["Area = 7853.97"]).
Proof. exact (@circle_half_way libm_nearest libm_nearest_faithful). Defined.

Lemma reference_runs_agree_witness :
  length reference_runs = 70%nat /\
  Forall (fun '(x, sq, ci) =>
            observed (area_w_arguments ["area.py"; "square"; x]) = Some sq /\
            observed (area_w_arguments ["area.py"; "circle"; x]) = Some ci)
         reference_runs.
Proof. exact (@reference_runs_agree libm_nearest libm_nearest_faithful). Defined.

(** With the library that rounds down the square of [123456789] is
    printed as [x * x] is. *)
Lemma square_is_not_product_witness :
  (area_w_arguments (M := libm_down) ["area.py"; "square"; "123456789"] =
     (Ok tt, ["Area = 15241578750190520.00"]) \/
   area_w_arguments (M := libm_down) ["area.py"; "square"; "123456789"] =
     (Ok tt, ["Area = 15241578750190522.00"])) /\
  area_w_arguments (M := libm_up) ["area.py"; "square"; "123456789"] =
    (Ok tt, ["Area = 15241578750190522.00"]) /\
  area_w_arguments (M := libm_nearest) ["area.py"; "square"; "123456789"] =
    (Ok tt, ["Area = 15241578750190520.00"]) /\
  format_area (float_mul (float_of_decimal false 123456789 0)
                         (float_of_decimal false 123456789 0)) =
    "Area = 15241578750190520.00".
Proof. exact (@square_is_not_product libm_down libm_down_faithful). Defined.

Lemma square_of_integer_witness :
  area_w_arguments ["area.py"; "square"; "94906265"] = (Ok tt, ["Area = 9007199136250225.00"]).
Proof. apply (square_of_integer "area.py" 94906265); vm_compute; congruence. Defined.

Lemma circle_of_integer_witness :
  area_w_arguments ["area.py"; "circle"; "2"] = (Ok tt, ["Area = 12.57"]).
Proof. apply (circle_of_integer "area.py" 2); [lia | vm_compute; congruence]. Defined.

(** The value [1e200] is accepted and out of range for the square. *)
Lemma run_outcomes_witness :
  exists r, (r = floor_pick \/ r = ceil_pick) /\
    area_w_arguments ["area.py"; "square"; "1e200"] =
      match float_of_string "1e200" with
      | Raise _ => (Raise ValueError, [])
      | Ok v =>
        if square_overflows v then (Raise OverflowError, [])
        else (Ok tt, [format_area (square_round r v)])
      end /\
    area_w_arguments ["area.py"; "circle"; "1e200"] =
      match float_of_string "1e200" with
      | Raise _ => (Raise ValueError, [])
      | Ok v =>
        if square_overflows v then (Raise OverflowError, [])
        else (Ok tt, [format_area (float_mul pi (square_round r v))])
      end.
Proof. exact (@run_outcomes libm_nearest libm_nearest_faithful "area.py" "1e200" []). Defined.

Lemma printed_area_two_decimals_witness :
  (exists prog, ["area.py"; "circle"; "2"] = [prog] /\ "Area = 12.57" = usage_line prog) \/
  "Area = 12.57" = unknown_line \/
  "Area = 12.57" = "Area = nan" \/ "Area = 12.57" = "Area = inf" \/
  exists ip d1 d2,
    ip <> [] /\ forallb is_digit (ip ++ [d1; d2])%list = true /\
    "Area = 12.57" = "Area = " ++ string_of_list_ascii (ip ++ "."%char :: [d1; d2])%list.
Proof.
  apply (@printed_area_two_decimals libm_nearest libm_nearest_faithful
           ["area.py"; "circle"; "2"] "Area = 12.57").
  vm_compute. left. reflexivity.
Defined.

Lemma floats_are_doubles_witness :
  (forall x v, float_of_string x = Ok v -> valid v = true) /\
  (forall neg d e, valid (float_of_decimal neg d e) = true) /\
  (forall a b, valid a = true -> valid b = true -> valid (float_mul a b) = true) /\
  (forall x y, valid x = true -> float_pow2 x = Ok y -> valid y = true).
Proof. exact (@floats_are_doubles libm_nearest libm_nearest_faithful). Defined.

(** *** Theorems of [Script] *)

Lemma main_error_prints_nothing_witness :
  snd (run (main ["area.py"; "circle"; "abc"]) []) = [].
Proof.
  apply (main_error_prints_nothing ["area.py"; "circle"; "abc"] []).
  vm_compute. reflexivity.
Defined.

Lemma main_unknown_shape_witness :
  run (main ["area.py"; "triangle"; "5"]) [] = (Ok tt, [unknown_line]).
Proof.
  apply (main_unknown_shape "area.py" "triangle" ["5"] []); reflexivity.
Defined.

Lemma main_raises_iff_witness :
  fst (run (main ["area.py"; "square"; "1e200"]) []) = Raise OverflowError <->
  raise_cause ["area.py"; "square"; "1e200"] OverflowError.
Proof. exact (main_raises_iff ["area.py"; "square"; "1e200"] [] OverflowError). Defined.

Lemma main_exit_status_witness :
  (exit_status (fst (run (main ["area.py"; "circle"; "abc"]) [])) = 1%Z <->
   exists e, e <> SystemExit /\ raise_cause ["area.py"; "circle"; "abc"] e) /\
  (exit_status (fst (run (main ["area.py"; "circle"; "abc"]) [])) = 0%Z \/
   exit_status (fst (run (main ["area.py"; "circle"; "abc"]) [])) = 1%Z).
Proof. exact (main_exit_status ["area.py"; "circle"; "abc"] []). Defined.

Lemma main_area_not_negative_witness :
  starts_with "Area = -" "Area = 12.57" = false.
Proof.
  apply (main_area_not_negative ["area.py"; "circle"; "-2"] "Area = 12.57").
  vm_compute. left. reflexivity.
Defined.

Lemma main_output_forms_witness :
  (exists prog, ["area.py"; "circle"; "2"] = [prog] /\ "Area = 12.57" = usage_line prog) \/
  "Area = 12.57" = unknown_line \/
  exists a, "Area = 12.57" = area_line a /\ flt_valid a = true /\ flt_negative a = false.
Proof.
  apply (main_output_forms ["area.py"; "circle"; "2"] "Area = 12.57").
  vm_compute. left. reflexivity.
Defined.

(** *** Theorems of [FloatParse] *)

(** [" -12.5e+3\n"] is the numeral [-12.5e+3] between a blank and a line
    feed. *)
Lemma float_of_string_numeral_witness :
  float_of_string
    (string_of_list_ascii
       ([" "] ++ numeral_chars
                   {| num_sign := Minus; num_int := ["1"; "2"]; num_frac := Some ["5"];
                      num_exp := Some (false, Plus, ["3"]) |} ++ ["010"])%char%list) =
  Ok (float_of_decimal true 125 2).
Proof.
  exact (float_of_string_numeral [" "%char] ["010"%char]
           {| num_sign := Minus; num_int := ["1"; "2"]; num_frac := Some ["5"];
              num_exp := Some (false, Plus, ["3"]) |}%char eq_refl eq_refl eq_refl).
Defined.

(** ["3.14159"] is read as the double of the literal of the source. *)
Lemma float_of_string_correctly_rounded_witness :
  false = false /\
  within_half_ulp 7074231776675438 (-51) (314159 * 10 ^ Z.max (0 - 5) 0)
    (10 ^ Z.max (- (0 - 5)) 0) 0.
Proof.
  exact (float_of_string_correctly_rounded [] []
           {| num_sign := NoSign; num_int := ["3"]; num_frac := Some ["1"; "4"; "1"; "5"; "9"];
              num_exp := None |}%char false 7074231776675438 (-51)
           eq_refl eq_refl eq_refl eq_refl).
Defined.

Lemma float_of_string_special_witness :
  float_of_string " -InFiNiTy " = Ok (S754_infinity true).
Proof.
  exact (float_of_string_special [" "] [" "] ["I"; "n"; "F"; "i"; "N"; "i"; "T"; "y"]
           Minus Infinity eq_refl eq_refl eq_refl)%char.
Defined.

Lemma float_of_string_underscore_witness :
  float_of_string "1_000.5" = float_of_string "1000.5".
Proof.
  exact (float_of_string_underscore [] ["0"; "0"; "."; "5"] "1" "0"
           eq_refl eq_refl eq_refl eq_refl)%char.
Defined.

Lemma with_underscores_refused_witness :
  with_underscores float_from_string_inner ["_"; "1"]%char = Raise ValueError /\
  with_underscores float_from_string_inner ["1"; "."; "_"]%char = Raise ValueError /\
  with_underscores float_from_string_inner ["1"; "."; "_"; "5"; "1"]%char = Raise ValueError.
Proof.
  exact (with_underscores_refused float_from_string_inner ["1"] ["1"] "." "5"
           eq_refl eq_refl eq_refl)%char.
Defined.

(** *** Theorems of [Validity] and [Accuracy] *)

(** [2^512], the least double whose square overflows. *)
Lemma float_pow2_overflow_iff_witness :
  (float_pow2 (S754_finite false 4503599627370496 460) = Raise OverflowError <->
   square_overflows (S754_finite false 4503599627370496 460) = true) /\
  (square_overflows (S754_finite false 4503599627370496 460) = false ->
   float_pow2 (S754_finite false 4503599627370496 460) =
     Ok (square_round floor_pick (S754_finite false 4503599627370496 460)) \/
   float_pow2 (S754_finite false 4503599627370496 460) =
     Ok (square_round ceil_pick (S754_finite false 4503599627370496 460))).
Proof. exact (float_pow2_overflow_iff (S754_finite false 4503599627370496 460) eq_refl). Defined.

(** [1.5 ** 2 = 2.25], exactly. *)
Lemma float_pow2_exact_square_witness :
  float_pow2 (S754_finite false 6755399441055744 (-52)) =
  square_ref (S754_finite false 6755399441055744 (-52)).
Proof.
  exact (float_pow2_exact_square (S754_finite false 6755399441055744 (-52)) eq_refl).
Defined.

(** [3.14159 * 4.0 = 12.56636], rounded. *)
Lemma float_mul_within_half_ulp_witness :
  false = xorb false false /\
  within_half_ulp 7074231776675438 (-49)
    (7074231776675438 * 4503599627370496) 1 (-51 + -50).
Proof.
  exact (float_mul_within_half_ulp false 7074231776675438 (-51) false 4503599627370496 (-50)
           false 7074231776675438 (-49) eq_refl eq_refl eq_refl).
Defined.

(** The literal [3.14159]. *)
Lemma float_of_decimal_within_half_ulp_witness :
  false = false /\
  within_half_ulp 7074231776675438 (-51) (314159 * 10 ^ Z.max (-5) 0) (10 ^ Z.max (- -5) 0) 0.
Proof.
  exact (float_of_decimal_within_half_ulp false 314159 (-5) false 7074231776675438 (-51) eq_refl).
Defined.
